(** * Verification of the transpilex path restructurer and include rewriter

    Shallow embedding of
    - [transpilex/utils/casing.py]            ([apply_casing]),
    - [transpilex/utils/restructure.py]       ([_get_restructured_path],
                                               [restructure_and_copy_files]),
    - [transpilex/utils/pattern.py]           (pattern loading),
    - [transpilex/utils/replace_variables.py] ([replace_variables]),
    - the include rewriting and parameter parsing of
      [transpilex/frameworks/laravel.py] and [transpilex/frameworks/flask.py].

    Text is modelled as [string] over ASCII characters; the casing and
    whitespace predicates follow Python on ASCII.  Paths are modelled as the
    list of their (relative) parts, as [pathlib] normalises them. *)

From Stdlib Require Import Ascii String List Bool Arith ZArith Lia.
Import ListNotations.
Open Scope string_scope.
Open Scope list_scope.

(* ------------------------------------------------------------------ *)
(** ** Python string primitives *)

Module Py.
Local Open Scope nat_scope.

Definition chars (s : string) : list ascii := list_ascii_of_string s.

(** the double quote character *)
Definition dq : ascii := ascii_of_nat 34.

(** [qq s]: [s] with every backquote read as a double quote, to write
    literals that contain double quotes. *)
Definition qq (s : string) : string :=
  string_of_list_ascii
    (map (fun c => if Ascii.eqb c "`"%char then dq else c) (list_ascii_of_string s)).
Definition of_chars (l : list ascii) : string := string_of_list_ascii l.

(** [str.isspace] / regex [\s] on ASCII: \t \n \v \f \r, \x1c-\x1f, space. *)
Definition is_space (c : ascii) : bool :=
  let n := nat_of_ascii c in
  ((9 <=? n) && (n <=? 13)) || ((28 <=? n) && (n <=? 32)).

Definition is_upper (c : ascii) : bool :=
  let n := nat_of_ascii c in (65 <=? n) && (n <=? 90).
Definition is_lower (c : ascii) : bool :=
  let n := nat_of_ascii c in (97 <=? n) && (n <=? 122).
Definition is_digit (c : ascii) : bool :=
  let n := nat_of_ascii c in (48 <=? n) && (n <=? 57).
Definition is_alpha (c : ascii) : bool := is_upper c || is_lower c.
(** regex [\w] on ASCII *)
Definition is_word (c : ascii) : bool :=
  is_alpha c || is_digit c || Ascii.eqb c "_"%char.

Definition lower_c (c : ascii) : ascii :=
  if is_upper c then ascii_of_nat (nat_of_ascii c + 32) else c.
Definition upper_c (c : ascii) : ascii :=
  if is_lower c then ascii_of_nat (nat_of_ascii c - 32) else c.

(** [str.lower], [str.capitalize] *)
Definition lower (s : string) : string := of_chars (map lower_c (chars s)).
Definition capitalize (s : string) : string :=
  match chars s with
  | [] => ""
  | c :: t => of_chars (upper_c c :: map lower_c t)
  end.

Fixpoint drop_while (p : ascii -> bool) (l : list ascii) : list ascii :=
  match l with
  | [] => []
  | c :: t => if p c then drop_while p t else l
  end.

(** [str.strip()] *)
Definition strip (s : string) : string :=
  of_chars (rev (drop_while is_space (rev (drop_while is_space (chars s))))).

(** [str.lstrip(cs)] *)
Definition lstrip_chars (cs : list ascii) (s : string) : string :=
  of_chars (drop_while (fun c => existsb (Ascii.eqb c) cs) (chars s)).

(** [str.join] *)
Fixpoint join (sep : string) (l : list string) : string :=
  match l with
  | [] => ""
  | [x] => x
  | x :: t => x ++ sep ++ join sep t
  end.

(** [str.split(sep)] for a one-character separator: empty fields kept. *)
Fixpoint split_go (sep : ascii) (l : list ascii) (cur : list ascii)
  : list string :=
  match l with
  | [] => [of_chars (rev cur)]
  | c :: t => if Ascii.eqb c sep then of_chars (rev cur) :: split_go sep t []
              else split_go sep t (c :: cur)
  end.
Definition split (sep : ascii) (s : string) : list string :=
  split_go sep (chars s) [].

(** [re.split(r'[\s_\-]+', s)]: split at every maximal run of separator
    characters; a run at either end yields an empty first or last word. *)
Definition is_case_sep (c : ascii) : bool :=
  is_space c || Ascii.eqb c "_"%char || Ascii.eqb c "-"%char.

Fixpoint split_runs_go (l : list ascii) (cur : list ascii) (in_run : bool)
  : list string :=
  match l with
  | [] => [of_chars (rev cur)]
  | c :: t =>
      if is_case_sep c then
        if in_run then split_runs_go t [] true
        else of_chars (rev cur) :: split_runs_go t [] true
      else split_runs_go t (c :: cur) false
  end.
Definition split_runs (s : string) : list string :=
  split_runs_go (chars s) [] false.

Fixpoint prefixb (p l : list ascii) : bool :=
  match p, l with
  | [], _ => true
  | a :: p', b :: l' => Ascii.eqb a b && prefixb p' l'
  | _ :: _, [] => false
  end.

(** [str.startswith] *)
Definition startswith (s p : string) : bool := prefixb (chars p) (chars s).

(** [str.endswith] *)
Definition endswith (s p : string) : bool :=
  prefixb (rev (chars p)) (rev (chars s)).

(** [str.removesuffix] *)
Definition removesuffix (s p : string) : string :=
  if (String.length p =? 0)%nat then s
  else if endswith s p
       then substring 0 (String.length s - String.length p) s else s.

(** [sub in s] *)
Fixpoint contains_go (p l : list ascii) : bool :=
  match l with
  | [] => prefixb p l
  | _ :: t => prefixb p l || contains_go p t
  end.
Definition contains (s sub : string) : bool := contains_go (chars sub) (chars s).

(** [str.replace(old, new, count)] with [count = None] for all occurrences;
    [old] is non-empty at every call site modelled here. *)
Fixpoint replace_go (fuel : nat) (old new : list ascii) (count : option nat)
    (l : list ascii) : list ascii :=
  match fuel with
  | O => l
  | S f =>
      match count with
      | Some 0 => l
      | _ =>
        match l with
        | [] => []
        | c :: t =>
            if prefixb old l then
              new ++ replace_go f old new (option_map pred count)
                                (skipn (length old) l)
            else c :: replace_go f old new count t
        end
      end
  end.
Definition replace_n (s old new : string) (count : option nat) : string :=
  of_chars (replace_go (S (String.length s)) (chars old) (chars new) count
                       (chars s)).
Definition replace (s old new : string) : string := replace_n s old new None.

(** [str.rfind] on a character, [None] for -1 *)
Definition rfind (c : ascii) (s : string) : option nat :=
  fold_left (fun acc '(i, d) => if Ascii.eqb d c then Some i else acc)
            (combine (seq 0 (String.length s)) (chars s)) None.

End Py.

(* ------------------------------------------------------------------ *)
(** ** [utils/casing.py] *)

Inductive case_style := Kebab | Snake | Pascal | Camel | Other.

(** [apply_casing(text, style)] *)
Definition apply_casing (text : string) (style : case_style) : string :=
  let words := Py.split_runs (Py.strip text) in
  match style with
  | Kebab => Py.join "-" (map Py.lower words)
  | Snake => Py.join "_" (map Py.lower words)
  | Pascal => String.concat "" (map Py.capitalize words)
  | Camel =>
      match words with
      | [] => ""
      | w :: ws => Py.lower w ++ String.concat "" (map Py.capitalize ws)
      end
  | Other => text
  end.


(* ------------------------------------------------------------------ *)
(** ** [pathlib] and [os.path] on relative paths *)

Module PyPath.
Local Open Scope nat_scope.

(** A relative [PurePosixPath] is the list of its parts: [Path( *parts)]
    drops empty and ["."] components. *)
Definition mk (parts : list string) : list string :=
  filter (fun p => negb (String.eqb p "" || String.eqb p ".")) parts.

(** [Path(s)] for a string [s] without a leading ["/"]. *)
Definition of_string (s : string) : list string := mk (Py.split "/" s).

(** [str(path)] / [path.as_posix()] *)
Definition to_string (p : list string) : string :=
  match p with [] => "." | _ => Py.join "/" p end.

(** [os.path.splitext] on a file name (no ["/"]): the extension starts at
    the last dot, unless only dots precede it. *)
Definition splitext (name : string) : string * string :=
  match Py.rfind "." name with
  | None => (name, "")
  | Some d =>
      if forallb (Ascii.eqb ".") (Py.chars (substring 0 d name))
      then (name, "")
      else (substring 0 d name, substring d (String.length name - d) name)
  end.

(** [PurePath.suffix]: from the last dot when [0 < i < len(name) - 1]. *)
Definition suffix_index (name : string) : option nat :=
  match Py.rfind "." name with
  | Some i => if (0 <? i) && (i <? String.length name - 1) then Some i else None
  | None => None
  end.

(** [path.with_suffix(suf)]; [None] is the [ValueError] raised on an empty
    name or an invalid suffix. *)
Definition with_suffix (p : list string) (suf : string) : option (list string) :=
  match rev p with
  | [] => None
  | name :: rparents =>
      if (negb (String.eqb suf "") && negb (Py.startswith suf "."))
         || String.eqb suf "."
      then None
      else
        let stem := match suffix_index name with
                    | Some i => substring 0 i name
                    | None => name
                    end in
        Some (rev rparents ++ [(stem ++ suf)%string])
  end.

(** [path.relative_to(other)]: [None] is the [ValueError]. *)
Fixpoint relative_to (p other : list string) {struct other}
  : option (list string) :=
  match other with
  | [] => Some p
  | o :: os =>
      match p with
      | x :: xs => if String.eqb o x then relative_to xs os else None
      | [] => None
      end
  end.

End PyPath.


(* ------------------------------------------------------------------ *)
(** ** [config/base.py] keyword tables and [utils/restructure.py] *)

Module Restructure.
Local Open Scope nat_scope.

(** [FOLDERS] *)
Definition FOLDERS : list string :=
  ["dashboard"; "dashboards"; "apps"; "ecommerce"; "hr"; "project"; "promo";
   "task"; "users"; "projects"; "blog"; "ticket"; "forum"; "crm"; "email";
   "finance"; "hospital"; "hrm"; "invoice"; "pos"; "pages"; "misc";
   "plugins"; "auth"; "auth-2"; "auth-3"; "auth-card"; "auth-split";
   "auth-basic"; "auth-cover"; "auth-boxed"; "auth-modern"; "error";
   "layouts"; "sidebar"; "topbar"; "sidenav"; "ui"; "base-ui"; "form";
   "forms"; "chart"; "charts"; "apex"; "echart"; "chartjs"; "table";
   "tables"; "datatables"; "icon"; "icons"; "map"; "maps"; "utilities";
   "navigation"; "landing"; "invoices"; "contacts"].

(** [NO_NESTING_FOLDERS] *)
Definition NO_NESTING_FOLDERS : list string :=
  ["dashboard"; "dashboards"; "pages"; "misc"; "plugins"; "auth"; "auth-2";
   "auth-3"; "auth-card"; "auth-split"; "auth-basic"; "auth-cover";
   "auth-boxed"; "auth-modern"; "error"; "ui"; "base-ui"; "form"; "forms";
   "icon"; "icons"; "map"; "maps"; "landing"].

Definition mem (x : string) (l : list string) : bool := existsb (String.eqb x) l.

Definition ntokens (fw : string) : nat := length (Py.split "-" fw).

(** [sorted(FOLDERS, key=lambda x: -len(x.split('-')))]: a stable sort by
    decreasing token count.  The iteration order of the Python set is not
    fixed, but two keywords with the same token count match the same span
    only when they are equal, so the scan does not depend on it. *)
Fixpoint insert_desc (x : string) (l : list string) : list string :=
  match l with
  | [] => [x]
  | y :: t => if ntokens y <? ntokens x then x :: l else y :: insert_desc x t
  end.
Definition sorted_folders : list string :=
  fold_left (fun acc x => insert_desc x acc) (rev FOLDERS) [].

Fixpoint list_str_eqb (a b : list string) : bool :=
  match a, b with
  | [], [] => true
  | x :: a', y :: b' => String.eqb x y && list_str_eqb a' b'
  | _, _ => false
  end.

(** Local state of the scan in [_get_restructured_path]. *)
Record scan := mkScan {
  folder_parts : list string;
  file_parts : list string;
  idx : nat;
  stop_at_no_nest : bool;
  nesting_stopped : bool
}.

(** The inner [for fw in sorted(...)] loop; the boolean is [matched]. *)
Fixpoint try_folders (fws : list string) (parts : list string) (st : scan)
  : scan * bool :=
  match fws with
  | [] => (st, false)
  | fw :: rest =>
      let fw_tokens := Py.split "-" fw in
      let token_range := firstn (length fw_tokens) (skipn (idx st) parts) in
      if list_str_eqb token_range fw_tokens then
        if length parts <=? idx st + length fw_tokens then
          (mkScan (folder_parts st) (file_parts st ++ token_range)
                  (idx st + length fw_tokens) (stop_at_no_nest st) true, true)
        else
          (mkScan (folder_parts st ++ [fw]) (file_parts st)
                  (idx st + length fw_tokens)
                  (stop_at_no_nest st || mem fw NO_NESTING_FOLDERS)
                  (nesting_stopped st), true)
      else try_folders rest parts st
  end.

(** The [while i < total_parts] loop; [fuel] bounds the iterations, each of
    which advances [i]. *)
Fixpoint scan_loop (fuel : nat) (parts : list string) (st : scan) : scan :=
  match fuel with
  | O => st
  | S f =>
      if idx st <? length parts then
        let token := nth (idx st) parts "" in
        if nesting_stopped st then
          scan_loop f parts (mkScan (folder_parts st) (file_parts st ++ [token])
                                    (S (idx st)) (stop_at_no_nest st) true)
        else
          let '(st1, matched) := try_folders sorted_folders parts st in
          let st2 := if matched then st1
                     else mkScan (folder_parts st1) (file_parts st1 ++ [token])
                                 (S (idx st1)) (stop_at_no_nest st1) true in
          if stop_at_no_nest st2 then
            mkScan (folder_parts st2) (file_parts st2 ++ skipn (idx st2) parts)
                   (idx st2) true (nesting_stopped st2)
          else scan_loop f parts st2
      else st
  end.

Definition init_scan : scan := mkScan [] [] 0 false false.

(** Result of the scan on a file name: folder segments, final file name and
    whether a no-nest keyword stopped the nesting. *)
Definition restructure_name (filename : string)
  : list string * string * bool :=
  let '(name_without_ext, ext) := PyPath.splitext filename in
  let parts := Py.split "-" name_without_ext in
  let st := scan_loop (S (length parts)) parts init_scan in
  let file :=
    match file_parts st, rev (folder_parts st) with
    | [], last :: _ => (last ++ ext)%string
    | _ :: _, _ => (Py.join "-" (file_parts st) ++ ext)%string
    | [], [] => filename
    end in
  (folder_parts st, file, stop_at_no_nest st).

(** [_get_restructured_path(src_file, src_root, dest_root)], with the
    source file given relative to [src_root] as its parent parts and name. *)
Definition get_restructured_path (existing_parent : list string)
    (filename : string) (dest_root : list string) : list string :=
  let '(folders, file, stop) := restructure_name filename in
  if stop then PyPath.mk (dest_root ++ [hd "" folders; file])
  else PyPath.mk (dest_root ++ existing_parent ++ folders ++ [file]).

(** Once a no-nest keyword stopped the nesting, it is the last folder. *)
Definition no_nest_last (st : scan) : Prop :=
  stop_at_no_nest st = true ->
  folder_parts st <> [] /\ mem (last (folder_parts st) "") NO_NESTING_FOLDERS = true.

End Restructure.


Module Route.
Local Open Scope nat_scope.

(** [_apply_case_style(path)] inside [restructure_and_copy_files]: every part
    of the path, the destination root included, is re-cased. *)
Definition case_part (case_style : case_style) (part : string) : string :=
  let '(stem, ext) :=
    match Py.rfind "." part with
    | None => (part, "")
    | Some d => (substring 0 d part,
                 substring (S d) (String.length part - S d) part)
    end in
  let new_stem := match case_style with
                  | Pascal => apply_casing stem Pascal
                  | _ => apply_casing stem Kebab
                  end in
  if String.eqb ext "" then new_stem else (new_stem ++ "." ++ ext)%string.

Definition apply_case_style (case_style : case_style) (p : list string)
  : list string := PyPath.mk (map (case_part case_style) p).

(** The route of one copied file (lines 170-182); [None] when one of the
    path operations raises, in which case the file gets no route. *)
Definition route_of_dest (dest_file dest_path : list string) : option string :=
  let rel_dest :=
    match PyPath.relative_to dest_file dest_path with
    | Some r => r
    | None =>
        PyPath.of_string
          (Py.lstrip_chars ["/"%char; "\"%char]
             (Py.replace_n (Py.lower (PyPath.to_string dest_file))
                           (Py.lower (PyPath.to_string dest_path)) "" (Some 1)))
    end in
  match PyPath.with_suffix rel_dest "" with
  | None => None
  | Some no_ext =>
      let route_stem :=
        apply_casing (Py.removesuffix (PyPath.to_string no_ext) ".blade") Kebab in
      Some ("/" ++ Py.lstrip_chars ["/"%char] route_stem)%string
  end.

(** The destination file of one source file (lines 159-163). *)
Definition dest_of (case_style : case_style) (extension : option string)
    (dest_path existing_parent : list string) (filename : string)
  : option (list string) :=
  let dest_file :=
    apply_case_style case_style
      (Restructure.get_restructured_path existing_parent filename dest_path) in
  match extension with
  | None | Some "" => Some dest_file
  | Some e =>
      PyPath.with_suffix dest_file
        (if Py.startswith e "." then e else ("." ++ e)%string)
  end.

(** A source file under the pages root: its parent parts and its name. *)
Definition src_file := (list string * string)%type.

(** [restructure_and_copy_files(config, dest_path, extension, case_style)]:
    the route map, as an association list in insertion order, a later file
    with the same name overwriting the earlier entry in place.  Copying is
    assumed to succeed.  [None] is the [ValueError] of [with_suffix] on
    line 163, which is outside the [try] block and aborts the call. *)
Fixpoint dict_set (k v : string) (m : list (string * string))
  : list (string * string) :=
  match m with
  | [] => [(k, v)]
  | (k', v') :: t => if String.eqb k k' then (k, v) :: t
                     else (k', v') :: dict_set k v t
  end.

Fixpoint copy_loop (dest_path : list string) (extension : option string)
    (case_style : case_style) (files : list src_file)
    (route_map : list (string * string)) : option (list (string * string)) :=
  match files with
  | [] => Some route_map
  | (parent, name) :: rest =>
      match dest_of case_style extension dest_path parent name with
      | None => None
      | Some dest_file =>
          copy_loop dest_path extension case_style rest
            (match route_of_dest dest_file dest_path with
             | Some r => dict_set name r route_map
             | None => route_map
             end)
      end
  end.

Definition restructure_and_copy_files (files : list src_file)
    (dest_path : list string) (extension : option string)
    (case_style : case_style) : option (list (string * string)) :=
  copy_loop dest_path extension case_style files [].

End Route.


(* ------------------------------------------------------------------ *)
(** ** Python [re]: a backtracking matcher

    Regular expressions as an abstract syntax tree, matched the way
    Python's [sre] engine does: leftmost match, alternatives and
    repetitions tried in priority order with backtracking.  Character
    classes are predicates on characters.  A repetition stops iterating
    when an iteration matches the empty string. *)

Module Re.
Local Open Scope nat_scope.

Inductive re :=
| Chr (p : ascii -> bool)          (** one character of a class *)
| Seq (a b : re)
| Alt (a b : re)                   (** [a|b] *)
| Star (greedy : bool) (a : re)    (** [a*] or [a*?] *)
| Eps
| Grp (n : nat) (a : re)           (** capturing group number [n] *)
| Bol                              (** [^] without MULTILINE *)
| Eol                              (** [$] without MULTILINE *)
| MBol                             (** [^] with MULTILINE *)
| MEol.                            (** [$] with MULTILINE *)

(** Captures: group number to span, latest binding first. *)
Definition caps := list (nat * (nat * nat)).

Fixpoint mt (s : list ascii) (r : re) (i : nat) (c : caps)
    (k : nat -> caps -> option (nat * caps)) {struct r} : option (nat * caps) :=
  match r with
  | Chr p =>
      match nth_error s i with
      | Some ch => if p ch then k (S i) c else None
      | None => None
      end
  | Seq a b => mt s a i c (fun j c' => mt s b j c' k)
  | Alt a b =>
      match mt s a i c k with
      | Some x => Some x
      | None => mt s b i c k
      end
  | Star g a =>
      let fix star (n i : nat) (c : caps) : option (nat * caps) :=
        match n with
        | O => k i c
        | S n' =>
            if g then
              match mt s a i c (fun j c' => if i <? j then star n' j c' else None) with
              | Some x => Some x
              | None => k i c
              end
            else
              match k i c with
              | Some x => Some x
              | None => mt s a i c (fun j c' => if i <? j then star n' j c' else None)
              end
        end in
      star (S (length s - i)) i c
  | Eps => k i c
  | Grp n a => mt s a i c (fun j c' => k j ((n, (i, j)) :: c'))
  | Bol => if i =? 0 then k i c else None
  | Eol =>
      if (i =? length s)
         || ((S i =? length s) && (match nth_error s i with
                                   | Some ch => Ascii.eqb ch "010"%char
                                   | None => false end))
      then k i c else None
  | MBol =>
      match i with
      | O => k i c
      | S i' => match nth_error s i' with
                | Some ch => if Ascii.eqb ch "010"%char then k i c else None
                | None => None
                end
      end
  | MEol =>
      match nth_error s i with
      | None => k i c
      | Some ch => if Ascii.eqb ch "010"%char then k i c else None
      end
  end.

(** Derived forms. *)
Definition Plus (a : re) : re := Seq a (Star true a).
Definition Opt (a : re) : re := Alt a Eps.
Definition ch (c : ascii) : re := Chr (Ascii.eqb c).
Definition any_of (cs : string) : re := Chr (fun c => existsb (Ascii.eqb c) (Py.chars cs)).
Definition none_of (cs : string) : re :=
  Chr (fun c => negb (existsb (Ascii.eqb c) (Py.chars cs))).
Fixpoint lit_l (l : list ascii) : re :=
  match l with [] => Eps | [c] => ch c | c :: t => Seq (ch c) (lit_l t) end.
Definition lit (s : string) : re := lit_l (Py.chars s).
Fixpoint seqs (l : list re) : re :=
  match l with [] => Eps | [a] => a | a :: t => Seq a (seqs t) end.
Definition ws : re := Chr Py.is_space.                 (** [\s] *)
Definition word : re := Chr Py.is_word.                (** [\w] *)
Definition digit : re := Chr Py.is_digit.              (** [\d] *)
Definition anychar : re := Chr (fun _ => true).        (** [[\s\S]], or [.] with DOTALL *)

(** A match: start, end and captures. *)
Record m := mkM { m_start : nat; m_end : nat; m_caps : caps }.

Definition match_at (s : list ascii) (r : re) (i : nat) : option m :=
  match mt s r i [] (fun j c => Some (j, c)) with
  | Some (j, c) => Some (mkM i j c)
  | None => None
  end.

Fixpoint search_go (s : list ascii) (r : re) (i fuel : nat) : option m :=
  match fuel with
  | O => None
  | S f =>
      match match_at s r i with
      | Some x => Some x
      | None => if i <? length s then search_go s r (S i) f else None
      end
  end.

(** [re.search] from position [i]. *)
Definition search_from (s : list ascii) (r : re) (i : nat) : option m :=
  search_go s r i (S (length s)).

(** A match at [i] that is not empty. *)
Definition match_at_nonempty (s : list ascii) (r : re) (i : nat) : option m :=
  match mt s r i [] (fun j c => if i <? j then Some (j, c) else None) with
  | Some (j, c) => Some (mkM i j c)
  | None => None
  end.

(** The search after an empty match at [i]: a match at [i] must not be
    empty ([must_advance] of Python's engine). *)
Definition search_advancing (s : list ascii) (r : re) (i : nat) : option m :=
  match match_at_nonempty s r i with
  | Some x => Some x
  | None => if i <? length s then search_from s r (S i) else None
  end.

(** [finditer]: successive non-overlapping matches, each search starting
    where the previous match ended; after an empty match the next one may
    not be empty at the same place. *)
Fixpoint finditer_go (s : list ascii) (r : re) (pos : nat) (adv : bool) (fuel : nat) : list m :=
  match fuel with
  | O => []
  | S f =>
      match (if adv then search_advancing s r pos else search_from s r pos) with
      | None => []
      | Some x => x :: finditer_go s r (m_end x) (m_end x =? m_start x) f
      end
  end.
Definition finditer (r : re) (str : string) : list m :=
  finditer_go (Py.chars str) r 0 false (S (2 * S (String.length str))).

Definition search (r : re) (str : string) : option m := search_from (Py.chars str) r 0.

Definition slice (s : list ascii) (i j : nat) : string :=
  Py.of_chars (firstn (j - i) (skipn i s)).

(** [match.group(n)]: [None] when the group did not take part. *)
Definition group (str : string) (x : m) (n : nat) : option string :=
  match n with
  | O => Some (slice (Py.chars str) (m_start x) (m_end x))
  | _ =>
      match find (fun p => fst p =? n) (m_caps x) with
      | Some (_, (i, j)) => Some (slice (Py.chars str) i j)
      | None => None
      end
  end.

Definition group_or (str : string) (x : m) (n : nat) (dflt : string) : string :=
  match group str x n with Some g => g | None => dflt end.

(** Replacement templates: literal text and group references [\n]; a group
    that did not take part is replaced by the empty string. *)
Inductive piece := PLit (s : string) | PGrp (n : nat).

Definition expand (str : string) (x : m) (tpl : list piece) : string :=
  String.concat "" (map (fun p => match p with
                                 | PLit t => t
                                 | PGrp n => group_or str x n ""
                                 end) tpl).

Fixpoint sub_go (str : string) (tpl : list piece) (pos : nat) (ms : list m) : string :=
  match ms with
  | [] => slice (Py.chars str) pos (String.length str)
  | x :: t =>
      (slice (Py.chars str) pos (m_start x) ++ expand str x tpl
       ++ sub_go str tpl (m_end x) t)%string
  end.

(** [re.sub(pattern, repl, string)] *)
Definition sub (r : re) (tpl : list piece) (str : string) : string :=
  sub_go str tpl 0 (finditer r str).

(** [re.findall] for a pattern with groups [1..n]: the tuples of the
    groups, [""] for a group that did not take part. *)
Definition findall (r : re) (ngroups : nat) (str : string) : list (list string) :=
  map (fun x => map (fun n => group_or str x n "") (seq 1 ngroups)) (finditer r str).

End Re.

(* ------------------------------------------------------------------ *)
(** ** Python values produced by the parameter parsers *)

Module PyVal.
#[local] Set Warnings "-register-all".
Local Unset Elimination Schemes.
Local Open Scope nat_scope.

(** A float is kept as the text of its literal. *)
Inductive pyval :=
| PNone
| PBool (b : bool)
| PInt (z : Z)
| PFloat (repr : string)
| PStr (s : string)
| PList (l : list pyval)
| PTuple (l : list pyval)
| PDict (kv : list (pyval * pyval))   (** insertion order *)
| PSet (l : list pyval).              (** order of first insertion *)

Definition num_of (v : pyval) : option Z :=
  match v with
  | PBool b => Some (if b then 1%Z else 0%Z)
  | PInt z => Some z
  | _ => None
  end.

(** [==] on hashable values, [True == 1] included. *)
Fixpoint py_eqb (a b : pyval) : bool :=
  match a, b with
  | PNone, PNone => true
  | PFloat x, PFloat y => String.eqb x y
  | PStr x, PStr y => String.eqb x y
  | PTuple xs, PTuple ys =>
      (fix go (xs ys : list pyval) : bool :=
         match xs, ys with
         | [], [] => true
         | x :: xs', y :: ys' => py_eqb x y && go xs' ys'
         | _, _ => false
         end) xs ys
  | _, _ =>
      match num_of a, num_of b with
      | Some x, Some y => Z.eqb x y
      | _, _ => false
      end
  end.

Fixpoint hashable (v : pyval) : bool :=
  match v with
  | PList _ | PDict _ | PSet _ => false
  | PTuple l => forallb hashable l
  | _ => true
  end.

(** [d[k] = v]: an existing equal key keeps its place and its key object. *)
Fixpoint dict_insert (k v : pyval) (d : list (pyval * pyval)) : list (pyval * pyval) :=
  match d with
  | [] => [(k, v)]
  | (k', v') :: t => if py_eqb k k' then (k', v) :: t else (k', v') :: dict_insert k v t
  end.

Fixpoint set_add (x : pyval) (l : list pyval) : list pyval :=
  match l with
  | [] => [x]
  | y :: t => if py_eqb x y then l else y :: set_add x t
  end.

(** [dict(pairs)] / [dict(zip(keys, values))]; [None] is the [TypeError]
    of an unhashable key. *)
Definition dict_of (kvs : list (pyval * pyval)) : option pyval :=
  if forallb (fun kv => hashable (fst kv)) kvs
  then Some (PDict (fold_left (fun d kv => dict_insert (fst kv) (snd kv) d) kvs []))
  else None.

Definition set_of (xs : list pyval) : option pyval :=
  if forallb hashable xs
  then Some (PSet (fold_left (fun s x => set_add x s) xs []))
  else None.

(** [{k: v for k, v in pairs}] over string pairs *)
Definition str_dict (pairs : list (string * string)) : pyval :=
  PDict (fold_left (fun d kv => dict_insert (PStr (fst kv)) (PStr (snd kv)) d) pairs []).

(** [d.get(key)] for a string key *)
Definition dict_get (d : list (pyval * pyval)) (key : string) : option pyval :=
  match find (fun kv => py_eqb (fst kv) (PStr key)) d with
  | Some (_, v) => Some v
  | None => None
  end.

(** Truth value, [bool(v)] *)
Definition truthy (v : pyval) : bool :=
  match v with
  | PNone => false
  | PBool b => b
  | PInt z => negb (Z.eqb z 0)
  | PFloat r => negb (existsb (String.eqb r) ["0.0"; "0"; "-0.0"; "0e0"])
  | PStr s => negb (String.eqb s "")
  | PList l | PTuple l | PSet l => match l with [] => false | _ => true end
  | PDict d => match d with [] => false | _ => true end
  end.

(** [int(s)] on an optionally signed decimal literal *)
Definition digits_to_Z (l : list ascii) : Z :=
  fold_left (fun acc c => (acc * 10 + Z.of_nat (nat_of_ascii c - 48))%Z) l 0%Z.
Definition int_of_string (s : string) : Z :=
  match Py.chars s with
  | c :: t => if Ascii.eqb c "-" then Z.opp (digits_to_Z t) else digits_to_Z (c :: t)
  | [] => 0%Z
  end.

End PyVal.

(* ------------------------------------------------------------------ *)
(** ** [json.loads]

    Python's [json] decoder: objects (duplicate keys: the last value wins),
    arrays, strings, numbers ([int] when there is neither fraction nor
    exponent), [true], [false], [null], [NaN], [Infinity], [-Infinity];
    whitespace around the document; anything else raises
    [JSONDecodeError] ([None]).  A [\u] escape is decoded for code points
    below 128 only: text is modelled as ASCII. *)

Module Json.
Import PyVal.
Local Open Scope nat_scope.

Definition P (A : Type) := list ascii -> option (A * list ascii).

Definition is_jws (c : ascii) : bool :=
  existsb (Ascii.eqb c) [" "; "009"; "010"; "013"]%char.
Definition jws (l : list ascii) : list ascii := Py.drop_while is_jws l.

Fixpoint take_while (p : ascii -> bool) (l : list ascii) : list ascii * list ascii :=
  match l with
  | c :: t => if p c then let '(a, b) := take_while p t in (c :: a, b) else ([], l)
  | [] => ([], [])
  end.

Definition hex_val (c : ascii) : option nat :=
  let n := nat_of_ascii c in
  if Py.is_digit c then Some (n - 48)
  else if (97 <=? n) && (n <=? 102) then Some (n - 87)
  else if (65 <=? n) && (n <=? 70) then Some (n - 55)
  else None.

(** The body of a string literal after the opening quote. *)
Fixpoint jstring_body (l : list ascii) : option (list ascii * list ascii) :=
  match l with
  | [] => None
  | c :: t =>
      if Ascii.eqb c Py.dq then Some ([], t)
      else if nat_of_ascii c <? 32 then None
      else if Ascii.eqb c "\" then
        match t with
        | e :: t' =>
            let simple := fun (d : ascii) =>
              match jstring_body t' with
              | Some (b, r) => Some (d :: b, r)
              | None => None
              end in
            if Ascii.eqb e Py.dq then simple Py.dq
            else if Ascii.eqb e "\" then simple "\"%char
            else if Ascii.eqb e "/" then simple "/"%char
            else if Ascii.eqb e "b" then simple "008"%char
            else if Ascii.eqb e "f" then simple "012"%char
            else if Ascii.eqb e "n" then simple "010"%char
            else if Ascii.eqb e "r" then simple "013"%char
            else if Ascii.eqb e "t" then simple "009"%char
            else if Ascii.eqb e "u" then
              match t' with
              | h1 :: h2 :: h3 :: h4 :: t'' =>
                  match hex_val h1, hex_val h2, hex_val h3, hex_val h4 with
                  | Some a, Some b, Some c', Some d =>
                      let code := ((a * 16 + b) * 16 + c') * 16 + d in
                      if code <? 128 then
                        match jstring_body t'' with
                        | Some (bd, r) => Some (ascii_of_nat code :: bd, r)
                        | None => None
                        end
                      else None
                  | _, _, _, _ => None
                  end
              | _ => None
              end
            else None
        | [] => None
        end
      else
        match jstring_body t with
        | Some (b, r) => Some (c :: b, r)
        | None => None
        end
  end.

Definition jstring : P string := fun l =>
  match l with
  | c :: t => if Ascii.eqb c Py.dq then
                match jstring_body t with
                | Some (b, r) => Some (Py.of_chars b, r)
                | None => None
                end
              else None
  | [] => None
  end.

(** The number grammar of [json.scanner.NUMBER_RE]: an optional minus, an
    integer part without leading zeros, an optional fraction and an
    optional exponent. *)
Definition jnumber : P pyval := fun l =>
  let '(sign, l1) := match l with
                     | c :: t => if Ascii.eqb c "-" then (["-"%char], t) else ([], l)
                     | [] => ([], l)
                     end in
  let '(intp, l2) :=
    match l1 with
    | c :: t => if Ascii.eqb c "0" then (["0"%char], t)
                else if Py.is_digit c then
                  let '(ds, r) := take_while Py.is_digit t in (c :: ds, r)
                else ([], l1)
    | [] => ([], l1)
    end in
  match intp with
  | [] => None
  | _ =>
    let '(frac, l3) :=
      match l2 with
      | c :: t => if Ascii.eqb c "." then
                    match take_while Py.is_digit t with
                    | ([], _) => ([], l2)
                    | (ds, r) => (c :: ds, r)
                    end
                  else ([], l2)
      | [] => ([], l2)
      end in
    let '(expo, l4) :=
      match l3 with
      | e :: t =>
          if Ascii.eqb e "e" || Ascii.eqb e "E" then
            let '(sg, t1) := match t with
                             | s' :: t' => if Ascii.eqb s' "-" || Ascii.eqb s' "+"
                                           then ([s'], t') else ([], t)
                             | [] => ([], t)
                             end in
            match take_while Py.is_digit t1 with
            | ([], _) => ([], l3)
            | (ds, r) => (e :: sg ++ ds, r)
            end
          else ([], l3)
      | [] => ([], l3)
      end in
    match frac, expo with
    | [], [] => Some (PInt (int_of_string (Py.of_chars (sign ++ intp))), l4)
    | _, _ => Some (PFloat (Py.of_chars (sign ++ intp ++ frac ++ expo)), l4)
    end
  end.

Definition jkeyword (kw : string) (v : pyval) : P pyval := fun l =>
  if Py.prefixb (Py.chars kw) l then Some (v, skipn (String.length kw) l) else None.

Definition first_of {A} (ps : list (P A)) : P A := fun l =>
  fold_right (fun p acc => match p l with Some r => Some r | None => acc end) None ps.

(** [scan_once]: one JSON value at the head of the input. *)
Fixpoint jvalue (fuel : nat) (l : list ascii) : option (pyval * list ascii) :=
  match fuel with
  | O => None
  | S f =>
    match l with
    | [] => None
    | c :: t =>
      if Ascii.eqb c "{" then
        match jws t with
        | c' :: t' =>
            if Ascii.eqb c' "}" then Some (PDict [], t')
            else
              (fix members (n : nat) (acc : list (pyval * pyval)) (l : list ascii)
                 : option (pyval * list ascii) :=
                 match n with
                 | O => None
                 | S n' =>
                   match jstring l with
                   | None => None
                   | Some (k, l1) =>
                     match jws l1 with
                     | d :: l2 =>
                       if Ascii.eqb d ":" then
                         match jvalue f (jws l2) with
                         | None => None
                         | Some (v, l3) =>
                           let acc' := acc ++ [(PStr k, v)] in
                           match jws l3 with
                           | e :: l4 =>
                               if Ascii.eqb e "}" then
                                 match dict_of acc' with
                                 | Some d' => Some (d', l4)
                                 | None => None
                                 end
                               else if Ascii.eqb e "," then members n' acc' (jws l4)
                               else None
                           | [] => None
                           end
                         end
                       else None
                     | [] => None
                     end
                   end
                 end) f [] (c' :: t')
        | [] => None
        end
      else if Ascii.eqb c "[" then
        match jws t with
        | c' :: t' =>
            if Ascii.eqb c' "]" then Some (PList [], t')
            else
              (fix elems (n : nat) (acc : list pyval) (l : list ascii)
                 : option (pyval * list ascii) :=
                 match n with
                 | O => None
                 | S n' =>
                   match jvalue f l with
                   | None => None
                   | Some (v, l1) =>
                     match jws l1 with
                     | e :: l2 =>
                         if Ascii.eqb e "]" then Some (PList (acc ++ [v]), l2)
                         else if Ascii.eqb e "," then elems n' (acc ++ [v]) (jws l2)
                         else None
                     | [] => None
                     end
                   end
                 end) f [] (c' :: t')
        | [] => None
        end
      else if Ascii.eqb c Py.dq then
        match jstring l with
        | Some (s, r) => Some (PStr s, r)
        | None => None
        end
      else first_of [jkeyword "null" PNone; jkeyword "true" (PBool true);
                     jkeyword "false" (PBool false); jnumber;
                     jkeyword "NaN" (PFloat "nan"); jkeyword "Infinity" (PFloat "inf");
                     jkeyword "-Infinity" (PFloat "-inf")] l
    end
  end.

(** [json.loads(s)], [None] for the [JSONDecodeError], without the
    interpreter's limits on nesting and on the digits of an integer
    ([decode] below has them): the texts it is applied to in this file are
    shallow and have short integers. *)
Definition loads (s : string) : option pyval :=
  let l := Py.chars s in
  match jvalue (S (length l)) (jws l) with
  | Some (v, r) => match jws r with [] => Some v | _ => None end
  | None => None
  end.

(** [loads] checks the grammar only.  The interpreter adds two limits:
    entering an object or an array nested deeper than the recursion limit
    allows raises a [RecursionError], and converting an integer literal of
    more than [sys.get_int_max_str_digits()] digits (4300 by default, [0]
    for no limit) raises a [ValueError]; neither is a [JSONDecodeError].
    The decoder meets them from left to right, as it meets syntax errors. *)
Record limits := mkLimits {
  max_depth : option nat;        (** nested containers allowed, [None]: no limit *)
  max_str_digits : nat
}.

Definition too_many_digits (m : nat) (z : Z) : bool :=
  negb (m =? 0) && (10 ^ Z.of_nat m <=? Z.abs z)%Z.

(** The result of decoding a value: the value and the rest of the input, a
    [JSONDecodeError] ([JErr]), or one of the two other errors ([JLim]). *)
Inductive jres := JOk (v : pyval) (r : list ascii) | JErr | JLim.

(** [scan_once] under the limits; [room] counts the containers that may
    still be entered. *)
Fixpoint jvalue_lim (lim : limits) (room : option nat) (fuel : nat) (l : list ascii) : jres :=
  match fuel with
  | O => JErr
  | S f =>
    match l with
    | [] => JErr
    | c :: t =>
      if Ascii.eqb c "{" then
        match room with
        | Some O => JLim
        | _ =>
        match jws t with
        | c' :: t' =>
            if Ascii.eqb c' "}" then JOk (PDict []) t'
            else
              (fix members (n : nat) (acc : list (pyval * pyval)) (l : list ascii) : jres :=
                 match n with
                 | O => JErr
                 | S n' =>
                   match jstring l with
                   | None => JErr
                   | Some (k, l1) =>
                     match jws l1 with
                     | d :: l2 =>
                       if Ascii.eqb d ":" then
                         match jvalue_lim lim (option_map pred room) f (jws l2) with
                         | JOk v l3 =>
                           let acc' := acc ++ [(PStr k, v)] in
                           match jws l3 with
                           | e :: l4 =>
                               if Ascii.eqb e "}" then
                                 match dict_of acc' with
                                 | Some d' => JOk d' l4
                                 | None => JErr
                                 end
                               else if Ascii.eqb e "," then members n' acc' (jws l4)
                               else JErr
                           | [] => JErr
                           end
                         | JErr => JErr
                         | JLim => JLim
                         end
                       else JErr
                     | [] => JErr
                     end
                   end
                 end) f [] (c' :: t')
        | [] => JErr
        end
        end
      else if Ascii.eqb c "[" then
        match room with
        | Some O => JLim
        | _ =>
        match jws t with
        | c' :: t' =>
            if Ascii.eqb c' "]" then JOk (PList []) t'
            else
              (fix elems (n : nat) (acc : list pyval) (l : list ascii) : jres :=
                 match n with
                 | O => JErr
                 | S n' =>
                   match jvalue_lim lim (option_map pred room) f l with
                   | JOk v l1 =>
                     match jws l1 with
                     | e :: l2 =>
                         if Ascii.eqb e "]" then JOk (PList (acc ++ [v])) l2
                         else if Ascii.eqb e "," then elems n' (acc ++ [v]) (jws l2)
                         else JErr
                     | [] => JErr
                     end
                   | JErr => JErr
                   | JLim => JLim
                   end
                 end) f [] (c' :: t')
        | [] => JErr
        end
        end
      else if Ascii.eqb c Py.dq then
        match jstring l with
        | Some (s, r) => JOk (PStr s) r
        | None => JErr
        end
      else match first_of [jkeyword "null" PNone; jkeyword "true" (PBool true);
                           jkeyword "false" (PBool false); jnumber;
                           jkeyword "NaN" (PFloat "nan"); jkeyword "Infinity" (PFloat "inf");
                           jkeyword "-Infinity" (PFloat "-inf")] l with
           | Some (PInt z, r) =>
               if too_many_digits (max_str_digits lim) z then JLim else JOk (PInt z) r
           | Some (v, r) => JOk v r
           | None => JErr
           end
    end
  end.

(** What [json.loads(s)] does under the limits. *)
Inductive outcome := Decoded (v : pyval) | DecodeError | LimitError.

Definition decode (lim : limits) (s : string) : outcome :=
  let l := Py.chars s in
  match jvalue_lim lim (max_depth lim) (S (length l)) (jws l) with
  | JOk v r => match jws r with [] => Decoded v | _ => DecodeError end
  | JErr => DecodeError
  | JLim => LimitError
  end.

End Json.

(* ------------------------------------------------------------------ *)
(** ** [ast.literal_eval] on a string

    The literal sub-language of Python expressions: string literals
    (single or double quoted, adjacent literals concatenated), decimal
    integers and floats, an optional sign on a numeric literal, [True],
    [False], [None], tuples, lists, dicts, sets and [set()], with trailing
    commas, a top-level tuple without parentheses, whitespace and comments
    between tokens.  Any other input raises ([None]): a syntax error, a
    non-literal node ([ValueError]) or an unhashable key ([TypeError]).
    Not modelled (they raise here): triple-quoted and prefixed strings,
    [\N], [\u], [\U] escapes, complex, hexadecimal and underscored number
    literals. *)

Module LitEval.
Import PyVal.
Local Open Scope nat_scope.

Fixpoint skip_comment (l : list ascii) : list ascii :=
  match l with
  | [] => []
  | c :: t => if Ascii.eqb c "010" then l else skip_comment t
  end.

Fixpoint pws (fuel : nat) (l : list ascii) : list ascii :=
  match fuel with
  | O => l
  | S f =>
      match l with
      | c :: t =>
          if existsb (Ascii.eqb c) [" "; "009"; "010"; "013"; "012"]%char
          then pws f t
          else if Ascii.eqb c "#" then pws f (skip_comment t)
          else l
      | [] => []
      end
  end.
Definition ws (l : list ascii) : list ascii := pws (S (length l)) l.

Definition is_octal (c : ascii) : bool :=
  let n := nat_of_ascii c in (48 <=? n) && (n <=? 55).

(** The body of a one-line string literal after its opening quote [q]. *)
Fixpoint str_body (fuel : nat) (q : ascii) (l : list ascii)
  : option (list ascii * list ascii) :=
  match fuel with
  | O => None
  | S fu =>
  match l with
  | [] => None
  | c :: t =>
      if Ascii.eqb c q then Some ([], t)
      else if Ascii.eqb c "010" then None
      else if Ascii.eqb c "\" then
        match t with
        | [] => None
        | e :: t' =>
            let put := fun (d : list ascii) (rest : list ascii) =>
              match str_body fu q rest with
              | Some (b, r) => Some (d ++ b, r)
              | None => None
              end in
            if Ascii.eqb e "010" then put [] t'
            else if Ascii.eqb e "\" then put ["\"%char] t'
            else if Ascii.eqb e "'" then put ["'"%char] t'
            else if Ascii.eqb e Py.dq then put [Py.dq] t'
            else if Ascii.eqb e "n" then put ["010"%char] t'
            else if Ascii.eqb e "t" then put ["009"%char] t'
            else if Ascii.eqb e "r" then put ["013"%char] t'
            else if Ascii.eqb e "a" then put ["007"%char] t'
            else if Ascii.eqb e "b" then put ["008"%char] t'
            else if Ascii.eqb e "f" then put ["012"%char] t'
            else if Ascii.eqb e "v" then put ["011"%char] t'
            else if Ascii.eqb e "x" then
              match t' with
              | h1 :: h2 :: t'' =>
                  match Json.hex_val h1, Json.hex_val h2 with
                  | Some a, Some b => put [ascii_of_nat (a * 16 + b)] t''
                  | _, _ => None
                  end
              | _ => None
              end
            else if is_octal e then
              let '(ds, rest) := Json.take_while is_octal t' in
              let ds := firstn 2 ds in
              let rest := skipn (length ds) t' in
              let v := fold_left (fun acc d => acc * 8 + (nat_of_ascii d - 48))
                                 (e :: ds) 0 in
              if v <? 256 then put [ascii_of_nat v] rest else None
            else if existsb (Ascii.eqb e) ["N"; "u"; "U"]%char then None
            else put ["\"%char; e] t'
        end
      else
        match str_body fu q t with
        | Some (b, r) => Some (c :: b, r)
        | None => None
        end
  end
  end.

(** One string literal, not triple quoted. *)
Definition str_lit (l : list ascii) : option (list ascii * list ascii) :=
  match l with
  | q :: t =>
      if Ascii.eqb q "'" || Ascii.eqb q Py.dq then
        match t with
        | q1 :: q2 :: _ => if Ascii.eqb q1 q && Ascii.eqb q2 q then None
                           else str_body (S (length t)) q t
        | _ => str_body (S (length t)) q t
        end
      else None
  | [] => None
  end.

Definition is_quote (c : ascii) : bool := Ascii.eqb c "'" || Ascii.eqb c Py.dq.

(** Adjacent string literals are concatenated. *)
Fixpoint strings (fuel : nat) (l : list ascii) : option (list ascii * list ascii) :=
  match fuel with
  | O => None
  | S f =>
      match str_lit l with
      | None => None
      | Some (b, r) =>
          match ws r with
          | c :: _ =>
              if is_quote c then
                match strings f (ws r) with
                | Some (b', r') => Some (b ++ b', r')
                | None => None
                end
              else Some (b, r)
          | [] => Some (b, r)
          end
      end
  end.

(** A decimal number literal: an [int] without leading zeros (or all
    zeros), or a float with a fraction and/or an exponent. *)
Definition number (l : list ascii) : option (pyval * list ascii) :=
  let '(intp, l1) := Json.take_while Py.is_digit l in
  let '(frac, l2) :=
    match l1 with
    | c :: t => if Ascii.eqb c "." then
                  let '(ds, r) := Json.take_while Py.is_digit t in (c :: ds, r)
                else ([], l1)
    | [] => ([], l1)
    end in
  let '(expo, l3) :=
    match l2 with
    | e :: t =>
        if Ascii.eqb e "e" || Ascii.eqb e "E" then
          let '(sg, t1) := match t with
                           | s' :: t' => if Ascii.eqb s' "-" || Ascii.eqb s' "+"
                                         then ([s'], t') else ([], t)
                           | [] => ([], t)
                           end in
          match Json.take_while Py.is_digit t1 with
          | ([], _) => ([], l2)
          | (ds, r) => (e :: sg ++ ds, r)
          end
        else ([], l2)
    | [] => ([], l2)
    end in
  match intp, frac, expo with
  | [], [], _ => None
  | [], ["."%char], _ => None
  | _, [], [] =>
      match intp with
      | z :: _ :: _ =>
          if Ascii.eqb z "0" && negb (forallb (Ascii.eqb "0") intp) then None
          else Some (PInt (digits_to_Z intp), l3)
      | _ => Some (PInt (digits_to_Z intp), l3)
      end
  | _, _, _ => Some (PFloat (Py.of_chars (intp ++ frac ++ expo)), l3)
  end.

Definition is_ident_start (c : ascii) : bool := Py.is_alpha c || Ascii.eqb c "_".

(** [expr fuel l]: a value, whether it is a bare numeric constant (the only
    operand a unary sign accepts), and the rest of the input. *)
Fixpoint expr (fuel : nat) (l : list ascii) : option (pyval * bool * list ascii) :=
  match fuel with
  | O => None
  | S f =>
    let l := ws l in
    (** comma-separated items up to [close], trailing comma allowed *)
    let items := fun (close : ascii) =>
      fix items (n : nat) (acc : list pyval) (l : list ascii)
        : option (list pyval * list ascii) :=
        match n with
        | O => None
        | S n' =>
          match ws l with
          | c :: r => if Ascii.eqb c close then Some (acc, r)
                      else
                        match expr f (c :: r) with
                        | None => None
                        | Some (v, _, l1) =>
                          match ws l1 with
                          | d :: r1 => if Ascii.eqb d "," then items n' (acc ++ [v]) r1
                                       else if Ascii.eqb d close then Some (acc ++ [v], r1)
                                       else None
                          | [] => None
                          end
                        end
          | [] => None
          end
        end in
    match l with
    | [] => None
    | c :: t =>
      if Ascii.eqb c "-" || Ascii.eqb c "+" then
        match expr f t with
        | Some (PInt z, true, r) =>
            Some (PInt (if Ascii.eqb c "-" then Z.opp z else z), false, r)
        | Some (PFloat x, true, r) =>
            Some (PFloat (if Ascii.eqb c "-" then ("-" ++ x)%string else x), false, r)
        | _ => None
        end
      else if Ascii.eqb c "(" then
        match ws t with
        | d :: r => if Ascii.eqb d ")" then Some (PTuple [], false, r)
                    else
                      match expr f t with
                      | None => None
                      | Some (v, isnum, l1) =>
                        match ws l1 with
                        | e :: r1 =>
                            if Ascii.eqb e ")" then Some (v, isnum, r1)
                            else if Ascii.eqb e "," then
                              match items ")"%char f [v] r1 with
                              | Some (vs, r2) => Some (PTuple vs, false, r2)
                              | None => None
                              end
                            else None
                        | [] => None
                        end
                      end
        | [] => None
        end
      else if Ascii.eqb c "[" then
        match items "]"%char f [] t with
        | Some (vs, r) => Some (PList vs, false, r)
        | None => None
        end
      else if Ascii.eqb c "{" then
        match ws t with
        | d :: r =>
          if Ascii.eqb d "}" then Some (PDict [], false, r)
          else
            match expr f t with
            | None => None
            | Some (k1, _, l1) =>
              match ws l1 with
              | e :: r1 =>
                if Ascii.eqb e ":" then
                  match expr f r1 with
                  | None => None
                  | Some (v1, _, l2) =>
                    (fix pairs (n : nat) (acc : list (pyval * pyval)) (l : list ascii)
                       : option (pyval * bool * list ascii) :=
                       match n with
                       | O => None
                       | S n' =>
                         let done := fun r => match dict_of acc with
                                              | Some d' => Some (d', false, r)
                                              | None => None
                                              end in
                         match ws l with
                         | g :: r2 =>
                           if Ascii.eqb g "}" then done r2
                           else if Ascii.eqb g "," then
                             match ws r2 with
                             | h :: r3 =>
                               if Ascii.eqb h "}" then done r3
                               else
                                 match expr f (h :: r3) with
                                 | None => None
                                 | Some (k, _, l3) =>
                                   match ws l3 with
                                   | i :: r4 =>
                                     if Ascii.eqb i ":" then
                                       match expr f r4 with
                                       | Some (v, _, l4) => pairs n' (acc ++ [(k, v)]) l4
                                       | None => None
                                       end
                                     else None
                                   | [] => None
                                   end
                                 end
                             | [] => None
                             end
                           else None
                         | [] => None
                         end
                       end) f [(k1, v1)] l2
                  end
                else if Ascii.eqb e "}" then
                  match set_of [k1] with
                  | Some sv => Some (sv, false, r1)
                  | None => None
                  end
                else if Ascii.eqb e "," then
                  match items "}"%char f [k1] r1 with
                  | Some (vs, r2) =>
                      match set_of vs with
                      | Some sv => Some (sv, false, r2)
                      | None => None
                      end
                  | None => None
                  end
                else None
              | [] => None
              end
            end
        | [] => None
        end
      else if is_quote c then
        match strings f l with
        | Some (b, r) => Some (PStr (Py.of_chars b), false, r)
        | None => None
        end
      else if Py.is_digit c || Ascii.eqb c "." then
        match number l with
        | Some (v, r) =>
            match r with
            | d :: _ => if Py.is_word d then None else Some (v, true, r)
            | [] => Some (v, true, r)
            end
        | None => None
        end
      else if is_ident_start c then
        let '(name, r) := Json.take_while Py.is_word l in
        let name := Py.of_chars name in
        if String.eqb name "True" then Some (PBool true, false, r)
        else if String.eqb name "False" then Some (PBool false, false, r)
        else if String.eqb name "None" then Some (PNone, false, r)
        else if String.eqb name "set" then
          match ws r with
          | d :: r1 => if Ascii.eqb d "(" then
                         match ws r1 with
                         | e :: r2 => if Ascii.eqb e ")" then Some (PSet [], false, r2)
                                      else None
                         | [] => None
                         end
                       else None
          | [] => None
          end
        else None
      else None
    end
  end.

(** [ast.literal_eval(s)] *)
Definition literal_eval (s : string) : option pyval :=
  let l := Py.drop_while (fun c => Ascii.eqb c " " || Ascii.eqb c "009") (Py.chars s) in
  let fuel := S (length l) in
  match expr fuel l with
  | None => None
  | Some (v, _, r) =>
      match ws r with
      | [] => Some v
      | c :: r1 =>
          if Ascii.eqb c "," then
            (fix more (n : nat) (acc : list pyval) (l : list ascii) : option pyval :=
               match n with
               | O => None
               | S n' =>
                 match ws l with
                 | [] => Some (PTuple acc)
                 | _ =>
                   match expr fuel l with
                   | None => None
                   | Some (v', _, l') =>
                     match ws l' with
                     | [] => Some (PTuple (acc ++ [v']))
                     | d :: r' => if Ascii.eqb d "," then more n' (acc ++ [v']) r'
                                  else None
                     end
                   end
                 end
               end) fuel [v] r1
          else None
      end
  end.

End LitEval.


(* ------------------------------------------------------------------ *)
(** ** [re.compile]: pattern source text to a matcher

    The subset of Python's regular-expression syntax the program and its
    pattern files use: literals and escapes, [.], [^], [$], classes with
    ranges and [\s \S \w \W \d \D], groups [( )], [(?: )] and
    [(?P<name> )], alternation, the quantifiers [* + ? {n} {n,} {n,m}] and
    their lazy forms, and the flags VERBOSE, DOTALL and MULTILINE.  Any
    other construct, and any malformed source, is a compile error
    ([None]); where Python accepts such a construct this model is
    stricter, which the lemmas below never rely on: every pattern they use
    is shown to compile. *)

Module Rx.
Import Re.
Local Open Scope nat_scope.

Record flags := mkFlags { verbose : bool; dotall : bool; multiline : bool }.
Definition no_flags := mkFlags false false false.

(** A compiled pattern: the matcher, the named groups, the group count. *)
Record pattern := mkPattern { pat_source : string; pat_re : re;
                              pat_names : list (string * nat); pat_groups : nat }.

Definition is_vws (c : ascii) : bool :=
  existsb (Ascii.eqb c) [" "; "009"; "010"; "013"; "011"; "012"]%char.

(** In VERBOSE mode, whitespace and [#] comments between items are skipped. *)
Fixpoint skipv_go (in_comment : bool) (l : list ascii) : list ascii :=
  match l with
  | [] => []
  | c :: t =>
      if in_comment then skipv_go (negb (Ascii.eqb c "010")) t
      else if is_vws c then skipv_go false t
      else if Ascii.eqb c "#" then skipv_go true t
      else l
  end.
Definition skipv (fl : flags) (l : list ascii) : list ascii :=
  if verbose fl then skipv_go false l else l.

(** An escape [\e]: a class of characters, or a literal one. *)
Definition escape (in_class : bool) (e : ascii) : option ((ascii -> bool) * option ascii) :=
  let lit := fun c => Some (Ascii.eqb c, Some c) in
  if Ascii.eqb e "s" then Some (Py.is_space, None)
  else if Ascii.eqb e "S" then Some (fun c => negb (Py.is_space c), None)
  else if Ascii.eqb e "w" then Some (Py.is_word, None)
  else if Ascii.eqb e "W" then Some (fun c => negb (Py.is_word c), None)
  else if Ascii.eqb e "d" then Some (Py.is_digit, None)
  else if Ascii.eqb e "D" then Some (fun c => negb (Py.is_digit c), None)
  else if Ascii.eqb e "n" then lit "010"%char
  else if Ascii.eqb e "t" then lit "009"%char
  else if Ascii.eqb e "r" then lit "013"%char
  else if Ascii.eqb e "f" then lit "012"%char
  else if Ascii.eqb e "v" then lit "011"%char
  else if Ascii.eqb e "a" then lit "007"%char
  else if in_class && Ascii.eqb e "b" then lit "008"%char
  else if Py.is_alpha e || Py.is_digit e then None
  else lit e.

(** The items of a class after its opening bracket (and [^]). *)
Fixpoint class_items (fuel : nat) (first : bool) (l : list ascii)
  : option (list (ascii -> bool) * list ascii) :=
  match fuel with
  | O => None
  | S f =>
    match l with
    | [] => None
    | c :: t =>
      if Ascii.eqb c "]" && negb first then Some ([], t)
      else
        let one :=
          if Ascii.eqb c "\" then
            match t with
            | e :: t' => match escape true e with
                         | Some (p, lo) => Some (p, lo, t')
                         | None => None
                         end
            | [] => None
            end
          else Some (Ascii.eqb c, Some c, t) in
        match one with
        | None => None
        | Some (p, lo, r) =>
          let '(p', r') :=
            match lo, r with
            | Some a, d :: b :: r2 =>
                if Ascii.eqb d "-" && negb (Ascii.eqb b "]") && negb (Ascii.eqb b "\")
                then ((fun x => (nat_of_ascii a <=? nat_of_ascii x)
                                && (nat_of_ascii x <=? nat_of_ascii b)), r2)
                else (p, r)
            | _, _ => (p, r)
            end in
          match class_items f false r' with
          | Some (ps, r3) => Some (p' :: ps, r3)
          | None => None
          end
        end
    end
  end.

Definition p_class (l : list ascii) : option (re * list ascii) :=
  let '(neg, l') := match l with
                    | c :: t => if Ascii.eqb c "^" then (true, t) else (false, l)
                    | [] => (false, l)
                    end in
  match class_items (S (length l')) true l' with
  | Some (ps, r) =>
      let p := fun x => existsb (fun q => q x) ps in
      Some (Chr (if neg then (fun x => negb (p x)) else p), r)
  | None => None
  end.

(** [n] copies of [a] in sequence. *)
Fixpoint rep (n : nat) (a : re) : re :=
  match n with O => Eps | S n' => Seq a (rep n' a) end.
(** Up to [n] further optional copies, nested as Python's engine tries them. *)
Fixpoint rep_opt (g : bool) (n : nat) (a : re) : re :=
  match n with
  | O => Eps
  | S n' => if g then Alt (Seq a (rep_opt g n' a)) Eps
            else Alt Eps (Seq a (rep_opt g n' a))
  end.

Definition digits_nat (l : list ascii) : nat :=
  fold_left (fun acc d => acc * 10 + (nat_of_ascii d - 48)) l 0.

(** A counted repetition [{n}], [{n,}] or [{n,m}] at the head of [l]. *)
Definition counted (l : list ascii) : option (nat * option nat * list ascii) :=
  match l with
  | c :: t =>
    if Ascii.eqb c "{" then
      match Json.take_while Py.is_digit t with
      | ([], _) => None
      | (ds, d :: r) =>
          if Ascii.eqb d "}" then Some (digits_nat ds, Some (digits_nat ds), r)
          else if Ascii.eqb d "," then
            match Json.take_while Py.is_digit r with
            | ([], e :: r') => if Ascii.eqb e "}" then Some (digits_nat ds, None, r') else None
            | (ms, e :: r') => if Ascii.eqb e "}" then Some (digits_nat ds, Some (digits_nat ms), r')
                               else None
            | (_, []) => None
            end
          else None
      | (_, []) => None
      end
    else None
  | [] => None
  end.

(** A quantifier after atom [a], if any. *)
Definition quant (fl : flags) (a : re) (l : list ascii) : option (re * list ascii) :=
  let lazy := fun r => match r with
                       | c :: t => if Ascii.eqb c "?" then (false, t) else (true, r)
                       | [] => (true, r)
                       end in
  let l := skipv fl l in
  match l with
  | c :: t =>
    if Ascii.eqb c "*" then let '(g, r) := lazy t in Some (Star g a, r)
    else if Ascii.eqb c "+" then let '(g, r) := lazy t in Some (Seq a (Star g a), r)
    else if Ascii.eqb c "?" then
      let '(g, r) := lazy t in Some ((if g then Alt a Eps else Alt Eps a), r)
    else
      match counted l with
      | Some (n, mx, r0) =>
          let '(g, r) := lazy r0 in
          match mx with
          | None => Some (Seq (rep n a) (Star g a), r)
          | Some m' => if m' <? n then None else Some (Seq (rep n a) (rep_opt g (m' - n) a), r)
          end
      | None => Some (a, l)
      end
  | [] => Some (a, l)
  end.

(** Parser state: the last group number used and the named groups. *)
Record pst := mkPst { ngrp : nat; names : list (string * nat) }.

Fixpoint p_alt (fuel : nat) (fl : flags) (l : list ascii) (st : pst)
  : option (re * list ascii * pst) :=
  match fuel with
  | O => None
  | S f =>
    match p_seq f fl l st with
    | None => None
    | Some (a, l1, st1) =>
        match l1 with
        | c :: r =>
            if Ascii.eqb c "|" then
              match p_alt f fl r st1 with
              | Some (b, l2, st2) => Some (Alt a b, l2, st2)
              | None => None
              end
            else Some (a, l1, st1)
        | [] => Some (a, l1, st1)
        end
    end
  end
with p_seq (fuel : nat) (fl : flags) (l : list ascii) (st : pst)
  : option (re * list ascii * pst) :=
  match fuel with
  | O => None
  | S f =>
    let l := skipv fl l in
    match l with
    | [] => Some (Eps, l, st)
    | c :: _ =>
      if Ascii.eqb c "|" || Ascii.eqb c ")" then Some (Eps, l, st)
      else
        match p_atom f fl l st with
        | None => None
        | Some (a, l1, st1) =>
            match quant fl a l1 with
            | None => None
            | Some (a', l2) =>
                match p_seq f fl l2 st1 with
                | Some (Eps, l3, st3) => Some (a', l3, st3)
                | Some (b, l3, st3) => Some (Seq a' b, l3, st3)
                | None => None
                end
            end
        end
    end
  end
with p_atom (fuel : nat) (fl : flags) (l : list ascii) (st : pst)
  : option (re * list ascii * pst) :=
  match fuel with
  | O => None
  | S f =>
    let close := fun (res : option (re * list ascii * pst)) (wrap : re -> re) =>
      match res with
      | Some (a, d :: r, st') => if Ascii.eqb d ")" then Some (wrap a, r, st') else None
      | _ => None
      end in
    match l with
    | [] => None
    | c :: t =>
      if Ascii.eqb c "(" then
        match t with
        | q :: t1 =>
          if Ascii.eqb q "?" then
            match t1 with
            | d :: t2 =>
              if Ascii.eqb d ":" then close (p_alt f fl t2 st) (fun a => a)
              else if Ascii.eqb d "P" then
                match t2 with
                | e :: t3 =>
                  if Ascii.eqb e "<" then
                    match Json.take_while Py.is_word t3 with
                    | (nm, g :: t4) =>
                        if Ascii.eqb g ">" && negb (match nm with [] => true | _ => false end) then
                          let n := S (ngrp st) in
                          close (p_alt f fl t4 (mkPst n ((Py.of_chars nm, n) :: names st)))
                                (Grp n)
                        else None
                    | (_, []) => None
                    end
                  else None
                | [] => None
                end
              else None
            | [] => None
            end
          else
            let n := S (ngrp st) in
            close (p_alt f fl t (mkPst n (names st))) (Grp n)
        | [] => None
        end
      else if Ascii.eqb c "[" then
        match p_class t with
        | Some (a, r) => Some (a, r, st)
        | None => None
        end
      else if Ascii.eqb c "\" then
        match t with
        | e :: r => match escape false e with
                    | Some (p, _) => Some (Chr p, r, st)
                    | None => None
                    end
        | [] => None
        end
      else if Ascii.eqb c "." then
        Some (Chr (fun x => dotall fl || negb (Ascii.eqb x "010")), t, st)
      else if Ascii.eqb c "^" then Some ((if multiline fl then MBol else Bol), t, st)
      else if Ascii.eqb c "$" then Some ((if multiline fl then MEol else Eol), t, st)
      else if existsb (Ascii.eqb c) ["*"; "+"; "?"]%char then None
      else Some (ch c, t, st)
    end
  end.

(** [re.compile(source, flags)] *)
Definition compile (fl : flags) (src : string) : option pattern :=
  let l := Py.chars src in
  match p_alt (S (length l) * 4) fl l (mkPst 0 []) with
  | Some (a, [], st) => Some (mkPattern src a (names st) (ngrp st))
  | _ => None
  end.

(** A pattern literal of the program, known to compile. *)
Definition rx (fl : flags) (src : string) : pattern :=
  match compile fl src with
  | Some p => p
  | None => mkPattern src Eps [] 0
  end.

(** [m.group(name)] *)
Definition group_named (p : pattern) (str : string) (x : m) (name : string) : option string :=
  match find (fun q => String.eqb (fst q) name) (pat_names p) with
  | Some (_, n) => group str x n
  | None => None
  end.

(** Replacement templates [\1], [\g<name>]-free: group references and
    literal text, [\\] standing for one backslash. *)
Fixpoint repl_go (fuel : nat) (l : list ascii) (acc : list ascii) : list piece :=
  match fuel with
  | O => []
  | S f =>
    match l with
    | [] => match acc with [] => [] | _ => [PLit (Py.of_chars acc)] end
    | c :: t =>
      if Ascii.eqb c "\" then
        match t with
        | d :: t' =>
            if Py.is_digit d then
              (match acc with [] => [] | _ => [PLit (Py.of_chars acc)] end)
                ++ PGrp (nat_of_ascii d - 48) :: repl_go f t' []
            else if Ascii.eqb d "\" then repl_go f t' (acc ++ ["\"%char])
            else if Ascii.eqb d "n" then repl_go f t' (acc ++ ["010"%char])
            else repl_go f t' (acc ++ [c; d])
        | [] => repl_go f t (acc ++ [c])
        end
      else repl_go f t (acc ++ [c])
    end
  end.
Definition repl (s : string) : list piece := repl_go (S (String.length s)) (Py.chars s) [].

(** [re.sub(p, repl, string)] and [re.findall(p, string)] on compiled patterns. *)
Definition sub (p : pattern) (r : string) (str : string) : string :=
  Re.sub (pat_re p) (repl r) str.
Definition findall (p : pattern) (str : string) : list (list string) :=
  Re.findall (pat_re p) (pat_groups p) str.
Definition search (p : pattern) (str : string) : option m := Re.search (pat_re p) str.
Definition finditer (p : pattern) (str : string) : list m := Re.finditer (pat_re p) str.

End Rx.


(* ------------------------------------------------------------------ *)
(** ** Include parameter parsers *)

Module Params.
Import PyVal.
Local Open Scope nat_scope.

(** *** frameworks/flask.py: [FlaskConverter._parse_include_params] *)

Definition flask_key_re := Rx.rx Rx.no_flags "([{,])\s*([a-zA-Z_][\w]*)\s*:".
Definition flask_trailing_re := Rx.rx Rx.no_flags ",\s*([}\]])".
Definition flask_spaces_re := Rx.rx Rx.no_flags "\s{2,}".
Definition flask_kv_re := Rx.rx Rx.no_flags (Py.qq "(\w+)\s*=\s*[`']([^`']+)[`']").

(** The normalisation applied before [ast.literal_eval]. *)
Definition flask_normalize (params_str : string) : string :=
  let s := Rx.sub flask_key_re "\1 '\2':" params_str in
  let s := Py.replace (Py.replace (Py.replace s "true" "True") "false" "False") "null" "None" in
  let s := Rx.sub flask_trailing_re "\1" s in
  Rx.sub flask_spaces_re " " s.

Definition flask_parse_include_params (params_str : string) : pyval :=
  let params_str := Py.strip params_str in
  if String.eqb params_str "" then PDict []
  else if Py.startswith params_str "{" && Py.endswith params_str "}" then
    match LitEval.literal_eval (flask_normalize params_str) with
    | Some v => v
    | None => PDict []           (** [except Exception]: warning, [{}] *)
    end
  else
    str_dict (map (fun g => (nth 0 g "", nth 1 g "")) (Rx.findall flask_kv_re params_str)).

(** *** frameworks/laravel.py: [LaravelConverter._parse_include_params] *)

Definition laravel_key_re := Rx.rx Rx.no_flags "([\{\s,])\s*([a-zA-Z_][\w-]*)\s*:".
Definition laravel_trailing_re := Rx.rx Rx.no_flags ",\s*([\}\]])".
Definition laravel_array_re := Rx.rx Rx.no_flags "array\s*\(([\s\S]*)\)".
Definition laravel_blade_re :=
  Rx.rx Rx.no_flags
    (Py.qq "['\`](?P<key>[^'\`]+)['\`]\s*=>\s*(['\`](?P<val>[^'\`]*)['\`]|(?P<bool>true|false)|(?P<num>-?\d+(?:\.\d+)?))").
Definition laravel_kv_re := Rx.rx Rx.no_flags (Py.qq "(\w+)=[\`']([^\`']+)[\`']").
Definition php_param_re :=
  Rx.rx (Rx.mkFlags true true false) (Py.qq "
            (?:['`](?P<key>[^'`]+)['`]\s*=>\s*)?
            (?:
                ['`](?P<sval>(?:\\.|[^'`])*)['`] |
                (?P<nval>-?\d+(?:\.\d+)?) |
                (?P<bool>true|false)
            )
            \s*(?:,\s*|$)
        ").

(** [float(n) if "." in n else int(n)]; [int(n)] is taken without the
    limit on the number of digits, which the short numbers of this file's
    examples never reach. *)
Definition num_value (n : string) : pyval :=
  if Py.contains n "." then PFloat n else PInt (int_of_string n).

(** [_extract_php_array_params] *)
Definition extract_php_array_params (include_str : string) : pyval :=
  match Rx.search laravel_array_re include_str with
  | None => PDict []
  | Some m0 =>
      let body := Re.group_or include_str m0 1 "" in
      let g := fun x n => Rx.group_named php_param_re body x n in
      let truthy_g := fun x n => match g x n with Some v => negb (String.eqb v "") | None => false end in
      PDict (fold_left
        (fun result x =>
           match g x "key" with
           | None | Some "" => result
           | Some key =>
               if truthy_g x "sval" then dict_insert (PStr key) (PStr (match g x "sval" with Some v => v | None => "" end)) result
               else if truthy_g x "nval" then
                 dict_insert (PStr key) (num_value (match g x "nval" with Some v => v | None => "" end)) result
               else if truthy_g x "bool" then
                 dict_insert (PStr key) (PBool (match g x "bool" with Some v => String.eqb v "true" | None => false end)) result
               else result
           end)
        (Rx.finditer php_param_re body) [])
  end.

Section Laravel.
(** [html.unescape]: decoding of HTML character references. *)
Variable html_unescape : string -> string.

Definition laravel_parse_include_params (raw : string) : pyval :=
  if String.eqb raw "" then PDict []
  else
  let raw := html_unescape (Py.strip raw) in
  let from_json :=
    if Py.startswith raw "{" && Py.endswith raw "}" then
      let cleaned := Rx.sub laravel_key_re (Py.qq "\1`\2`:") raw in
      let cleaned := Rx.sub laravel_trailing_re "\1" cleaned in
      Json.loads cleaned          (** [None]: [JSONDecodeError], logged *)
    else None in
  match from_json with
  | Some v => v
  | None =>
    match Rx.search laravel_array_re raw with
    | Some m_arr =>
        extract_php_array_params ("array(" ++ Re.group_or raw m_arr 1 "" ++ ")")%string
    | None =>
      match Rx.findall laravel_blade_re raw with
      | (_ :: _) as blade_matches =>
          PDict (fold_left
            (fun parsed g =>
               let k := nth 0 g "" in
               let v := nth 2 g "" in
               let b := nth 3 g "" in
               let n := nth 4 g "" in
               if negb (String.eqb v "") then dict_insert (PStr k) (PStr v) parsed
               else if negb (String.eqb b "") then dict_insert (PStr k) (PBool (String.eqb b "true")) parsed
               else if negb (String.eqb n "") then dict_insert (PStr k) (num_value n) parsed
               else parsed)
            blade_matches [])
      | [] =>
        match Rx.findall laravel_kv_re raw with
        | (_ :: _) as kv_pairs => str_dict (map (fun g => (nth 0 g "", nth 1 g "")) kv_pairs)
        | [] => PDict []
        end
      end
    end
  end.

End Laravel.

End Params.


(* ------------------------------------------------------------------ *)
(** ** Rendering of values: [str], [repr] and [json.dumps] *)

Module Render.
Import PyVal.
Local Open Scope nat_scope.

Fixpoint pos_digits (fuel : nat) (p : positive) (acc : list ascii) : list ascii :=
  match fuel with
  | O => acc
  | S f =>
      let '(q, r) := N.div_eucl (Npos p) 10%N in
      let acc := ascii_of_nat (48 + N.to_nat r) :: acc in
      match q with
      | N0 => acc
      | Npos q' => pos_digits f q' acc
      end
  end.

(** [str(n)] for an integer. *)
Definition z_to_string (z : Z) : string :=
  match z with
  | Z0 => "0"
  | Zpos p => Py.of_chars (pos_digits (Pos.size_nat p) p [])
  | Zneg p => Py.of_chars ("-"%char :: pos_digits (Pos.size_nat p) p [])
  end.

Definition hex_digit (n : nat) : ascii :=
  if n <? 10 then ascii_of_nat (48 + n) else ascii_of_nat (87 + n).

Definition printable (c : ascii) : bool :=
  let n := nat_of_ascii c in (32 <=? n) && (n <=? 126).

(** [repr] of a string: single quotes unless the text has a single quote
    and no double quote. *)
Definition str_repr (s : string) : string :=
  let cs := Py.chars s in
  let q := if existsb (Ascii.eqb "'") cs && negb (existsb (Ascii.eqb Py.dq) cs)
           then Py.dq else "'"%char in
  let esc := fun c =>
    if Ascii.eqb c "\" then ["\"; "\"]%char
    else if Ascii.eqb c q then ["\"%char; c]
    else if Ascii.eqb c "010" then ["\"; "n"]%char
    else if Ascii.eqb c "013" then ["\"; "r"]%char
    else if Ascii.eqb c "009" then ["\"; "t"]%char
    else if printable c then [c]
    else let n := nat_of_ascii c in ["\"; "x"; hex_digit (n / 16); hex_digit (n mod 16)]%char in
  Py.of_chars (q :: flat_map esc cs ++ [q]).

(** [repr(v)], and [str(v)], which differs for strings only. *)
Fixpoint py_repr (v : pyval) : string :=
  match v with
  | PNone => "None"
  | PBool b => if b then "True" else "False"
  | PInt z => z_to_string z
  | PFloat r => r
  | PStr t => str_repr t
  | PList l => ("[" ++ Py.join ", " (map py_repr l) ++ "]")%string
  | PTuple [x] => ("(" ++ py_repr x ++ ",)")%string
  | PTuple l => ("(" ++ Py.join ", " (map py_repr l) ++ ")")%string
  | PDict kv =>
      ("{" ++ Py.join ", " (map (fun p => py_repr (fst p) ++ ": " ++ py_repr (snd p)) kv) ++ "}")%string
  | PSet [] => "set()"
  | PSet l => ("{" ++ Py.join ", " (map py_repr l) ++ "}")%string
  end.
Definition py_str (v : pyval) : string :=
  match v with PStr t => t | _ => py_repr v end.

(** [json.dumps] with its defaults (ASCII output); [None] is the
    [TypeError] on a value or key JSON cannot represent. *)
Definition json_str (s : string) : string :=
  let esc := fun c =>
    if Ascii.eqb c "\" then ["\"; "\"]%char
    else if Ascii.eqb c Py.dq then ["\"%char; Py.dq]
    else if Ascii.eqb c "010" then ["\"; "n"]%char
    else if Ascii.eqb c "013" then ["\"; "r"]%char
    else if Ascii.eqb c "009" then ["\"; "t"]%char
    else if Ascii.eqb c "008" then ["\"; "b"]%char
    else if Ascii.eqb c "012" then ["\"; "f"]%char
    else let n := nat_of_ascii c in
         if (n <? 32) || (126 <? n)
         then ["\"; "u"; "0"; "0"; hex_digit (n / 16); hex_digit (n mod 16)]%char
         else [c] in
  Py.of_chars (Py.dq :: flat_map esc (Py.chars s) ++ [Py.dq]).

Fixpoint json_dumps (v : pyval) : option string :=
  let all := fun (l : list (option string)) =>
    fold_right (fun o acc => match o, acc with
                             | Some x, Some xs => Some (x :: xs)
                             | _, _ => None
                             end) (Some []) l in
  match v with
  | PNone => Some "null"
  | PBool b => Some (if b then "true" else "false")
  | PInt z => Some (z_to_string z)
  | PFloat r => Some r
  | PStr t => Some (json_str t)
  | PList l | PTuple l =>
      match all (map json_dumps l) with
      | Some xs => Some ("[" ++ Py.join ", " xs ++ "]")%string
      | None => None
      end
  | PDict kv =>
      match all (map (fun p =>
                   match json_dumps (snd p) with
                   | None => None
                   | Some vs =>
                       match fst p with
                       | PStr k => Some (json_str k ++ ": " ++ vs)%string
                       | PNone => Some ("null: " ++ vs)%string
                       | PBool b => Some ((if b then "true" else "false") ++ ": " ++ vs)%string
                       | PInt z => Some (json_str (z_to_string z) ++ ": " ++ vs)%string
                       | PFloat r => Some (json_str r ++ ": " ++ vs)%string
                       | _ => None
                       end
                   end) kv) with
      | Some xs => Some ("{" ++ Py.join ", " xs ++ "}")%string
      | None => None
      end
  | PSet _ => None
  end.

End Render.

(* ------------------------------------------------------------------ *)
(** ** Include patterns and the include rewriters *)

Module Includes.
Import PyVal.
Local Open Scope nat_scope.

(** An include fragment: the full match and the [path] and [params]
    groups ([None] when the group did not take part). *)
Record fragment := mkFrag { full : string; path : option string; params : option string }.

(** The escaped-entity alternate of a pattern source:
    [pattern.pattern.replace(r"\>\s*", r"(?:>|&gt;)\s*")]. *)
Definition alt_source (src : string) : string :=
  Py.replace src "\>\s*" "(?:>|&gt;)\s*".

(** The fragments found by scanning [content] with the alternate of each
    registry entry in turn, compiled with flags [fl]; [None] is the
    [re.error] of an alternate that does not compile. *)
Fixpoint fragments (fl : Rx.flags) (registry : list (string * string)) (content : string)
  : option (list fragment) :=
  match registry with
  | [] => Some []
  | (_, src) :: rest =>
      match Rx.compile fl (alt_source src), fragments fl rest content with
      | Some p, Some fs =>
          Some (map (fun x => mkFrag (Re.group_or content x 0 "")
                                     (Rx.group_named p content x "path")
                                     (Rx.group_named p content x "params"))
                    (Rx.finditer p content) ++ fs)
      | _, _ => None
      end
  end.

Definition flags_mv := Rx.mkFlags true false true.   (** re.MULTILINE | re.VERBOSE *)

Definition strip_rel_re := Rx.rx Rx.no_flags "^(\.\/|\.\.\/)+".

(** [Path(re.sub(r"^(\.\/|\.\.\/)+", "", p)).with_suffix("").as_posix()] *)
Definition normalize_path (p : string) : option string :=
  match PyPath.with_suffix (PyPath.of_string (Rx.sub strip_rel_re "" p)) "" with
  | Some q => Some (PyPath.to_string q)
  | None => None
  end.

(** [Path(p).name] *)
Definition path_name (p : string) : string := last (PyPath.of_string p) "".

(** *** frameworks/laravel.py: [_format_blade_params] *)
Definition format_blade_params (data : list (pyval * pyval)) : option string :=
  let one := fun (kv : pyval * pyval) =>
    let key := Render.py_str (fst kv) in
    match snd kv with
    | PStr value => Some ("'" ++ key ++ "' => '" ++ Py.replace value "'" "\'" ++ "'")%string
    | PBool b => Some ("'" ++ key ++ "' => " ++ (if b then "true" else "false"))%string
    | value => match Render.json_dumps value with
               | Some j => Some ("'" ++ key ++ "' => " ++ j)%string
               | None => None
               end
    end in
  match fold_right (fun kv acc => match one kv, acc with
                                  | Some x, Some xs => Some (x :: xs)
                                  | _, _ => None
                                  end) (Some []) data with
  | Some xs => Some (Py.join ", " xs)
  | None => None
  end.

Section Rewriters.
Variable html_unescape : string -> string.

(** The rendering of one fragment by [_replace_all_includes_with_blade]:
    [Some ""] when the title-meta test fires; [None] is an exception. *)
Definition blade_replacement (frag : fragment) : option string :=
  match path frag with
  | None => None                            (** [re.sub] on [None]: TypeError *)
  | Some p =>
    match normalize_path p with
    | None => None
    | Some clean_path =>
      let clean_path :=
        if Py.startswith clean_path "partials/"
        then Py.replace_n clean_path "partials/" "shared/partials/" (Some 1)
        else if negb (Py.contains clean_path "/")
        then ("shared/partials/" ++ clean_path)%string
        else clean_path in
      let clean_path := Py.replace clean_path "/" "." in
      let nm := Py.lower (path_name clean_path) in
      if String.eqb nm "title-meta" || String.eqb nm "app-meta-title" then Some ""
      else
        match Params.laravel_parse_include_params html_unescape
                (match params frag with Some r => r | None => "" end) with
        | PDict ((_ :: _) as kv) =>
            match format_blade_params kv with
            | Some param_str =>
                Some ("@include('" ++ clean_path ++ "', [" ++ param_str ++ "])")%string
            | None => None
            end
        | PDict [] => Some ("@include('" ++ clean_path ++ "')")%string
        | _ => None
        end
    end
  end.

(** [LaravelConverter._replace_all_includes_with_blade(content)] over a
    registry of (label, pattern source). *)
Definition replace_all_includes_with_blade (registry : list (string * string)) (content : string)
  : option string :=
  match fragments Rx.no_flags registry content with
  | None => None
  | Some frags =>
      fold_left (fun acc frag =>
                   match acc with
                   | None => None
                   | Some c => match blade_replacement frag with
                               | Some r => Some (Py.replace c (full frag) r)
                               | None => None
                               end
                   end) frags (Some content)
  end.

End Rewriters.

(** The rendering of one fragment by [_replace_all_includes_with_flask]:
    [None] for a fragment without a path (skipped), [Some (Some r)] for a
    rendering, [Some None] for an exception. *)
Definition flask_replacement (frag : fragment) : option (option string) :=
  let raw_path := Py.strip (match path frag with Some p => p | None => "" end) in
  let raw_params := Py.strip (match params frag with Some p => p | None => "" end) in
  if String.eqb raw_path "" then None
  else Some
    match normalize_path raw_path with
    | None => None
    | Some clean_path =>
      let clean_path := if negb (Py.contains clean_path "/")
                        then ("partials/" ++ clean_path)%string else clean_path in
      match Params.flask_parse_include_params raw_params with
      | PDict kv =>
          let set_lines :=
            map (fun p => let escaped := Py.replace (Render.py_str (snd p)) "'" "\'" in
                          ("{% set " ++ Render.py_str (fst p) ++ "='" ++ escaped ++ "' %}")%string) kv in
          let set_block := Py.join (String "010" "") set_lines in
          let include_line := ("{% include '" ++ clean_path ++ ".html' %}")%string in
          Some (if String.eqb set_block "" then include_line
                else (set_block ++ String "010" "" ++ include_line)%string)
      | _ => None                           (** [params.items()]: AttributeError *)
      end
    end.

(** [FlaskConverter._replace_all_includes_with_flask(content)] *)
Definition replace_all_includes_with_flask (registry : list (string * string)) (content : string)
  : option string :=
  match fragments flags_mv registry content with
  | None => None
  | Some frags =>
      fold_left (fun acc frag =>
                   match acc with
                   | None => None
                   | Some c => match flask_replacement frag with
                               | None => Some c
                               | Some (Some r) => Some (Py.replace c (full frag) r)
                               | Some None => None
                               end
                   end) frags (Some content)
  end.

(** Modelled from the spec: the include-pattern registry
    ([patterns/import_patterns.json], not part of the sources).  The spec
    names the syntaxes [{{> path params}}] and [@@include(path, params)],
    each a pattern with the named groups [path] and [params]; the
    handlebars entry writes its [>] as [\>\s*], the text the rewriters
    substitute. *)
Definition import_patterns : list (string * string) :=
  [("handlebars", "\{\{\>\s*(?P<path>[^\s}]+)\s*(?P<params>[^}]*)\}\}");
   ("include", Py.qq "@@include\(\s*['`](?P<path>[^'`]+)['`]\s*(?:,\s*(?P<params>[\s\S]*?))?\s*\)")].

(** One character replaced by another, as [str.replace] does for
    one-character strings. *)
Definition subst1 (a b : ascii) (c : ascii) : ascii := if Ascii.eqb a c then b else c.

End Includes.


(* ------------------------------------------------------------------ *)
(** ** utils/pattern.py: loading the pattern registries *)

Module Loader.
Import PyVal.

(** A resource file as [_load_json] finds it. *)
Inductive file_state :=
| Missing                       (** [path.exists()] is false *)
| OSErr                         (** [open] raises an [OSError] *)
| BadUtf8                       (** the bytes are not UTF-8: [UnicodeDecodeError] *)
| Text (s : string).

Section Limits.
(** The limits of the interpreter that runs [json.load]. *)
Variable lim : Json.limits.

(** [_load_json(path)]; [None] is an exception that escapes: only
    [JSONDecodeError] and [OSError] are caught. *)
Definition load_json (fs : file_state) : option pyval :=
  let empty := PDict [(PStr "patterns", PDict [])] in
  match fs with
  | Missing => Some empty
  | OSErr => Some empty
  | BadUtf8 => None
  | Text s => match Json.decode lim s with
              | Json.Decoded v => Some v
              | Json.DecodeError => Some empty
              | Json.LimitError => None     (** [RecursionError], [ValueError] *)
              end
  end.

(** [_load_json(path).get("patterns", {})] followed by [{**patterns}]:
    [.get] needs a dict, [**] a mapping. *)
Definition load_patterns (fs : file_state) : option (list (pyval * pyval)) :=
  match load_json fs with
  | Some (PDict kv) =>
      match dict_get kv "patterns" with
      | None => Some []
      | Some (PDict pk) => Some pk
      | Some _ => None                   (** TypeError: not a mapping *)
      end
  | Some _ => None                       (** AttributeError: no [.get] *)
  | None => None
  end.

Definition load_import_patterns := load_patterns.
Definition load_variable_patterns := load_patterns.

Section Compile.
(** [re.compile(regex, re.MULTILINE | re.VERBOSE)] on a string: a compiled
    pattern, or [None] for the [re.error] of an invalid source. *)
Variable compiled : Type.
Variable re_compile : string -> option compiled.

(** One step of the loop of [load_compiled_patterns]: an entry whose source
    raises [re.error] is skipped with a warning; a source that is not a
    string makes [re.compile] raise a [TypeError]. *)
Definition compile_step (acc : option (list (pyval * compiled))) (kv : pyval * pyval)
    : option (list (pyval * compiled)) :=
  match acc with
  | None => None
  | Some out =>
      match snd kv with
      | PStr regex =>
          match re_compile regex with
          | Some c => Some (out ++ [(fst kv, c)])
          | None => Some out
          end
      | _ => None
      end
  end.

(** [load_compiled_patterns()] *)
Definition load_compiled_patterns (fs : file_state) : option (list (pyval * compiled)) :=
  match load_import_patterns fs with
  | None => None
  | Some raw => fold_left compile_step raw (Some [])
  end.

End Compile.

(** The entries of the [patterns] object a resource file holds ([[]] for
    a file that holds none). *)
Definition file_patterns (fs : file_state) : list (pyval * pyval) :=
  match fs with
  | Text s => match Json.decode lim s with
              | Json.Decoded (PDict kv) => match dict_get kv "patterns" with
                                           | Some (PDict pk) => pk
                                           | _ => []
                                           end
              | _ => []
              end
  | _ => []
  end.

(** The files the loader reads without raising: missing, unreadable or
    rejected by the decoder with a [JSONDecodeError], or a JSON object
    whose [patterns] entry is absent or an object of strings. *)
Definition loadable (fs : file_state) : bool :=
  match fs with
  | Missing | OSErr => true
  | BadUtf8 => false
  | Text s => match Json.decode lim s with
              | Json.DecodeError => true
              | Json.LimitError => false
              | Json.Decoded (PDict kv) =>
                  match dict_get kv "patterns" with
                  | None => true
                  | Some (PDict pk) =>
                      forallb (fun kv => match snd kv with PStr _ => true | _ => false end) pk
                  | Some _ => false
                  end
              | Json.Decoded _ => false
              end
  end.

End Limits.

Definition compiled_entries {C : Type} (re_compile : string -> option C)
    (pk : list (pyval * pyval)) : list (pyval * C) :=
  flat_map (fun kv => match snd kv with
                      | PStr r => match re_compile r with
                                  | Some c => [(fst kv, c)]
                                  | None => []
                                  end
                      | _ => []
                      end) pk.

(** An entry whose value is not a string. *)
Definition not_str (kv : pyval * pyval) : bool :=
  match snd kv with PStr _ => false | _ => true end.

End Loader.

(* ------------------------------------------------------------------ *)
(** ** utils/replace_variables.py *)

Module Vars.
Local Open Scope nat_scope.

(** What [file.read_text(encoding="utf-8")] finds. *)
Inductive contents :=
| Undecodable                   (** [UnicodeDecodeError] *)
| Unreadable                    (** [OSError] *)
| Content (s : string).

(** A directory entry below the folder: a directory or a file. *)
Inductive entry := Dir | File (c : contents).

Section Engine.
(** Python's [re.sub(regex, replacement, content)]: the new text, or
    [None] for the [re.error] raised by a regex that does not compile or
    by an invalid replacement template. *)
Variable re_sub : string -> string -> string -> option string.

(** One regex of the registry; a [re.error] skips it. *)
Definition sub_one (replacement content regex : string) : string :=
  match re_sub regex replacement content with
  | Some c => c
  | None => content
  end.

(** The new text of one file: every regex of the registry in turn. *)
Definition rewrite (variable_patterns : list string) (replacement content : string) : string :=
  fold_left (sub_one replacement) variable_patterns content.

(** [replace_variables(folder, variable_patterns, replacement, ext)] over
    the entries [folder.rglob] yields (name, entry): the new entries, in
    the same order, and the names of the files written, [count] being its
    length. *)
Definition replace_variables (entries : list (string * entry)) (variable_patterns : list string)
    (replacement file_extension : string) : list (string * entry) * list string :=
  let ext := if Py.startswith file_extension "." then file_extension
             else ("." ++ file_extension)%string in
  fold_right (fun ne acc =>
    let '(name, e) := ne in
    let '(out, written) := acc in
    let keep := ((name, e) :: out, written) in
    if negb (Py.endswith name ext) then keep
    else
      match e with
      | Dir => keep
      | File Undecodable | File Unreadable => keep
      | File (Content original_content) =>
          let content := rewrite variable_patterns replacement original_content in
          if String.eqb content original_content then keep
          else ((name, File (Content content)) :: out, name :: written)
      end) ([], []) entries.

Definition ext_of (file_extension : string) : string :=
  if Py.startswith file_extension "." then file_extension
  else ("." ++ file_extension)%string.

(** Whether [replace_variables] writes the entry. *)
Definition changed (pats : list string) (r ext : string) (ne : string * entry) : bool :=
  Py.endswith (fst ne) ext &&
  match snd ne with
  | File (Content s) => negb (String.eqb (rewrite pats r s) s)
  | _ => false
  end.

Definition updated (pats : list string) (r ext : string) (ne : string * entry) : string * entry :=
  if changed pats r ext ne then
    match snd ne with
    | File (Content s) => (fst ne, File (Content (rewrite pats r s)))
    | _ => ne
    end
  else ne.

End Engine.

Section Search.
(** [re.search(regex, s)] finds a match ([false] also for a regex that
    does not compile). *)
Variable re_search : string -> string -> bool.

(** A file [replace_variables] must leave alone: one that cannot be read
    or decoded, or whose text no regex matches. *)
Definition untouched (variable_patterns : list string) (e : entry) : bool :=
  match e with
  | File (Content s) => forallb (fun regex => negb (re_search regex s)) variable_patterns
  | _ => true
  end.

End Search.

(** The engine of this development: the regexes [Rx.compile] accepts
    (without flags), applied by [Rx.sub] and searched by [Rx.search]. *)
Definition rx_sub (regex replacement content : string) : option string :=
  match Rx.compile Rx.no_flags regex with
  | Some p => Some (Rx.sub p replacement content)
  | None => None
  end.

Definition rx_search (regex s : string) : bool :=
  match Rx.compile Rx.no_flags regex with
  | Some p => match Rx.search p s with Some _ => true | None => false end
  | None => false
  end.

End Vars.

(** Path segments made of lower-case letters and digits. *)

Module Segments.

(** A path segment that every casing leaves alone: lower-case letters and
    digits only, and not empty. *)
Definition seg_char (c : ascii) : bool := Py.is_lower c || Py.is_digit c.
Definition plain (s : string) : bool :=
  negb (String.eqb s "") && forallb seg_char (Py.chars s).

End Segments.

(* ------------------------------------------------------------------ *)
(** ** [LaravelConverter._generate_routes] ([frameworks/laravel.py]) *)

Module LaravelRoutes.
Local Open Scope nat_scope.

Definition nl : string := String (ascii_of_nat 10) "".

(** [route_path] in [LaravelConverter._generate_routes] for a view at the
    relative path [rel_path]: ["/"] and the posix path without
    [".blade.php"]; a trailing ["/index"] is cut off, ["/"] if nothing is
    left. *)
Definition route_path_of (rel_path : list string) : string :=
  let route_path := ("/" ++ Py.replace (PyPath.to_string rel_path) ".blade.php" "")%string in
  if Py.endswith route_path "/index" then
    let cut := substring 0 (String.length route_path - 6) route_path in
    if String.eqb cut "" then "/" else cut
  else route_path.

(** [view_name]: the posix path without [".blade.php"], slashes turned into dots. *)
Definition view_name_of (rel_path : list string) : string :=
  Py.replace (Py.replace (PyPath.to_string rel_path) ".blade.php" "") "/" ".".

Definition route_code (rel_path : list string) : string :=
  ("Route::get('" ++ route_path_of rel_path ++ "', function () {" ++ nl ++
   "    return view('" ++ view_name_of rel_path ++ "');" ++ nl ++
   "});")%string.

(** [any(part in {"shared", "partials"} for part in file.parts)], the parts
    of the file being those of [views_dir] followed by those of [rel_path]. *)
Definition skipped (views_dir rel_path : list string) : bool :=
  existsb (fun part => String.eqb part "shared" || String.eqb part "partials")
          (views_dir ++ rel_path).

(** The routes of the paths [views_dir.rglob("*.blade.php")] yields, given
    the relative paths of the entries below [views_dir] in the order of
    the walk. *)
Definition routes_of (views_dir : list string) (tree : list (list string)) : list string :=
  map route_code
      (filter (fun rel_path => Py.endswith (last rel_path "") ".blade.php"
                               && negb (skipped views_dir rel_path)) tree).

Definition header : string :=
  ("<?php" ++ nl ++ nl ++ "use Illuminate\Support\Facades\Route;" ++ nl)%string.

(** [_generate_routes(views_dir, web_php_path)] with the current content
    of [web.php] ([None]: the file does not exist): the value returned
    ([routes_text], [None] when there is no route) and the content of
    [web.php] afterwards. *)
Definition generate_routes (views_dir : list string) (tree : list (list string))
    (web : option string) : option string * option string :=
  let routes := routes_of views_dir tree in
  let routes_text := Py.join (nl ++ nl) routes in
  match routes with
  | [] => (None, web)
  | _ :: _ =>
      let appended_block := (nl ++ routes_text ++ nl)%string in
      (Some routes_text,
       Some match web with
            | Some c => (c ++ appended_block)%string
            | None => (header ++ appended_block)%string
            end)
  end.

(** A path part without dots or slashes. *)
Definition plain_seg (p : string) : bool :=
  forallb (fun c => negb (Ascii.eqb c ".") && negb (Ascii.eqb c "/")) (Py.chars p).

End LaravelRoutes.

(* ------------------------------------------------------------------ *)
(** ** [LaravelConverter._replace_anchor_links_with_routes] ([frameworks/laravel.py]) *)

Module LaravelAnchors.
Import Re.
Local Open Scope nat_scope.

(** A literal character under [re.IGNORECASE] (on ASCII). *)
Definition ci (c : ascii) : re := Chr (fun x => Ascii.eqb (Py.lower_c x) c).
Definition ci_lit (s : string) : re := seqs (map ci (Py.chars s)).

Definition quotes : string := String Py.dq "'".

(** The pattern of [_replace_anchor_links_with_routes] with
    [re.IGNORECASE], a backquote standing for a double quote:
    [href=[`\'](?P<href>[^`\']+\.html)[`\']]; the group [href] is group 1. *)
Definition anchor_re : re :=
  seqs [ci_lit "href="; any_of quotes;
        Grp 1 (Seq (Plus (none_of quotes)) (ci_lit ".html"));
        any_of quotes].

(** [pattern.sub(repl, string)] with a function [repl]. *)
Fixpoint sub_fn_go (str : string) (repl : m -> string) (pos : nat) (ms : list m) : string :=
  match ms with
  | [] => slice (Py.chars str) pos (String.length str)
  | x :: t =>
      (slice (Py.chars str) pos (m_start x) ++ repl x
       ++ sub_fn_go str repl (m_end x) t)%string
  end.
Definition sub_fn (r : re) (repl : m -> string) (str : string) : string :=
  sub_fn_go str repl 0 (finditer r str).

(** [route_map[k]] for [k in route_map]. *)
Definition route_get (route_map : list (string * string)) (k : string) : option string :=
  match find (fun kv => String.eqb (fst kv) k) route_map with
  | Some (_, v) => Some v
  | None => None
  end.

(** [repl] of [_replace_anchor_links_with_routes]. *)
Definition anchor_repl (content : string) (route_map : list (string * string)) (x : m) : string :=
  let href_val := group_or content x 1 "" in
  let href_file := Includes.path_name href_val in
  match route_get route_map href_file with
  | Some route_path =>
      if String.eqb route_path "/index"
      then Py.qq "href=`{{ url('/') }}`"
      else (Py.qq "href=`{{ url('" ++ route_path ++ Py.qq "') }}`")%string
  | None => group_or content x 0 ""
  end.

Definition replace_anchor_links_with_routes (content : string) (route_map : list (string * string))
  : string :=
  sub_fn anchor_re (anchor_repl content route_map) content.

End LaravelAnchors.

(** Runs of the matcher behind the matches of [finditer]. *)
Module ReInv.
Import Re.
Local Open Scope nat_scope.

(** A match found at [m_start x]: the run of the matcher it comes from. *)
Definition found (s : list ascii) (r : re) (x : m) : Prop :=
  m_start x <= length s /\ exists k0, (forall j c res, k0 j c = Some res -> res = (j, c)) /\
             mt s r (m_start x) [] k0 = Some (m_end x, m_caps x).

(** The matches of [finditer] follow each other inside the subject. *)
Fixpoint chained (len pos : nat) (ms : list m) : Prop :=
  match ms with
  | [] => True
  | x :: t => pos <= m_start x /\ m_start x <= m_end x <= len /\ chained len (m_end x) t
  end.

End ReInv.

(* ------------------------------------------------------------------ *)
(** ** The include path prefixes removed by [re.sub] in
    [_replace_all_includes_with_blade] and [_replace_all_includes_with_flask] *)

(** The prefixes [^(\.\/|\.\.\/)+] removes from a path. *)
Module StripInv.
Local Open Scope nat_scope.

(** The length of a [./] or [../] at the head of [l]. *)
Definition unit_len (l : list ascii) : option nat :=
  match l with
  | a :: b :: t =>
      if Ascii.eqb a "." && Ascii.eqb b "/" then Some 2
      else if Ascii.eqb a "." && Ascii.eqb b "." then
        match t with
        | c :: _ => if Ascii.eqb c "/" then Some 3 else None
        | [] => None
        end
      else None
  | _ => None
  end.

(** The length of the longest run of [./] and [../] at the head of [l]. *)
Fixpoint munch (fuel : nat) (l : list ascii) : nat :=
  match fuel with
  | O => 0
  | S f => match unit_len l with
           | Some n => n + munch f (skipn n l)
           | None => 0
           end
  end.

End StripInv.

(* ------------------------------------------------------------------ *)
(** ** Auxiliary definitions of the proofs below *)

(** The characters [apply_casing] keeps for kebab and snake case: a run
    of separators becomes one [d], [in_run] telling whether the previous
    character was a separator. *)
Fixpoint collapse (d : ascii) (l : list ascii) (in_run : bool) : list ascii :=
  match l with
  | [] => []
  | c :: t => if Py.is_case_sep c then
                if in_run then collapse d t true else d :: collapse d t true
              else c :: collapse d t false
  end.

(** Whether the regex contains the capturing group [n]. *)
Fixpoint has_grp (n : nat) (r : Re.re) : bool :=
  match r with
  | Re.Seq a b | Re.Alt a b => has_grp n a || has_grp n b
  | Re.Star _ a => has_grp n a
  | Re.Grp m a => Nat.eqb m n || has_grp n a
  | _ => false
  end.

Module ScanInv.
Import Restructure.
Local Open Scope nat_scope.

(** The invariant of the [while] loop: the tokens consumed so far are
    those of the folders followed by the file parts. *)
Definition tok_inv (parts : list string) (st : scan) : Prop :=
  idx st <= length parts /\
  concat (map (Py.split "-") (folder_parts st)) ++ file_parts st = firstn (idx st) parts /\
  (nesting_stopped st = false -> file_parts st = []) /\
  (file_parts st = [] -> idx st < length parts) /\
  stop_at_no_nest st = false.

End ScanInv.

(* ================================================================== *)
(** * Sanity checks of the model on concrete inputs *)

Module Examples.

Example apply_casing_kebab_ex :
  apply_casing "Product_Grid  x" Kebab = "product-grid-x".
Proof. reflexivity. Qed.
Example apply_casing_pascal_ex :
  apply_casing "product-grid" Pascal = "ProductGrid".
Proof. reflexivity. Qed.
Example splitext_ex1 : PyPath.splitext "index.html" = ("index", ".html").
Proof. reflexivity. Qed.
Example splitext_ex2 : PyPath.splitext ".html" = (".html", "").
Proof. reflexivity. Qed.
Example join_ex : Py.join "/" ["a"; "b"; "c"] = "a/b/c".
Proof. reflexivity. Qed.
Example restructure_ex1 :
  Restructure.restructure_name "apps-ecommerce-product-grid.html"
  = (["apps"; "ecommerce"], "product-grid.html", false).
Proof. reflexivity. Qed.
Example restructure_ex2 :
  Restructure.restructure_name "auth-cover-signin-basic.html"
  = (["auth-cover"], "signin-basic.html", true).
Proof. reflexivity. Qed.
Example restructure_ex3 :
  Restructure.restructure_name "dashboard.html" = ([], "dashboard.html", false).
Proof. reflexivity. Qed.
Example route_map_ex :
  Route.restructure_and_copy_files
    [([], "index.html"); ([], "apps-ecommerce-product-grid.html");
     ([], "auth-cover-signin-basic.html")] ["out"] None Kebab
  = Some [("index.html", "/index");
     ("apps-ecommerce-product-grid.html", "/apps/ecommerce/product-grid");
     ("auth-cover-signin-basic.html", "/auth-cover/signin-basic")].
Proof. reflexivity. Qed.
Example route_map_pascal_ex :
  Route.restructure_and_copy_files
    [([], "apps-ecommerce-product-grid.html")] ["out"] None Pascal
  = Some [("apps-ecommerce-product-grid.html", "/apps/ecommerce/productgrid")].
Proof. reflexivity. Qed.
Example json_ex1 : Json.loads (Py.qq "{`a`: [1, 2.5e3, true], `b`: null, `a`: `x\ny`}")
  = Some (PyVal.PDict [(PyVal.PStr "a", PyVal.PStr (String "x" (String "010" "y")));
                       (PyVal.PStr "b", PyVal.PNone)]).
Proof. vm_compute. reflexivity. Qed.
Example json_ex2 : Json.loads "[]" = Some (PyVal.PList []).
Proof. reflexivity. Qed.
Example json_ex3 : Json.loads "{1, 2}" = None.
Proof. reflexivity. Qed.
Example lit_ex1 : LitEval.literal_eval "{1, 2}"
  = Some (PyVal.PSet [PyVal.PInt 1; PyVal.PInt 2]).
Proof. vm_compute. reflexivity. Qed.
Example lit_ex2 : LitEval.literal_eval (Py.qq "{ 'title': `Home`, 'active': True, 'n': -2,}")
  = Some (PyVal.PDict [(PyVal.PStr "title", PyVal.PStr "Home");
                       (PyVal.PStr "active", PyVal.PBool true);
                       (PyVal.PStr "n", PyVal.PInt (-2))]).
Proof. vm_compute. reflexivity. Qed.
Example lit_ex3 : LitEval.literal_eval "1, (2,), [3], 'a' 'b', 007" = None.
Proof. vm_compute. reflexivity. Qed.
Example lit_ex4 : LitEval.literal_eval "1, (2,), [3], 'a' 'b', 00"
  = Some (PyVal.PTuple [PyVal.PInt 1; PyVal.PTuple [PyVal.PInt 2]; PyVal.PList [PyVal.PInt 3];
                        PyVal.PStr "ab"; PyVal.PInt 0]).
Proof. vm_compute. reflexivity. Qed.
Example lit_ex5 : LitEval.literal_eval "{[1]: 2}" = None.
Proof. vm_compute. reflexivity. Qed.
Example rx_ex1 : Rx.sub (Rx.rx Rx.no_flags "([{,])\s*([a-zA-Z_][\w]*)\s*:") "\1 '\2':"
   (Py.qq "{title: `Home`, active: true}") = Py.qq "{ 'title': `Home`, 'active': true}".
Proof. vm_compute. reflexivity. Qed.
Example rx_ex2 : Rx.sub (Rx.rx Rx.no_flags "\s{2,}") " " "a   b c  d" = "a b c d".
Proof. vm_compute. reflexivity. Qed.
Example rx_ex4 : Re.findall (Re.Alt (Re.Star true (Re.ch "a")) (Re.ch "b")) 0 "b"
  = [[]; []; []].
Proof. vm_compute. reflexivity. Qed.
Example rx_ex5 : List.map (fun x => (Re.m_start x, Re.m_end x))
    (Re.finditer (Re.Alt (Re.Star true (Re.ch "a")) (Re.ch "b")) "b") = [(0, 0); (0, 1); (1, 1)].
Proof. vm_compute. reflexivity. Qed.
Example rx_ex6 : Rx.sub (Rx.rx Rx.no_flags "x*") "-" "abxd" = "-a-b--d-".
Proof. vm_compute. reflexivity. Qed.
Example rx_ex3 : Rx.sub (Rx.rx Rx.no_flags "^(\.\/|\.\.\/)+") "" "../.././a/b.html" = "a/b.html".
Proof. vm_compute. reflexivity. Qed.
Example par_ex1 : Params.flask_parse_include_params "{1, 2}" = PyVal.PSet [PyVal.PInt 1; PyVal.PInt 2].
Proof. vm_compute. reflexivity. Qed.
Example par_ex2 : Params.flask_parse_include_params (Py.qq "{title: `Home`, active: true}")
  = PyVal.PDict [(PyVal.PStr "title", PyVal.PStr "Home"); (PyVal.PStr "active", PyVal.PBool true)].
Proof. vm_compute. reflexivity. Qed.
Example par_ex3 : Params.laravel_parse_include_params (fun s => s) (Py.qq "{title: `Home`, active: true}")
  = PyVal.PDict [(PyVal.PStr "title", PyVal.PStr "Home"); (PyVal.PStr "active", PyVal.PBool true)].
Proof. vm_compute. reflexivity. Qed.
Example par_ex4 : Params.laravel_parse_include_params (fun s => s) "{1, 2}" = PyVal.PDict [].
Proof. vm_compute. reflexivity. Qed.
Example par_ex5 : Params.laravel_parse_include_params (fun s => s) "array('title' => 'A', 'n' => 3, 'ok' => true)"
  = PyVal.PDict [(PyVal.PStr "title", PyVal.PStr "A"); (PyVal.PStr "n", PyVal.PInt 3); (PyVal.PStr "ok", PyVal.PBool true)].
Proof. vm_compute. reflexivity. Qed.
Example par_ex6 : Params.laravel_parse_include_params (fun s => s) (Py.qq "['title' => `A`, 'x' => -2.5]")
  = PyVal.PDict [(PyVal.PStr "title", PyVal.PStr "A"); (PyVal.PStr "x", PyVal.PFloat "-2.5")].
Proof. vm_compute. reflexivity. Qed.
Example par_ex7 : Params.flask_parse_include_params "title='A' sub='B'"
  = PyVal.PDict [(PyVal.PStr "title", PyVal.PStr "A"); (PyVal.PStr "sub", PyVal.PStr "B")].
Proof. vm_compute. reflexivity. Qed.
Example inc_ex1 : Includes.fragments Rx.no_flags Includes.import_patterns "a {{&gt; partials/footer}} b"
  = Some [Includes.mkFrag "{{&gt; partials/footer}}" (Some "partials/footer") (Some "")].
Proof. vm_compute. reflexivity. Qed.
Example inc_ex2 : Includes.replace_all_includes_with_blade (fun s => s) Includes.import_patterns
   (Py.qq "<head>{{> partials/title-meta title=`Home`}}</head>")
  = Some "<head>@include('shared.partials.title-meta', ['title' => 'Home'])</head>".
Proof. vm_compute. reflexivity. Qed.
Example inc_ex3 : Includes.replace_all_includes_with_flask Includes.import_patterns
   (Py.qq "<head>@@include('./partials/title-meta.html', {`title`: `Home`})</head>")
  = Some ("<head>{% set title='Home' %}" ++ String "010" "{% include 'partials/title-meta.html' %}</head>")%string.
Proof. vm_compute. reflexivity. Qed.

End Examples.

(* ================================================================== *)
(** * Lemmas on the string and path primitives *)

Module PyFacts.
Export Segments.
Local Open Scope nat_scope.

Lemma chars_app (a b : string) :
  Py.chars (a ++ b) = Py.chars a ++ Py.chars b.
Proof. induction a as [|c a IH]; simpl; [reflexivity | now rewrite IH]. Qed.

Lemma of_chars_chars (s : string) : Py.of_chars (Py.chars s) = s.
Proof. apply string_of_list_ascii_of_string. Qed.

Lemma chars_of_chars (l : list ascii) : Py.chars (Py.of_chars l) = l.
Proof. apply list_ascii_of_string_of_list_ascii. Qed.

Ltac ascii_cases c :=
  destruct c as [[] [] [] [] [] [] [] []]; vm_compute; try reflexivity;
  try discriminate.

Lemma seg_char_facts (c : ascii) :
  seg_char c = true ->
  Py.is_case_sep c = false /\ Py.is_upper c = false /\
  Ascii.eqb c "." = false /\ Ascii.eqb c "/" = false /\
  Py.is_space c = false.
Proof. ascii_cases c; intros; repeat split; reflexivity. Qed.

Lemma slash_facts :
  Py.is_case_sep "/" = false /\ Py.is_upper "/" = false /\
  Py.is_space "/" = false.
Proof. repeat split; reflexivity. Qed.

Lemma drop_while_stop (p : ascii -> bool) (l : list ascii) :
  match l with [] => True | c :: _ => p c = false end ->
  Py.drop_while p l = l.
Proof. destruct l as [|c l]; simpl; [auto | intros ->; reflexivity]. Qed.

Lemma drop_while_all_false (p : ascii -> bool) (l : list ascii) :
  (forall c, In c l -> p c = false) -> Py.drop_while p l = l.
Proof.
  intros H; apply drop_while_stop; destruct l; [exact I | apply H; now left].
Qed.

Lemma strip_id (s : string) :
  (forall c, In c (Py.chars s) -> Py.is_space c = false) -> Py.strip s = s.
Proof.
  intros H; unfold Py.strip.
  rewrite (drop_while_all_false _ (Py.chars s)) by exact H.
  rewrite (drop_while_all_false _ (rev (Py.chars s))).
  - now rewrite rev_involutive, of_chars_chars.
  - intros c Hc; apply H, in_rev, Hc.
Qed.

Lemma split_runs_go_nosep (l cur : list ascii) (b : bool) :
  (forall c, In c l -> Py.is_case_sep c = false) ->
  Py.split_runs_go l cur b = [Py.of_chars (rev cur ++ l)].
Proof.
  revert cur b; induction l as [|c l IH]; intros cur b H; simpl.
  - now rewrite app_nil_r.
  - rewrite (H c (or_introl eq_refl)).
    rewrite IH by (intros d Hd; apply H; now right).
    simpl; now rewrite <- app_assoc.
Qed.

Lemma lower_id (s : string) :
  (forall c, In c (Py.chars s) -> Py.is_upper c = false) -> Py.lower s = s.
Proof.
  intros H; unfold Py.lower.
  rewrite map_ext_in with (g := fun c => c).
  - now rewrite map_id, of_chars_chars.
  - intros c Hc; unfold Py.lower_c; now rewrite H.
Qed.

(** Kebab casing leaves a string alone when it has no separator and no
    upper-case character. *)
Lemma kebab_id (s : string) :
  (forall c, In c (Py.chars s) ->
             Py.is_case_sep c = false /\ Py.is_upper c = false) ->
  apply_casing s Kebab = s.
Proof.
  intros H; unfold apply_casing.
  assert (Hsp : forall c, In c (Py.chars s) -> Py.is_space c = false).
  { intros c Hc; destruct (H c Hc) as [Hs _]; unfold Py.is_case_sep in Hs;
    now apply orb_false_elim in Hs as [Hs _]; apply orb_false_elim in Hs as [Hs _]. }
  rewrite strip_id by exact Hsp; unfold Py.split_runs.
  rewrite split_runs_go_nosep by (intros c Hc; apply H, Hc).
  simpl; rewrite of_chars_chars; apply lower_id; intros c Hc; apply H, Hc.
Qed.

Lemma rfind_none (d : ascii) (s : string) :
  (forall c, In c (Py.chars s) -> Ascii.eqb c d = false) -> Py.rfind d s = None.
Proof.
  intros H; unfold Py.rfind.
  assert (Hg : forall (l : list (nat * ascii)),
             (forall i c, In (i, c) l -> Ascii.eqb c d = false) ->
             fold_left (fun acc '(i, c) => if Ascii.eqb c d then Some i else acc)
                       l None = None).
  { induction l as [|[i c] l IH]; intros Hl; simpl; [reflexivity|].
    rewrite (Hl i c (or_introl eq_refl)); apply IH; intros j e Hj;
    apply (Hl j e); now right. }
  apply Hg; intros i c Hin; apply H.
  apply in_combine_r in Hin; exact Hin.
Qed.

Lemma plain_chars (s : string) :
  plain s = true -> forall c, In c (Py.chars s) -> seg_char c = true.
Proof.
  unfold plain; intros H c Hc; apply andb_prop in H as [_ H].
  rewrite forallb_forall in H; auto.
Qed.

Lemma plain_not_empty (s : string) : plain s = true -> s <> "".
Proof.
  unfold plain; intros H ->; discriminate.
Qed.

Lemma plain_not_dot (s : string) : plain s = true -> s <> ".".
Proof. intros H ->; discriminate. Qed.

Lemma mk_id (l : list string) :
  (forall s, In s l -> s <> "" /\ s <> ".") -> PyPath.mk l = l.
Proof.
  induction l as [|s l IH]; simpl; [reflexivity|].
  intros H; rewrite IH by (intros t Ht; apply H; now right).
  destruct (H s (or_introl eq_refl)) as [H1 H2].
  destruct (String.eqb_spec s "") as [E|_]; [contradiction|].
  destruct (String.eqb_spec s ".") as [E|_]; [contradiction|].
  reflexivity.
Qed.

Lemma plain_part (s : string) : plain s = true -> s <> "" /\ s <> ".".
Proof. intros H; split; [apply plain_not_empty | apply plain_not_dot]; exact H. Qed.

Lemma case_part_plain (s : string) :
  plain s = true -> Route.case_part Kebab s = s.
Proof.
  intros H; unfold Route.case_part.
  rewrite rfind_none by (intros c Hc; apply (seg_char_facts c); now apply (plain_chars s)).
  simpl; apply kebab_id; intros c Hc.
  destruct (seg_char_facts c (plain_chars s H c Hc)) as (? & ? & _); auto.
Qed.

Lemma relative_to_app (a b : list string) :
  PyPath.relative_to (a ++ b) a = Some b.
Proof. induction a as [|x a IH]; simpl; [reflexivity|now rewrite String.eqb_refl]. Qed.

Lemma join_cons_chars (sep s : string) (t : list string) :
  exists rest, Py.chars (Py.join sep (s :: t)) = Py.chars s ++ rest.
Proof.
  destruct t as [|u t]; simpl.
  - exists []; now rewrite app_nil_r.
  - exists (Py.chars (sep ++ Py.join sep (u :: t))).
    change (Py.chars (s ++ sep ++ Py.join sep (u :: t)) =
            Py.chars s ++ Py.chars (sep ++ Py.join sep (u :: t))).
    apply chars_app.
Qed.

Lemma str_app_assoc (a b c : string) :
  ((a ++ b) ++ c)%string = (a ++ b ++ c)%string.
Proof. induction a as [|d a IH]; simpl; [reflexivity|now rewrite IH]. Qed.

Lemma join_cons2 (sep a y : string) (t : list string) :
  Py.join sep (a :: y :: t) = (a ++ sep ++ Py.join sep (y :: t))%string.
Proof. reflexivity. Qed.

Lemma join_snoc (sep x : string) (l : list string) :
  l <> [] -> Py.join sep (l ++ [x]) = (Py.join sep l ++ sep ++ x)%string.
Proof.
  induction l as [|a l IH]; intros Hne; [congruence|].
  destruct l as [|b l].
  - reflexivity.
  - assert (E := IH ltac:(discriminate)); cbn [app] in E |- *.
    rewrite !join_cons2, E.
    now rewrite !str_app_assoc.
Qed.

Lemma in_chars_join (sep : string) (l : list string) (c : ascii) :
  In c (Py.chars (Py.join sep l)) ->
  In c (Py.chars sep) \/ exists s, In s l /\ In c (Py.chars s).
Proof.
  induction l as [|a l IH]; simpl; [tauto|].
  destruct l as [|b l].
  - intros Hc; right; exists a; split; [now left | exact Hc].
  - intros Hc.
    change (In c (Py.chars (a ++ sep ++ Py.join sep (b :: l)))) in Hc.
    rewrite !chars_app in Hc; apply in_app_or in Hc as [Hc|Hc].
    + right; exists a; split; [now left|exact Hc].
    + apply in_app_or in Hc as [Hc|Hc]; [now left|].
      destruct (IH Hc) as [H|(s & Hs & Hcs)]; [now left|].
      right; exists s; split; [now right|exact Hcs].
Qed.

End PyFacts.

(* ================================================================== *)
(** * The route map of [restructure_and_copy_files] *)

Module RouteFacts.
Import PyFacts.
Local Open Scope nat_scope.

Lemma restructure_index :
  Restructure.restructure_name "index.html" = ([], "index.html", false).
Proof. reflexivity. Qed.

Lemma map_case_part_plain (l : list string) :
  forallb plain l = true -> map (Route.case_part Kebab) l = l.
Proof.
  intros H; rewrite map_ext_in with (g := fun s => s); [apply map_id|].
  intros s Hs; apply case_part_plain; rewrite forallb_forall in H; auto.
Qed.

Lemma dest_of_index (dest parent : list string) :
  forallb plain dest = true -> forallb plain parent = true ->
  Route.dest_of Kebab None dest parent "index.html"
  = Some (dest ++ parent ++ ["index.html"]).
Proof.
  intros Hd Hp.
  assert (Hall : forall s, In s (dest ++ parent ++ ["index.html"]) ->
                          s <> "" /\ s <> ".").
  { intros s Hs; apply in_app_or in Hs as [Hs|Hs];
      [|apply in_app_or in Hs as [Hs|[<-|[]]]];
      [ | | split; discriminate]; apply plain_part;
      rewrite forallb_forall in *; auto. }
  unfold Route.dest_of, Restructure.get_restructured_path.
  rewrite restructure_index; cbn iota beta; simpl app.
  rewrite mk_id by exact Hall.
  unfold Route.apply_case_style.
  rewrite !map_app, !map_case_part_plain by assumption.
  change (map (Route.case_part Kebab) ["index.html"]) with ["index.html"].
  now rewrite mk_id.
Qed.

Lemma with_suffix_index (parent : list string) :
  PyPath.with_suffix (parent ++ ["index.html"]) ""
  = Some (parent ++ ["index"]).
Proof.
  unfold PyPath.with_suffix; rewrite rev_unit; cbn -[rev].
  now rewrite rev_involutive.
Qed.

Lemma to_string_snoc (l : list string) (x : string) :
  PyPath.to_string (l ++ [x]) = Py.join "/" (l ++ [x]).
Proof. destruct l; reflexivity. Qed.

Lemma plain_index : plain "index" = true.
Proof. reflexivity. Qed.

Lemma route_string_removesuffix (parent : list string) :
  Py.removesuffix (Py.join "/" (parent ++ ["index"])) ".blade"
  = Py.join "/" (parent ++ ["index"]).
Proof.
  unfold Py.removesuffix; cbn [String.length Nat.eqb].
  destruct parent as [|p ps]; [reflexivity|].
  rewrite join_snoc by discriminate.
  unfold Py.endswith; rewrite !chars_app, !rev_app_distr.
  reflexivity.
Qed.

Lemma route_string_chars (parent : list string) :
  forallb plain parent = true ->
  forall c, In c (Py.chars (Py.join "/" (parent ++ ["index"]))) ->
  Py.is_case_sep c = false /\ Py.is_upper c = false.
Proof.
  intros Hp c Hc; apply in_chars_join in Hc as [Hc|(s & Hs & Hcs)].
  - destruct Hc as [<-|[]]; split; reflexivity.
  - assert (Hps : plain s = true).
    { apply in_app_or in Hs as [Hs|[<-|[]]]; [|reflexivity].
      rewrite forallb_forall in Hp; auto. }
    destruct (seg_char_facts c (plain_chars s Hps c Hcs)) as (? & ? & _); auto.
Qed.

Lemma route_string_lstrip (parent : list string) :
  forallb plain parent = true ->
  Py.lstrip_chars ["/"%char] (Py.join "/" (parent ++ ["index"]))
  = Py.join "/" (parent ++ ["index"]).
Proof.
  intros Hp; unfold Py.lstrip_chars.
  set (first := hd "index" parent).
  assert (Hf : plain first = true).
  { unfold first; destruct parent as [|p ps]; [reflexivity|].
    simpl in Hp; now apply andb_prop in Hp as [? _]. }
  assert (Hcons : parent ++ ["index"] = first :: tl (parent ++ ["index"])).
  { unfold first; destruct parent; reflexivity. }
  destruct (join_cons_chars "/" first (tl (parent ++ ["index"]))) as [rest Hr].
  rewrite Hcons, Hr, drop_while_stop.
  - now rewrite <- Hr, of_chars_chars.
  - destruct (Py.chars first) as [|c cs] eqn:Ec.
    + exfalso; apply (plain_not_empty first Hf).
      now rewrite <- (of_chars_chars first), Ec.
    + simpl; destruct (seg_char_facts c) as (_ & _ & _ & Hs & _).
      * apply (plain_chars first Hf); rewrite Ec; now left.
      * now rewrite Hs.
Qed.

Lemma route_of_index (dest parent : list string) :
  forallb plain parent = true ->
  Route.route_of_dest (dest ++ parent ++ ["index.html"]) dest
  = Some ("/" ++ Py.join "/" (parent ++ ["index"]))%string.
Proof.
  intros Hp; unfold Route.route_of_dest.
  rewrite relative_to_app, with_suffix_index, to_string_snoc,
          route_string_removesuffix.
  rewrite kebab_id by (apply route_string_chars, Hp).
  now rewrite route_string_lstrip.
Qed.

End RouteFacts.

(* ================================================================== *)
(** * Invariant of the restructuring scan *)

Module ScanFacts.
Import Restructure.
Local Open Scope nat_scope.

Lemma try_folders_unmatched (fws parts : list string) (st st1 : scan) :
  try_folders fws parts st = (st1, false) -> st1 = st.
Proof.
  induction fws as [|fw fws IH]; simpl; [congruence|].
  destruct (list_str_eqb _ _); [destruct (_ <=? _); congruence | exact IH].
Qed.

Lemma try_folders_inv (fws parts : list string) (st : scan) :
  stop_at_no_nest st = false -> no_nest_last (fst (try_folders fws parts st)).
Proof.
  intros Hs; induction fws as [|fw fws IH]; simpl; [unfold no_nest_last; congruence|].
  destruct (list_str_eqb _ _); [|exact IH].
  destruct (_ <=? _); unfold no_nest_last; simpl; rewrite Hs; [discriminate|].
  simpl; intros Hm; split.
  - destruct (folder_parts st); discriminate.
  - now rewrite last_last.
Qed.

Lemma scan_loop_inv (fuel : nat) (parts : list string) (st : scan) :
  stop_at_no_nest st = false -> no_nest_last (scan_loop fuel parts st).
Proof.
  revert st; induction fuel as [|f IH]; intros st Hs.
  - unfold no_nest_last; cbn [scan_loop]; congruence.
  - cbn [scan_loop].
    destruct (idx st <? length parts); [|unfold no_nest_last; congruence].
    destruct (nesting_stopped st); [apply IH; cbn; first [exact Hs | reflexivity]|].
    destruct (try_folders sorted_folders parts st) as [st1 matched] eqn:Et.
    destruct matched.
    + pose proof (try_folders_inv sorted_folders parts st Hs) as H1.
      rewrite Et in H1; cbn [fst] in H1.
      destruct (stop_at_no_nest st1) eqn:E1.
      * unfold no_nest_last; cbn [stop_at_no_nest folder_parts].
        intros _; apply H1, E1.
      * apply IH, E1.
    + apply try_folders_unmatched in Et; subst st1.
      cbn [stop_at_no_nest]; rewrite Hs.
      apply IH; reflexivity.
Qed.

Lemma restructure_name_inv (filename : string) :
  let '(folders, _, stop) := restructure_name filename in
  stop = true ->
  folders <> [] /\ mem (last folders "") NO_NESTING_FOLDERS = true.
Proof.
  unfold restructure_name; destruct (PyPath.splitext filename) as [n e].
  apply scan_loop_inv; reflexivity.
Qed.

End ScanFacts.

(* ================================================================== *)
(** * The claims *)

(* ================================================================== *)
(** * Lemmas on the include rewriters *)

Module IncludeFacts.
Import PyFacts.
Local Open Scope nat_scope.

Lemma chars_length (s : string) : length (Py.chars s) = String.length s.
Proof. induction s as [|c s IH]; simpl; [reflexivity | now rewrite IH]. Qed.

Lemma replace_go_char (a b : ascii) (l : list ascii) (f : nat) :
  length l <= f ->
  Py.replace_go f [a] [b] None l = map (Includes.subst1 a b) l.
Proof.
  revert f. induction l as [|c t IH]; intros f Hf.
  - destruct f; reflexivity.
  - destruct f as [|f]; [simpl in Hf; lia|].
    cbn [Py.replace_go Py.prefixb map]. rewrite andb_true_r.
    unfold Includes.subst1 at 1.
    destruct (Ascii.eqb a c); cbn [skipn length app];
      rewrite IH by (simpl in Hf; lia); reflexivity.
Qed.

Lemma replace_char_chars (s : string) (a b : ascii) :
  Py.chars (Py.replace s (String a "") (String b ""))
  = map (Includes.subst1 a b) (Py.chars s).
Proof.
  unfold Py.replace, Py.replace_n. rewrite chars_of_chars.
  apply replace_go_char. rewrite chars_length. lia.
Qed.

Lemma contains_char (s : string) (a : ascii) :
  Py.contains s (String a "") = true -> In a (Py.chars s).
Proof.
  unfold Py.contains. generalize (Py.chars s). intros l.
  induction l as [|c t IH]; cbn [Py.contains_go Py.chars list_ascii_of_string Py.prefixb].
  - discriminate.
  - rewrite andb_true_r. intros H. apply orb_true_iff in H as [H|H].
    + apply Ascii.eqb_eq in H. subst. left. reflexivity.
    + right. apply IH. exact H.
Qed.

Lemma replace_first_prefix (s p n : string) :
  p <> "" -> Py.startswith s p = true ->
  exists rest, Py.chars (Py.replace_n s p n (Some 1)) = Py.chars n ++ rest.
Proof.
  intros Hp H. unfold Py.startswith in H. unfold Py.replace_n. rewrite chars_of_chars.
  destruct (Py.chars s) as [|c t] eqn:E.
  - destruct p as [|d p']; [contradiction|]. simpl in H. discriminate.
  - cbn [Py.replace_go]. rewrite H. eexists. reflexivity.
Qed.

Lemma split_go_nosep (sep : ascii) (l cur : list ascii) :
  ~ In sep l -> Py.split_go sep l cur = [Py.of_chars (rev cur ++ l)].
Proof.
  revert cur. induction l as [|c t IH]; intros cur Hn.
  - simpl. rewrite app_nil_r. reflexivity.
  - simpl. destruct (Ascii.eqb c sep) eqn:E.
    + apply Ascii.eqb_eq in E. subst. exfalso. apply Hn. left. reflexivity.
    + rewrite IH by (intros Hi; apply Hn; right; exact Hi).
      simpl. rewrite <- app_assoc. reflexivity.
Qed.

Lemma path_name_noslash (x : string) :
  ~ In "/"%char (Py.chars x) -> Includes.path_name x = x \/ Includes.path_name x = "".
Proof.
  intros H. unfold Includes.path_name, PyPath.of_string, Py.split.
  rewrite split_go_nosep by exact H. simpl. rewrite of_chars_chars.
  destruct (String.eqb x "" || String.eqb x "."); simpl; auto.
Qed.

Lemma lower_keeps_dot (x : string) :
  In "."%char (Py.chars x) -> In "."%char (Py.chars (Py.lower x)).
Proof.
  intros H. unfold Py.lower. rewrite chars_of_chars.
  change "."%char with (Py.lower_c "."). apply in_map. exact H.
Qed.

(** The path the Laravel rewriter tests, after its prefixing, contains a
    slash. *)
Lemma blade_path_has_slash (clean : string) :
  In "/"%char (Py.chars
    (if Py.startswith clean "partials/"
     then Py.replace_n clean "partials/" "shared/partials/" (Some 1)
     else if negb (Py.contains clean "/") then ("shared/partials/" ++ clean)%string
     else clean)).
Proof.
  destruct (Py.startswith clean "partials/") eqn:E1.
  - destruct (replace_first_prefix clean "partials/" "shared/partials/") as [rest Hr];
      [discriminate | exact E1 |].
    rewrite Hr. apply in_or_app. left. simpl. tauto.
  - destruct (Py.contains clean "/") eqn:E2; simpl.
    + apply contains_char. exact E2.
    + right. right. right. right. right. right. left. reflexivity.
Qed.

(** Once slashes become dots, the name [Path(...).name] is never one of
    the title includes. *)
Lemma blade_name_not_title (c : string) :
  In "/"%char (Py.chars c) ->
  let nm := Py.lower (Includes.path_name (Py.replace c "/" ".")) in
  String.eqb nm "title-meta" || String.eqb nm "app-meta-title" = false.
Proof.
  intros H. cbv zeta.
  set (x := Py.replace c "/" ".").
  assert (Hx : Py.chars x = map (Includes.subst1 "/" ".") (Py.chars c))
    by apply replace_char_chars.
  assert (Hns : ~ In "/"%char (Py.chars x)).
  { rewrite Hx. intros Hi. apply in_map_iff in Hi as [d [Hd _]].
    unfold Includes.subst1 in Hd. destruct (Ascii.eqb "/" d) eqn:E.
    - discriminate.
    - subst d. discriminate. }
  assert (Hdot : In "."%char (Py.chars x)).
  { rewrite Hx. change "."%char with (Includes.subst1 "/" "." "/"). apply in_map. exact H. }
  destruct (path_name_noslash x Hns) as [Hn|Hn]; rewrite Hn.
  - apply lower_keeps_dot in Hdot.
    destruct (String.eqb (Py.lower x) "title-meta") eqn:E1.
    { apply String.eqb_eq in E1. rewrite E1 in Hdot. simpl in Hdot.
      exfalso. repeat (destruct Hdot as [Hdot|Hdot]; [discriminate|]). exact Hdot. }
    destruct (String.eqb (Py.lower x) "app-meta-title") eqn:E2.
    { apply String.eqb_eq in E2. rewrite E2 in Hdot. simpl in Hdot.
      exfalso. repeat (destruct Hdot as [Hdot|Hdot]; [discriminate|]). exact Hdot. }
    reflexivity.
  - reflexivity.
Qed.

Lemma include_prefix_not_empty (s : string) :
  Some ("@include('" ++ s)%string <> Some "".
Proof. discriminate. Qed.

End IncludeFacts.

(* ================================================================== *)
(** * Lemmas on the loader and on [replace_variables] *)

Module LoaderFacts.
Import PyVal Loader.

(** The shapes of decoded document that make [.get] or [**] raise. *)
Definition bad_document (v : pyval) : Prop :=
  match v with
  | PDict kv => match dict_get kv "patterns" with
                | None | Some (PDict _) => False
                | Some _ => True
                end
  | _ => True
  end.

Lemma load_patterns_loadable (lim : Json.limits) (fs : file_state) :
  loadable lim fs = true -> load_patterns lim fs = Some (file_patterns lim fs).
Proof.
  destruct fs as [| | |s]; simpl; try reflexivity; try discriminate.
  unfold load_patterns, load_json, file_patterns.
  destruct (Json.decode lim s) as [v| |]; try reflexivity; try discriminate.
  destruct v; try discriminate.
  destruct (dict_get kv "patterns") as [w|]; [|reflexivity].
  destruct w; try discriminate. reflexivity.
Qed.

Lemma compile_fold_none {C : Type} (re_compile : string -> option C)
    (pk : list (pyval * pyval)) :
  fold_left (compile_step C re_compile) pk None = None.
Proof. induction pk as [|kv t IH]; [reflexivity|exact IH]. Qed.

Lemma compile_fold {C : Type} (re_compile : string -> option C)
    (pk : list (pyval * pyval)) (out : list (pyval * C)) :
  fold_left (compile_step C re_compile) pk (Some out)
  = if existsb not_str pk then None else Some (out ++ compiled_entries re_compile pk).
Proof.
  revert out. induction pk as [|[k v] t IH]; intros out.
  - simpl. rewrite app_nil_r. reflexivity.
  - destruct v; cbn [fold_left compile_step snd fst existsb not_str orb];
      try apply compile_fold_none.
    destruct (re_compile s) as [c|] eqn:Er; rewrite IH; destruct (existsb not_str t);
      try reflexivity; unfold compiled_entries; cbn [flat_map snd fst]; rewrite Er;
      [rewrite <- app_assoc|]; reflexivity.
Qed.

Lemma file_patterns_strings (lim : Json.limits) (fs : file_state) :
  loadable lim fs = true -> existsb not_str (file_patterns lim fs) = false.
Proof.
  destruct fs as [| | |s]; simpl; try reflexivity; try discriminate.
  destruct (Json.decode lim s) as [v| |]; try reflexivity; try discriminate.
  destruct v; try discriminate.
  destruct (dict_get kv "patterns") as [w|]; [|reflexivity].
  destruct w; try discriminate. intros H.
  induction kv0 as [|[k x] t IH]; [reflexivity|].
  simpl in H |- *. destruct x; try discriminate. exact (IH H).
Qed.

Lemma load_patterns_none (lim : Json.limits) (fs : file_state) :
  load_patterns lim fs = None <->
  fs = BadUtf8 \/
  exists s, fs = Text s /\
    (Json.decode lim s = Json.LimitError \/
     exists v, Json.decode lim s = Json.Decoded v /\ bad_document v).
Proof.
  unfold load_patterns, load_json. destruct fs as [| | |s].
  - split; [discriminate|intros [E|(s & E & _)]; discriminate].
  - split; [discriminate|intros [E|(s & E & _)]; discriminate].
  - split; [intros _; left; reflexivity|reflexivity].
  - split.
    + intros H. right. exists s. split; [reflexivity|].
      destruct (Json.decode lim s) as [v| |]; [|discriminate|left; reflexivity].
      right. exists v. split; [reflexivity|].
      destruct v; try exact I. unfold bad_document.
      destruct (dict_get kv "patterns") as [w|]; [|discriminate].
      destruct w; try exact I. discriminate.
    + intros [E|(s' & E & H)]; [discriminate|]. injection E as <-.
      destruct H as [H|(v & H & Hb)]; rewrite H; [reflexivity|].
      destruct v; try reflexivity. unfold bad_document in Hb.
      destruct (dict_get kv "patterns") as [w|]; [|destruct Hb].
      destruct w; try reflexivity. destruct Hb.
Qed.

Lemma load_patterns_empty (lim : Json.limits) (fs : file_state) :
  (fs = Missing \/ fs = OSErr \/ exists s, fs = Text s /\ Json.decode lim s = Json.DecodeError) ->
  load_patterns lim fs = Some [].
Proof.
  intros [->|[->|(s & -> & H)]]; [reflexivity|reflexivity|].
  unfold load_patterns, load_json. rewrite H. reflexivity.
Qed.

End LoaderFacts.

Module VarsFacts.
Import Vars.
Local Open Scope nat_scope.

Lemma sub_no_match (p : Rx.pattern) (r s : string) :
  Rx.search p s = None -> Rx.sub p r s = s.
Proof.
  unfold Rx.search, Rx.sub, Re.sub, Re.finditer, Re.search. intros H.
  cbn [Re.finditer_go]. rewrite H. cbn [Re.sub_go]. unfold Re.slice.
  rewrite Nat.sub_0_r, skipn_O, <- IncludeFacts.chars_length, firstn_all.
  apply PyFacts.of_chars_chars.
Qed.

(** The engine of this development behaves as [re.sub] does on a text
    without a match. *)
Lemma rx_no_match (regex r s : string) :
  rx_search regex s = false -> rx_sub regex r s = None \/ rx_sub regex r s = Some s.
Proof.
  unfold rx_search, rx_sub. destruct (Rx.compile Rx.no_flags regex) as [p|]; [|left; reflexivity].
  destruct (Rx.search p s) eqn:Es; [discriminate|]. intros _. right.
  rewrite sub_no_match by exact Es. reflexivity.
Qed.

Section Engine.
Variable re_sub : string -> string -> string -> option string.
Variable re_search : string -> string -> bool.
Hypothesis no_match :
  forall regex r s, re_search regex s = false -> re_sub regex r s = None \/ re_sub regex r s = Some s.

Lemma rewrite_no_match (pats : list string) (r s : string) :
  forallb (fun regex => negb (re_search regex s)) pats = true -> rewrite re_sub pats r s = s.
Proof.
  unfold rewrite. induction pats as [|a t IH]; intros H; [reflexivity|].
  simpl in H. apply andb_true_iff in H as [Ha Ht]. simpl.
  assert (E : sub_one re_sub r s a = s).
  { unfold sub_one. apply negb_true_iff in Ha.
    destruct (no_match a r s Ha) as [-> | ->]; reflexivity. }
  rewrite E. apply IH. exact Ht.
Qed.

End Engine.

Lemma replace_variables_spec (re_sub : string -> string -> string -> option string)
    (entries : list (string * entry)) (pats : list string) (r fe : string) :
  replace_variables re_sub entries pats r fe
  = (map (updated re_sub pats r (ext_of fe)) entries,
     map fst (filter (changed re_sub pats r (ext_of fe)) entries)).
Proof.
  induction entries as [|[n e] t IH]; [reflexivity|].
  unfold replace_variables in *. fold (ext_of fe) in *.
  simpl. rewrite IH. unfold updated, changed. simpl.
  destruct (Py.endswith n (ext_of fe)); simpl; [|reflexivity].
  destruct e as [|[| |s]]; simpl; try reflexivity.
  destruct (String.eqb (rewrite re_sub pats r s) s); reflexivity.
Qed.

Lemma nodup_fst {A B : Type} (l : list (A * B)) (a : A) (b b' : B) :
  NoDup (map fst l) -> In (a, b) l -> In (a, b') l -> b = b'.
Proof.
  induction l as [|[x y] t IH]; simpl; [tauto|].
  intros Hd H1 H2. inversion Hd as [|? ? Hn Hd']; subst.
  destruct H1 as [H1|H1]; destruct H2 as [H2|H2].
  - congruence.
  - inversion H1; subst. exfalso. apply Hn. apply (in_map fst) in H2. exact H2.
  - inversion H2; subst. exfalso. apply Hn. apply (in_map fst) in H1. exact H1.
  - apply IH; assumption.
Qed.

End VarsFacts.

(* ------------------------------------------------------------------ *)
(** * Lemmas on casing, the restructurer, the matcher and the route generator *)

Module CaseFacts.
Import PyFacts.
Local Open Scope nat_scope.

Lemma sep_lower (c : ascii) : Py.is_case_sep (Py.lower_c c) = Py.is_case_sep c.
Proof. ascii_cases c. Qed.
Lemma sep_upper (c : ascii) : Py.is_case_sep (Py.upper_c c) = Py.is_case_sep c.
Proof. ascii_cases c. Qed.
Lemma lower_lower (c : ascii) : Py.lower_c (Py.lower_c c) = Py.lower_c c.
Proof. ascii_cases c. Qed.
Lemma upper_lower (c : ascii) : Py.is_upper (Py.lower_c c) = false.
Proof. ascii_cases c. Qed.
Lemma space_sep (c : ascii) : Py.is_case_sep c = false -> Py.is_space c = false.
Proof. ascii_cases c. Qed.

Lemma split_runs_go_not_nil (l cur : list ascii) (b : bool) : Py.split_runs_go l cur b <> [].
Proof.
  revert cur b; induction l as [|c l IH]; intros cur b; simpl; [discriminate|].
  destruct (Py.is_case_sep c); [destruct b; [apply IH|discriminate]|apply IH].
Qed.

Lemma join_split_runs (d : ascii) (l cur : list ascii) (b : bool) :
  (b = true -> cur = []) ->
  Py.chars (Py.join (String d "") (Py.split_runs_go l cur b)) = rev cur ++ collapse d l b.
Proof.
  revert cur b; induction l as [|c l IH]; intros cur b Hb.
  - simpl; now rewrite chars_of_chars, app_nil_r.
  - cbn [Py.split_runs_go collapse]; destruct (Py.is_case_sep c).
    + destruct b.
      * rewrite (Hb eq_refl); apply IH; auto.
      * destruct (Py.split_runs_go l [] true) as [|y ys] eqn:E;
          [now apply split_runs_go_not_nil in E|].
        rewrite join_cons2, !chars_app, <- E, IH, chars_of_chars by auto; reflexivity.
    + rewrite IH by discriminate; simpl; now rewrite <- app_assoc.
Qed.

Lemma join_map_lower (d : ascii) (ws : list string) :
  Py.lower_c d = d ->
  Py.chars (Py.join (String d "") (map Py.lower ws))
  = map Py.lower_c (Py.chars (Py.join (String d "") ws)).
Proof.
  intros Hd; induction ws as [|a ws IH]; [reflexivity|].
  destruct ws as [|b ws].
  - simpl; unfold Py.lower; now rewrite chars_of_chars.
  - cbn [map]; rewrite !join_cons2, !chars_app, map_app, map_app.
    cbn [map] in IH; rewrite IH; unfold Py.lower; rewrite chars_of_chars.
    simpl; now rewrite Hd.
Qed.

Lemma collapse_map_lower (d : ascii) (l : list ascii) (b : bool) :
  Py.lower_c d = d ->
  collapse d (map Py.lower_c l) b = map Py.lower_c (collapse d l b).
Proof.
  intros Hd; revert b; induction l as [|c l IH]; intros b; [reflexivity|].
  cbn [map collapse]; rewrite sep_lower.
  destruct (Py.is_case_sep c); [destruct b; simpl; rewrite ?IH, ?Hd; reflexivity|].
  simpl; now rewrite IH.
Qed.

Lemma collapse_idem (d : ascii) (l : list ascii) (b : bool) :
  Py.is_case_sep d = true -> collapse d (collapse d l b) b = collapse d l b.
Proof.
  intros Hd; revert b; induction l as [|c l IH]; intros b; [reflexivity|].
  cbn [collapse]; destruct (Py.is_case_sep c) eqn:Ec.
  - destruct b; [apply IH|]. cbn [collapse]; rewrite Hd, IH; reflexivity.
  - cbn [collapse]; rewrite Ec, IH; reflexivity.
Qed.

Lemma in_collapse (d : ascii) (l : list ascii) (b : bool) (x : ascii) :
  In x (collapse d l b) -> x = d \/ (In x l /\ Py.is_case_sep x = false).
Proof.
  revert b; induction l as [|c l IH]; intros b; simpl; [tauto|].
  destruct (Py.is_case_sep c) eqn:Ec; [destruct b|]; simpl.
  - intros H; destruct (IH _ H) as [H1|[H1 H2]]; auto.
  - intros [H|H]; [now left|destruct (IH _ H) as [H1|[H1 H2]]; auto].
  - intros [H|H]; [subst; right; auto|destruct (IH _ H) as [H1|[H1 H2]]; auto].
Qed.

(** Kebab and snake casing, character by character. *)
Lemma casing_chars (s : string) (d : ascii) (st : case_style) :
  (st = Kebab /\ d = "-"%char) \/ (st = Snake /\ d = "_"%char) ->
  Py.chars (apply_casing s st)
  = map Py.lower_c (collapse d (Py.chars (Py.strip s)) false).
Proof.
  intros Hst.
  assert (E : apply_casing s st = Py.join (String d "") (map Py.lower (Py.split_runs (Py.strip s)))).
  { destruct Hst as [[-> ->]|[-> ->]]; reflexivity. }
  assert (Hd : Py.lower_c d = d) by (destruct Hst as [[_ ->]|[_ ->]]; reflexivity).
  rewrite E, join_map_lower by exact Hd.
  unfold Py.split_runs; rewrite join_split_runs by discriminate; reflexivity.
Qed.

Lemma str_app_nil (s : string) : (s ++ "")%string = s.
Proof. induction s as [|c s IH]; simpl; [reflexivity|now rewrite IH]. Qed.

Lemma chars_inj (a b : string) : Py.chars a = Py.chars b -> a = b.
Proof. intros H; rewrite <- (of_chars_chars a), H; apply of_chars_chars. Qed.

Lemma casing_out_chars (s : string) (d : ascii) (st : case_style) (x : ascii) :
  (st = Kebab /\ d = "-"%char) \/ (st = Snake /\ d = "_"%char) ->
  In x (Py.chars (apply_casing s st)) ->
  Py.is_upper x = false /\ (x = d \/ Py.is_case_sep x = false).
Proof.
  intros Hst Hx; rewrite (casing_chars s d st Hst) in Hx.
  apply in_map_iff in Hx as (y & <- & Hy); split; [apply upper_lower|].
  destruct (in_collapse _ _ _ _ Hy) as [->|[_ Hs]].
  - left; destruct Hst as [[_ ->]|[_ ->]]; reflexivity.
  - right; rewrite sep_lower; exact Hs.
Qed.

Lemma casing_idem (s : string) (d : ascii) (st : case_style) :
  (st = Kebab /\ d = "-"%char) \/ (st = Snake /\ d = "_"%char) ->
  apply_casing (apply_casing s st) st = apply_casing s st.
Proof.
  intros Hst.
  assert (Hd : Py.lower_c d = d) by (destruct Hst as [[_ ->]|[_ ->]]; reflexivity).
  assert (Hsd : Py.is_case_sep d = true) by (destruct Hst as [[_ ->]|[_ ->]]; reflexivity).
  assert (Hstrip : Py.strip (apply_casing s st) = apply_casing s st).
  { apply strip_id; intros x Hx.
    destruct (casing_out_chars s d st x Hst Hx) as [_ [->|Hs]].
    - destruct Hst as [[_ ->]|[_ ->]]; reflexivity.
    - apply space_sep, Hs. }
  apply chars_inj.
  rewrite (casing_chars _ d st Hst), Hstrip, (casing_chars s d st Hst).
  rewrite collapse_map_lower by exact Hd.
  rewrite collapse_idem by exact Hsd.
  rewrite map_map; apply map_ext; apply lower_lower.
Qed.

Lemma split_runs_words (l cur : list ascii) (b : bool) :
  (forall x, In x cur -> Py.is_case_sep x = false) ->
  forall w, In w (Py.split_runs_go l cur b) ->
  forall c, In c (Py.chars w) -> Py.is_case_sep c = false.
Proof.
  revert cur b; induction l as [|c l IH]; intros cur b Hc w Hw.
  - destruct Hw as [<-|[]]; rewrite chars_of_chars; intros x Hx; apply Hc, in_rev, Hx.
  - cbn [Py.split_runs_go] in Hw; destruct (Py.is_case_sep c) eqn:Ec.
    + destruct b; [apply (IH [] true); [intros ? []|exact Hw]|].
      destruct Hw as [<-|Hw].
      * rewrite chars_of_chars; intros x Hx; apply Hc, in_rev, Hx.
      * apply (IH [] true); [intros ? []|exact Hw].
    + apply (IH (c :: cur) false); [|exact Hw].
      intros x [<-|Hx]; [exact Ec|apply Hc, Hx].
Qed.

Lemma concat_chars (l : list string) :
  Py.chars (String.concat "" l) = List.concat (map Py.chars l).
Proof.
  induction l as [|a l IH]; [reflexivity|].
  destruct l as [|b l].
  - simpl; now rewrite app_nil_r.
  - change (String.concat "" (a :: b :: l)) with (a ++ String.concat "" (b :: l))%string.
    rewrite chars_app, IH; reflexivity.
Qed.

Lemma capitalize_nosep (w : string) :
  (forall c, In c (Py.chars w) -> Py.is_case_sep c = false) ->
  forall c, In c (Py.chars (Py.capitalize w)) -> Py.is_case_sep c = false.
Proof.
  unfold Py.capitalize; intros H c.
  destruct (Py.chars w) as [|x t] eqn:E; [intros []|].
  rewrite chars_of_chars; intros [<-|Hc].
  - rewrite sep_upper; apply H; now left.
  - apply in_map_iff in Hc as (y & <- & Hy); rewrite sep_lower; apply H; now right.
Qed.

Lemma lower_nosep (w : string) :
  (forall c, In c (Py.chars w) -> Py.is_case_sep c = false) ->
  forall c, In c (Py.chars (Py.lower w)) -> Py.is_case_sep c = false.
Proof.
  unfold Py.lower; intros H c; rewrite chars_of_chars; intros Hc.
  apply in_map_iff in Hc as (y & <- & Hy); rewrite sep_lower; apply H, Hy.
Qed.

Lemma words_nosep (s : string) :
  forall w, In w (Py.split_runs (Py.strip s)) ->
  forall c, In c (Py.chars w) -> Py.is_case_sep c = false.
Proof. apply split_runs_words; intros ? []. Qed.

Lemma pascal_camel_nosep (s : string) (st : case_style) :
  st = Pascal \/ st = Camel ->
  forall c, In c (Py.chars (apply_casing s st)) -> Py.is_case_sep c = false.
Proof.
  intros Hst c; assert (Hw := words_nosep s).
  assert (Hcat : forall ws, (forall w, In w ws -> forall c, In c (Py.chars w) -> Py.is_case_sep c = false) ->
                 forall c, In c (Py.chars (String.concat "" (map Py.capitalize ws))) ->
                           Py.is_case_sep c = false).
  { intros ws Hws x Hx; rewrite concat_chars in Hx.
    apply in_concat in Hx as (l & Hl & Hx); rewrite map_map in Hl.
    apply in_map_iff in Hl as (w & <- & Hw'); exact (capitalize_nosep w (Hws w Hw') x Hx). }
  destruct Hst as [->| ->]; unfold apply_casing.
  - apply Hcat, Hw.
  - destruct (Py.split_runs (Py.strip s)) as [|w ws] eqn:E; [intros []|].
    rewrite chars_app; intros Hc; apply in_app_or in Hc as [Hc|Hc].
    + exact (lower_nosep w (Hw w (or_introl eq_refl)) c Hc).
    + apply (Hcat ws); [intros v Hv; apply Hw; now right|exact Hc].
Qed.

Lemma nosep_one_word (t : string) :
  (forall c, In c (Py.chars t) -> Py.is_case_sep c = false) ->
  Py.split_runs (Py.strip t) = [t].
Proof.
  intros H; rewrite strip_id by (intros c Hc; apply space_sep, H, Hc).
  unfold Py.split_runs; rewrite split_runs_go_nosep by exact H.
  simpl; now rewrite of_chars_chars.
Qed.

End CaseFacts.

Module ScanTokens.
Import Restructure PyFacts ScanInv.
Local Open Scope nat_scope.

Lemma firstn_add {A : Type} (n m : nat) (l : list A) :
  firstn (n + m) l = firstn n l ++ firstn m (skipn n l).
Proof.
  revert l; induction n as [|n IH]; intros l; [reflexivity|].
  destruct l as [|a l]; [now rewrite !firstn_nil|].
  simpl; now rewrite IH.
Qed.

Lemma skipn_nth {A : Type} (n : nat) (l : list A) (d : A) :
  n < length l -> skipn n l = nth n l d :: skipn (S n) l.
Proof.
  revert l; induction n as [|n IH]; intros [|a l] H; simpl in *; try lia.
  - reflexivity.
  - apply IH; lia.
Qed.

Lemma split_go_not_nil (sep : ascii) (l cur : list ascii) : Py.split_go sep l cur <> [].
Proof.
  revert cur; induction l as [|c l IH]; intros cur; simpl; [discriminate|].
  destruct (Ascii.eqb c sep); [discriminate|apply IH].
Qed.

Lemma split_not_nil (sep : ascii) (s : string) : Py.split sep s <> [].
Proof. apply split_go_not_nil. Qed.

Lemma list_str_eqb_eq (a b : list string) : list_str_eqb a b = true -> a = b.
Proof.
  revert b; induction a as [|x a IH]; intros [|y b]; simpl; try discriminate; [reflexivity|].
  intros H; apply andb_prop in H as [H1 H2]; apply String.eqb_eq in H1; subst.
  f_equal; apply IH, H2.
Qed.

Lemma try_folders_step (fws parts : list string) (st st1 : scan) :
  try_folders fws parts st = (st1, true) ->
  exists fw, In fw fws /\
    firstn (length (Py.split "-" fw)) (skipn (idx st) parts) = Py.split "-" fw /\
    idx st1 = idx st + length (Py.split "-" fw) /\
    ((folder_parts st1 = folder_parts st /\
      file_parts st1 = file_parts st ++ Py.split "-" fw /\
      stop_at_no_nest st1 = stop_at_no_nest st /\ nesting_stopped st1 = true /\
      length parts <= idx st1) \/
     (folder_parts st1 = folder_parts st ++ [fw] /\ file_parts st1 = file_parts st /\
      stop_at_no_nest st1 = stop_at_no_nest st || mem fw NO_NESTING_FOLDERS /\
      nesting_stopped st1 = nesting_stopped st /\ idx st1 < length parts)).
Proof.
  induction fws as [|fw fws IH]; simpl; [discriminate|].
  destruct (list_str_eqb _ _) eqn:E.
  - apply list_str_eqb_eq in E.
    destruct (Nat.leb_spec (length parts) (idx st + length (Py.split "-" fw))) as [Hl|Hl];
      intros H; inversion H; subst; clear H; exists fw; split; [now left| |now left|].
    all: split; [exact E|]; simpl; split; [reflexivity|].
    + left; rewrite E; repeat split; auto.
    + right; repeat split; auto.
  - intros H; destruct (IH H) as (fw' & Hin & Hrest); exists fw'; split; [now right|exact Hrest].
Qed.

Lemma try_folders_false (fws parts : list string) (st st1 : scan) :
  try_folders fws parts st = (st1, false) -> st1 = st.
Proof.
  induction fws as [|fw fws IH]; simpl; [congruence|].
  destruct (list_str_eqb _ _); [destruct (_ <=? _); congruence | exact IH].
Qed.

Lemma snoc_inv (parts : list string) (st : scan) (b : bool) :
  idx st < length parts ->
  concat (map (Py.split "-") (folder_parts st)) ++ file_parts st = firstn (idx st) parts ->
  b = false ->
  tok_inv parts (mkScan (folder_parts st) (file_parts st ++ [nth (idx st) parts ""])
                        (S (idx st)) b true).
Proof.
  intros Hlt Ht Hs; unfold tok_inv; cbn [folder_parts file_parts idx nesting_stopped
                                         stop_at_no_nest].
  repeat split; try lia; try discriminate; auto.
  - rewrite app_assoc, Ht, <- Nat.add_1_r, firstn_add, (skipn_nth _ _ "" Hlt).
    reflexivity.
  - intros He; apply app_eq_nil in He as [_ He]; discriminate.
Qed.

Lemma scan_loop_tokens (fuel : nat) (parts : list string) (st : scan) :
  tok_inv parts st -> length parts < fuel + idx st ->
  concat (map (Py.split "-") (folder_parts (scan_loop fuel parts st)))
    ++ file_parts (scan_loop fuel parts st) = parts /\
  file_parts (scan_loop fuel parts st) <> [].
Proof.
  revert st; induction fuel as [|f IH]; intros st (Hle & Ht & Hns & Hne & Hstop) Hf.
  - simpl in Hf; lia.
  - cbn [scan_loop].
    destruct (Nat.ltb_spec (idx st) (length parts)) as [Hlt|Hge].
    + destruct (nesting_stopped st) eqn:Es.
      * apply IH; [|simpl; lia].
        apply snoc_inv; assumption.
      * destruct (try_folders sorted_folders parts st) as [st1 matched] eqn:Et.
        destruct matched.
        -- destruct (try_folders_step _ _ _ _ Et) as (fw & _ & Hr & Hi & Hc).
           assert (Hlen : idx st + length (Py.split "-" fw) <= length parts).
           { rewrite <- Hr, length_firstn, length_skipn; lia. }
           assert (Hl1 : 1 <= length (Py.split "-" fw)).
           { destruct (Py.split "-" fw) eqn:Ef; [now apply split_not_nil in Ef|simpl; lia]. }
           destruct Hc as [Hc|Hc].
           ++ destruct Hc as (Hfo & Hfi & Hso & Hn & Hl).
              rewrite Hso, Hstop.
              assert (Hsp := split_not_nil "-" fw).
              apply IH; [|lia].
              unfold tok_inv; rewrite Hfo, Hfi, Hi, Hso, Hn; repeat split; try lia; auto.
              ** rewrite (Hns eq_refl) in Ht |- *; rewrite app_nil_r in Ht; simpl app.
                 now rewrite firstn_add, Hr, <- Ht.
              ** intros He; apply app_eq_nil in He as [_ He]; contradiction.
           ++ destruct Hc as (Hfo & Hfi & Hso & Hn & Hl).
              assert (Hsp := split_not_nil "-" fw).
              assert (Hfeq : file_parts st = []) by (apply Hns; reflexivity).
              assert (Hcat : concat (map (Py.split "-") (folder_parts st1))
                             = firstn (idx st1) parts).
              { rewrite Hfo, map_app, concat_app, Hi, firstn_add, Hr; simpl.
                rewrite app_nil_r, <- Ht, Hfeq, app_nil_r; reflexivity. }
              destruct (stop_at_no_nest st1) eqn:Es1.
              ** cbn [folder_parts file_parts]; split.
                 --- rewrite app_assoc, Hfi, Hfeq, app_nil_r, Hcat; apply firstn_skipn.
                 --- rewrite Hfi, Hfeq; simpl.
                     intros He; apply length_zero_iff_nil in He; rewrite length_skipn in He; lia.
              ** apply IH; [|lia].
                 unfold tok_inv; rewrite Hfi, Hn, Es, Hfeq; repeat split; auto; try lia.
                 now rewrite app_nil_r.
        -- apply try_folders_false in Et; subst st1.
           cbn [stop_at_no_nest]; rewrite Hstop.
           apply IH; [|simpl; lia].
           apply snoc_inv; auto.
    + assert (E : idx st = length parts) by lia.
      rewrite E, firstn_all in Ht; split; [exact Ht|].
      intros He; specialize (Hne He); lia.
Qed.

Lemma sorted_folders_keywords :
  forallb (fun f => mem f FOLDERS) sorted_folders = true.
Proof. vm_compute. reflexivity. Qed.

Lemma scan_loop_folders (fuel : nat) (parts : list string) (st : scan) :
  stop_at_no_nest st = false ->
  Forall (fun f => mem f FOLDERS = true) (folder_parts st) ->
  Forall (fun f => mem f NO_NESTING_FOLDERS = false) (folder_parts st) ->
  Forall (fun f => mem f FOLDERS = true) (folder_parts (scan_loop fuel parts st)) /\
  Forall (fun f => mem f NO_NESTING_FOLDERS = false)
         (removelast (folder_parts (scan_loop fuel parts st))) /\
  stop_at_no_nest (scan_loop fuel parts st)
  = match rev (folder_parts (scan_loop fuel parts st)) with
    | f :: _ => mem f NO_NESTING_FOLDERS
    | [] => false
    end.
Proof.
  assert (Hfin : forall F, Forall (fun f => mem f NO_NESTING_FOLDERS = false) F ->
                 Forall (fun f => mem f NO_NESTING_FOLDERS = false) (removelast F) /\
                 false = match rev F with
                         | f :: _ => mem f NO_NESTING_FOLDERS
                         | [] => false
                         end).
  { intros F HF; split.
    - destruct F as [|a F] using rev_ind; [constructor|].
      rewrite removelast_last; apply Forall_app in HF as [HF _]; exact HF.
    - destruct F as [|a F] using rev_ind; [reflexivity|].
      rewrite rev_unit; apply Forall_app in HF as [_ HF]; inversion HF; auto. }
  revert st; induction fuel as [|f IH]; intros st Hs Hk Hn.
  - cbn [scan_loop]; rewrite Hs; split; [exact Hk|apply Hfin, Hn].
  - cbn [scan_loop].
    destruct (idx st <? length parts); [|rewrite Hs; split; [exact Hk|apply Hfin, Hn]].
    destruct (nesting_stopped st); [apply IH; assumption|].
    destruct (try_folders sorted_folders parts st) as [st1 matched] eqn:Et.
    destruct matched.
    + destruct (try_folders_step _ _ _ _ Et) as (fw & Hin & _ & _ & Hc).
      assert (Hfw : mem fw FOLDERS = true).
      { pose proof sorted_folders_keywords as H; rewrite forallb_forall in H; auto. }
      destruct Hc as [(Hfo & _ & Hso & _)|(Hfo & _ & Hso & _)].
      * rewrite Hs in Hso; rewrite Hso; apply IH; rewrite ?Hfo; assumption.
      * rewrite Hs in Hso; rewrite orb_false_l in Hso.
        destruct (mem fw NO_NESTING_FOLDERS) eqn:Enn; rewrite Hso.
        -- cbn [folder_parts stop_at_no_nest]; rewrite Hfo.
           split; [apply Forall_app; split; [exact Hk|constructor; auto]|].
           rewrite removelast_last, rev_unit; split; [exact Hn|symmetry; exact Enn].
        -- apply IH; [exact Hso| |]; rewrite Hfo; apply Forall_app; split; auto.
    + apply try_folders_false in Et; subst st1; cbn [stop_at_no_nest]; rewrite Hs.
      apply IH; cbn [folder_parts stop_at_no_nest]; auto.
Qed.

Lemma join_app (sep : string) (l1 l2 : list string) :
  l1 <> [] -> l2 <> [] ->
  Py.join sep (l1 ++ l2) = (Py.join sep l1 ++ sep ++ Py.join sep l2)%string.
Proof.
  induction l1 as [|a l1 IH]; intros H1 H2; [congruence|].
  destruct l1 as [|b l1].
  - destruct l2 as [|c l2]; [congruence|reflexivity].
  - change ((a :: b :: l1) ++ l2) with (a :: b :: (l1 ++ l2)).
    rewrite !join_cons2.
    change (b :: l1 ++ l2) with ((b :: l1) ++ l2).
    rewrite IH by (auto; discriminate).
    now rewrite !str_app_assoc.
Qed.

Lemma join_split_go (sep : ascii) (l cur : list ascii) :
  Py.chars (Py.join (String sep "") (Py.split_go sep l cur)) = rev cur ++ l.
Proof.
  revert cur; induction l as [|c l IH]; intros cur.
  - simpl; rewrite chars_of_chars; now rewrite app_nil_r.
  - cbn [Py.split_go]; destruct (Ascii.eqb_spec c sep) as [->|Hne].
    + destruct (Py.split_go sep l []) as [|y ys] eqn:E; [now apply split_go_not_nil in E|].
      rewrite join_cons2, !chars_app, <- E, IH, chars_of_chars; reflexivity.
    + rewrite IH; simpl; now rewrite <- app_assoc.
Qed.

Lemma join_split (s : string) : Py.join "-" (Py.split "-" s) = s.
Proof.
  pose proof (join_split_go "-" (Py.chars s) []) as H.
  rewrite <- (of_chars_chars (Py.join _ _)); unfold Py.split; rewrite H.
  apply of_chars_chars.
Qed.

Lemma join_concat_split (F fp : list string) :
  fp <> [] ->
  Py.join "-" (concat (map (Py.split "-") F) ++ fp) = Py.join "-" (F ++ [Py.join "-" fp]).
Proof.
  intros Hfp; induction F as [|a F IH]; [reflexivity|].
  cbn [map concat]; rewrite <- app_assoc, join_app.
  - rewrite IH, join_split.
    destruct F as [|b F]; reflexivity.
  - apply split_not_nil.
  - destruct (concat (map (Py.split "-") F)); [exact Hfp|discriminate].
Qed.

Lemma substring_chars (n m : nat) (s : string) :
  Py.chars (substring n m s) = firstn m (skipn n (Py.chars s)).
Proof.
  revert n m; induction s as [|c s IH]; intros n m.
  - destruct n, m; reflexivity.
  - destruct n as [|n].
    + destruct m as [|m]; [reflexivity|].
      cbn [substring]; simpl; rewrite IH; reflexivity.
    + cbn [substring]; rewrite IH; reflexivity.
Qed.

Lemma rfind_lt (c : ascii) (s : string) (d : nat) :
  Py.rfind c s = Some d -> d < String.length s.
Proof.
  unfold Py.rfind.
  assert (G : forall l acc, fold_left (fun acc '(i, e) => if Ascii.eqb e c then Some i else acc)
                                      l acc = Some d ->
                            acc = Some d \/ exists e, In (d, e) l).
  { induction l as [|[i e] l IH]; intros acc H; simpl in H; [now left|].
    destruct (IH _ H) as [H1|(e' & H1)].
    - destruct (Ascii.eqb e c); [|now left]. inversion H1; subst. right; exists e; now left.
    - right; exists e'; now right. }
  intros H; destruct (G _ _ H) as [H1|(e & H1)]; [discriminate|].
  apply in_combine_l, in_seq in H1; lia.
Qed.

Lemma splitext_app (name : string) :
  (fst (PyPath.splitext name) ++ snd (PyPath.splitext name))%string = name.
Proof.
  unfold PyPath.splitext.
  destruct (Py.rfind "." name) as [d|] eqn:E; [|apply CaseFacts.str_app_nil].
  destruct (forallb _ _); [apply CaseFacts.str_app_nil|]; cbn [fst snd].
  apply rfind_lt in E.
  rewrite <- (of_chars_chars (_ ++ _)).
  rewrite chars_app, !substring_chars, skipn_O, (firstn_all2 (n := String.length name - d)).
  - rewrite firstn_skipn; apply of_chars_chars.
  - rewrite length_skipn, IncludeFacts.chars_length; lia.
Qed.

Lemma restructure_name_parts (filename : string) :
  let '(folders, file, _) := restructure_name filename in
  exists fp, fp <> [] /\
    file = (Py.join "-" fp ++ snd (PyPath.splitext filename))%string /\
    concat (map (Py.split "-") folders) ++ fp = Py.split "-" (fst (PyPath.splitext filename)).
Proof.
  unfold restructure_name; destruct (PyPath.splitext filename) as [n e]; cbn [fst snd].
  set (parts := Py.split "-" n).
  assert (Hp : parts <> []) by apply split_not_nil.
  destruct (scan_loop_tokens (S (length parts)) parts init_scan) as [Ht Hne].
  - unfold tok_inv; cbn; repeat split; auto; try lia.
    intros _; destruct parts; [contradiction|simpl; lia].
  - simpl; lia.
  - set (st := scan_loop (S (length parts)) parts init_scan) in *.
    destruct (file_parts st) as [|x xs] eqn:Ef; [contradiction|].
    exists (x :: xs); repeat split; auto.
Qed.

End ScanTokens.

Module RouteShape.
Import PyFacts CaseFacts.

Lemma drop_while_parts (p : ascii -> bool) (l : list ascii) :
  (forall x, In x (Py.drop_while p l) -> In x l) /\
  match Py.drop_while p l with c :: _ => p c = false | [] => True end.
Proof.
  induction l as [|c l IH]; simpl; [split; [tauto|exact I]|].
  destruct (p c) eqn:E.
  - destruct IH as [H1 H2]; split; [intros x Hx; right; apply H1, Hx|exact H2].
  - split; [tauto|exact E].
Qed.

(** The shape of one route. *)
Lemma route_of_dest_shape (dest_file dest_path : list string) (r : string) :
  Route.route_of_dest dest_file dest_path = Some r ->
  exists t, r = ("/" ++ t)%string /\
    match Py.chars t with c :: _ => c <> "/"%char | [] => True end /\
    (forall c, In c (Py.chars t) ->
       Py.is_upper c = false /\ (c = "-"%char \/ Py.is_case_sep c = false)).
Proof.
  unfold Route.route_of_dest.
  destruct (PyPath.with_suffix _ "") as [no_ext|]; [|discriminate].
  set (k := apply_casing (Py.removesuffix (PyPath.to_string no_ext) ".blade") Kebab).
  intros H; injection H as <-.
  exists (Py.lstrip_chars ["/"%char] k); split; [reflexivity|].
  unfold Py.lstrip_chars; rewrite chars_of_chars.
  destruct (drop_while_parts (fun c => existsb (Ascii.eqb c) ["/"%char]) (Py.chars k))
    as [Hin Hhd].
  split.
  - destruct (Py.drop_while _ _) as [|c t]; [exact I|].
    simpl in Hhd; rewrite orb_false_r in Hhd; intros ->; discriminate.
  - intros c Hc; apply (casing_out_chars (Py.removesuffix (PyPath.to_string no_ext) ".blade") "-" Kebab); [left; split; reflexivity|].
    apply Hin, Hc.
Qed.

Lemma dict_set_in (k v k' v' : string) (m : list (string * string)) :
  In (k', v') (Route.dict_set k v m) -> (k', v') = (k, v) \/ In (k', v') m.
Proof.
  induction m as [|[a b] m IH]; simpl; [intros [H|[]]; left; congruence|].
  destruct (String.eqb k a); simpl.
  - intros [H|H]; [left; congruence|right; right; exact H].
  - intros [H|H]; [right; left; exact H|].
    destruct (IH H) as [H1|H1]; [left; exact H1|right; right; exact H1].
Qed.

Lemma copy_loop_routes (dest_path : list string) (extension : option string)
    (cs : case_style) (files : list Route.src_file) (m m' : list (string * string)) :
  Route.copy_loop dest_path extension cs files m = Some m' ->
  forall k v, In (k, v) m' ->
  In (k, v) m \/
  (In k (map snd files) /\
   exists t, v = ("/" ++ t)%string /\
     match Py.chars t with c :: _ => c <> "/"%char | [] => True end /\
     (forall c, In c (Py.chars t) ->
        Py.is_upper c = false /\ (c = "-"%char \/ Py.is_case_sep c = false))).
Proof.
  revert m; induction files as [|[parent name] files IH]; intros m H k v Hkv; simpl in H.
  - inversion H; subst; now left.
  - destruct (Route.dest_of cs extension dest_path parent name) as [df|]; [|discriminate].
    destruct (IH _ H k v Hkv) as [Hm|[Hk Hs]].
    + destruct (Route.route_of_dest df dest_path) as [r|] eqn:Er; [|now left].
      destruct (dict_set_in _ _ _ _ _ Hm) as [Heq|Hm']; [|now left].
      inversion Heq; subst; right; split; [now left|].
      apply (route_of_dest_shape df dest_path), Er.
    + right; split; [now right|exact Hs].
Qed.


End RouteShape.

Module MatchFacts.
Import Re.
Local Open Scope nat_scope.

Lemma mt_frame (s : list ascii) (n : nat) (r : re) :
  has_grp n r = false ->
  forall i c k res, mt s r i c k = Some res ->
  exists j e, Forall (fun g => fst g <> n) e /\ k j (e ++ c) = Some res.
Proof.
  induction r as [p|a IHa b IHb|a IHa b IHb|g a IHa| |m a IHa| | | |];
    intros Hg i c k res H; cbn [has_grp] in Hg; cbn [mt] in H.
  - destruct (nth_error s i); [|discriminate].
    destruct (p a); [|discriminate]. exists (S i), []; split; [constructor|exact H].
  - apply orb_false_elim in Hg as [Ha Hb].
    destruct (IHa Ha _ _ _ _ H) as (j & e1 & He1 & H1).
    destruct (IHb Hb _ _ _ _ H1) as (j2 & e2 & He2 & H2).
    exists j2, (e2 ++ e1); split; [apply Forall_app; auto|now rewrite <- app_assoc].
  - apply orb_false_elim in Hg as [Ha Hb].
    destruct (mt s a i c k) eqn:E.
    + injection H as <-; exact (IHa Ha _ _ _ _ E).
    + exact (IHb Hb _ _ _ _ H).
  - set (L := length s - i) in H.
    match type of H with context [?F L] => set (F0 := F) in H end.
    change (F0 (S L) i c = Some res) in H.
    clearbody L; revert i c H; induction (S L) as [|fuel IHf]; intros i c H.
    + exists i, []; split; [constructor|exact H].
    + unfold F0 in H; cbn beta iota in H; fold F0 in H.
      destruct g.
      * destruct (mt s a i c _) eqn:E.
        -- injection H as <-.
           destruct (IHa Hg _ _ _ _ E) as (j & e1 & He1 & H1).
           destruct (i <? j); [|discriminate].
           destruct (IHf _ _ H1) as (j2 & e2 & He2 & H2).
           exists j2, (e2 ++ e1); split; [apply Forall_app; auto|now rewrite <- app_assoc].
        -- exists i, []; split; [constructor|exact H].
      * destruct (k i c) eqn:E.
        -- injection H as <-; exists i, []; split; [constructor|exact E].
        -- destruct (IHa Hg _ _ _ _ H) as (j & e1 & He1 & H1).
           destruct (i <? j); [|discriminate].
           destruct (IHf _ _ H1) as (j2 & e2 & He2 & H2).
           exists j2, (e2 ++ e1); split; [apply Forall_app; auto|now rewrite <- app_assoc].
  - exists i, []; split; [constructor|exact H].
  - apply orb_false_elim in Hg as [Hm Ha].
    destruct (IHa Ha _ _ _ _ H) as (j & e1 & He1 & H1).
    exists j, ((m, (i, j)) :: e1); split.
    + constructor; [simpl; apply Nat.eqb_neq, Hm|exact He1].
    + exact H1.
  - destruct (i =? 0); [|discriminate]; exists i, []; split; [constructor|exact H].
  - destruct (_ || _); [|discriminate]; exists i, []; split; [constructor|exact H].
  - destruct i as [|i']; [exists 0, []; split; [constructor|exact H]|].
    destruct (nth_error s i'); [|discriminate].
    destruct (Ascii.eqb _ _); [|discriminate]; exists (S i'), []; split; [constructor|exact H].
  - destruct (nth_error s i).
    + destruct (Ascii.eqb _ _); [|discriminate]; exists i, []; split; [constructor|exact H].
    + exists i, []; split; [constructor|exact H].
Qed.

Lemma find_app_skip (e c : caps) (n : nat) :
  Forall (fun g => fst g <> n) e ->
  find (fun p => fst p =? n) (e ++ c) = find (fun p => fst p =? n) c.
Proof.
  induction 1 as [|g e Hg He IH]; [reflexivity|].
  simpl; destruct (Nat.eqb_spec (fst g) n); [contradiction|exact IH].
Qed.

End MatchFacts.

Module RouteGenFacts.
Import LaravelRoutes PyFacts.
Local Open Scope nat_scope.
Local Open Scope list_scope.


Lemma plain_seg_chars (p : string) (c : ascii) :
  plain_seg p = true -> In c (Py.chars p) -> c <> "."%char /\ c <> "/"%char.
Proof.
  unfold plain_seg; rewrite forallb_forall; intros H Hc.
  apply H in Hc; apply andb_prop in Hc as [H1 H2].
  apply negb_true_iff, Ascii.eqb_neq in H1; apply negb_true_iff, Ascii.eqb_neq in H2.
  auto.
Qed.

Lemma replace_go_nodot (old new l r : list ascii) (f : nat) :
  hd_error old = Some "."%char -> (forall c, In c l -> c <> "."%char) -> List.length l < f ->
  Py.replace_go f old new None (l ++ r)%list = (l ++ Py.replace_go (f - List.length l) old new None r)%list.
Proof.
  intros Ho; revert f; induction l as [|c t IH]; intros f Hl Hf.
  - now rewrite Nat.sub_0_r.
  - destruct f as [|f]; [simpl in Hf; lia|].
    destruct old as [|o old]; [discriminate|]; injection Ho as ->.
    cbn [Py.replace_go app Py.prefixb].
    assert (Hc : Ascii.eqb "." c = false) by (apply Ascii.eqb_neq; intros E; apply (Hl c); [now left|congruence]).
    rewrite Hc; cbn [andb]. cbn [length]; rewrite Nat.sub_succ.
    rewrite IH; [reflexivity| |simpl in Hf; lia].
    intros x Hx; apply Hl; now right.
Qed.

Lemma join_snoc_app (sep x y : string) (l : list string) :
  Py.join sep (l ++ [(x ++ y)%string]) = (Py.join sep (l ++ [x]) ++ y)%string.
Proof.
  destruct l as [|a l]; [reflexivity|].
  rewrite !join_snoc by discriminate. now rewrite !str_app_assoc.
Qed.

Lemma join_chars_plain (sep : string) (l : list string) (c : ascii) :
  forallb plain_seg l = true -> In c (Py.chars (Py.join sep l)) ->
  In c (Py.chars sep) \/ (c <> "."%char /\ c <> "/"%char).
Proof.
  intros Hl Hc; destruct (in_chars_join _ _ _ Hc) as [H|(s & Hs & Hcs)]; [now left|right].
  rewrite forallb_forall in Hl; exact (plain_seg_chars s c (Hl s Hs) Hcs).
Qed.

Lemma strip_blade (l : list string) (stem : string) :
  forallb plain_seg (l ++ [stem]) = true ->
  Py.replace (PyPath.to_string (l ++ [(stem ++ ".blade.php")%string])) ".blade.php" ""
  = Py.join "/" (l ++ [stem]).
Proof.
  intros Hp.
  assert (Ht : PyPath.to_string (l ++ [(stem ++ ".blade.php")%string])
               = Py.join "/" (l ++ [(stem ++ ".blade.php")%string])).
  { destruct l; reflexivity. }
  rewrite Ht, join_snoc_app. apply CaseFacts.chars_inj.
  unfold Py.replace, Py.replace_n. rewrite chars_of_chars, chars_app.
  rewrite replace_go_nodot; [| reflexivity | |].
  - rewrite <- (IncludeFacts.chars_length (_ ++ _)), chars_app, length_app.
    replace (S (length (Py.chars (Py.join "/" (l ++ [stem]))) + length (Py.chars ".blade.php"))
               - length (Py.chars (Py.join "/" (l ++ [stem])))) with 11 by (cbn [Py.chars list_ascii_of_string length]; lia).
    vm_compute (Py.replace_go 11 _ _ _ _). now rewrite app_nil_r.
  - intros c Hc. destruct (join_chars_plain _ _ _ Hp Hc) as [H|[H _]]; [|exact H].
    destruct H as [<-|[]]; discriminate.
  - rewrite <- IncludeFacts.chars_length, chars_app, length_app.
    cbn [Py.chars list_ascii_of_string length]; lia.
Qed.

Lemma slash_to_dot (l : list string) :
  forallb plain_seg l = true -> Py.replace (Py.join "/" l) "/" "." = Py.join "." l.
Proof.
  intros Hl; apply CaseFacts.chars_inj; rewrite IncludeFacts.replace_char_chars.
  induction l as [|a [|b t] IH]; [reflexivity| |].
  - simpl in Hl; rewrite andb_true_r in Hl. cbn [Py.join].
    rewrite <- map_id; apply map_ext_in; intros c Hc.
    unfold Includes.subst1; destruct (Ascii.eqb_spec "/" c) as [<-|]; [|reflexivity].
    exfalso; now apply (plain_seg_chars a "/" Hl Hc).
  - cbn [forallb] in Hl; apply andb_prop in Hl as [Ha Hl].
    rewrite (join_cons2 "/"), (join_cons2 "."), !chars_app, !map_app, IH by exact Hl. f_equal.
    rewrite <- map_id; apply map_ext_in; intros c Hc.
    unfold Includes.subst1; destruct (Ascii.eqb_spec "/" c) as [<-|]; [|reflexivity].
    exfalso; now apply (plain_seg_chars a "/" Ha Hc).
Qed.

Lemma endswith_app (a b : string) : Py.endswith (a ++ b)%string b = true.
Proof.
  unfold Py.endswith; rewrite chars_app, rev_app_distr.
  generalize (rev (Py.chars a)); induction (rev (Py.chars b)) as [|c t IH]; intros r; [reflexivity|].
  cbn [app Py.prefixb]; rewrite Ascii.eqb_refl; apply IH.
Qed.

Lemma substring_app (a b : string) : substring 0 (String.length a) (a ++ b)%string = a.
Proof. induction a as [|c a IH]; simpl; [destruct b; reflexivity | now rewrite IH]. Qed.

Lemma prefixb_app (p l : list ascii) : Py.prefixb p l = true -> exists r, l = p ++ r.
Proof.
  revert l; induction p as [|a p IH]; intros l H; [now exists l|].
  destruct l as [|b l]; [discriminate|].
  cbn [Py.prefixb] in H; apply andb_prop in H as [Hab H].
  apply Ascii.eqb_eq in Hab as ->. destruct (IH l H) as [r ->]. now exists r.
Qed.

Lemma endswith_index (x stem : string) :
  (forall c, In c (Py.chars stem) -> c <> "/"%char) ->
  Py.endswith (x ++ "/" ++ stem)%string "/index" = true -> stem = "index".
Proof.
  intros Hs; unfold Py.endswith; rewrite !chars_app, !rev_app_distr.
  intros H; apply prefixb_app in H as [r H].
  assert (Hr : forall c, In c (rev (Py.chars stem)) -> c <> "/"%char)
    by (intros c Hc; apply Hs, in_rev, Hc).
  destruct (rev (Py.chars stem)) as [|c1 [|c2 [|c3 [|c4 [|c5 [|c6 t]]]]]] eqn:E;
    cbn in H; injection H; intros; subst; try discriminate.
  - apply CaseFacts.chars_inj. rewrite <- (rev_involutive (Py.chars stem)), E. reflexivity.
  - exfalso; apply (Hr "/"%char); [do 5 right; now left | reflexivity].
Qed.

Lemma slash_join_split (ps : list string) (stem : string) :
  exists x, ("/" ++ Py.join "/" (ps ++ [stem]))%string = (x ++ "/" ++ stem)%string.
Proof.
  destruct ps as [|a ps]; [now exists ""|].
  exists ("/" ++ Py.join "/" (a :: ps))%string.
  rewrite join_snoc by discriminate. now rewrite !str_app_assoc.
Qed.

End RouteGenFacts.

Module AnchorFacts.
Import Re ReInv.
Local Open Scope nat_scope.

Lemma mt_bounds (s : list ascii) (r : re) :
  forall i c k res, i <= length s -> mt s r i c k = Some res ->
  exists j c', i <= j <= length s /\ k j c' = Some res.
Proof.
  induction r as [p|a IHa b IHb|a IHa b IHb|g a IHa| |m a IHa| | | |];
    intros i c k res Hi H; cbn [mt] in H.
  - destruct (nth_error s i) eqn:En; [|discriminate].
    destruct (p a); [|discriminate].
    assert (i < length s) by (apply nth_error_Some; congruence).
    exists (S i), c; split; [lia|exact H].
  - destruct (IHa _ _ _ _ Hi H) as (j & c1 & Hj & H1).
    destruct (IHb _ _ _ _ (proj2 Hj) H1) as (j2 & c2 & Hj2 & H2).
    exists j2, c2; split; [lia|exact H2].
  - destruct (mt s a i c k) eqn:E.
    + injection H as <-; exact (IHa _ _ _ _ Hi E).
    + exact (IHb _ _ _ _ Hi H).
  - set (L := length s - i) in H.
    match type of H with context [?F L] => set (F0 := F) in H end.
    change (F0 (S L) i c = Some res) in H.
    clearbody L; revert i c Hi H; induction (S L) as [|fuel IHf]; intros i c Hi H.
    + exists i, c; split; [lia|exact H].
    + unfold F0 in H; cbn beta iota in H; fold F0 in H.
      destruct g.
      * destruct (mt s a i c _) eqn:E.
        -- injection H as <-.
           destruct (IHa _ _ _ _ Hi E) as (j & c1 & Hj & H1).
           destruct (i <? j); [|discriminate].
           destruct (IHf _ _ (proj2 Hj) H1) as (j2 & c2 & Hj2 & H2).
           exists j2, c2; split; [lia|exact H2].
        -- exists i, c; split; [lia|exact H].
      * destruct (k i c) eqn:E.
        -- injection H as <-; exists i, c; split; [lia|exact E].
        -- destruct (IHa _ _ _ _ Hi H) as (j & c1 & Hj & H1).
           destruct (i <? j); [|discriminate].
           destruct (IHf _ _ (proj2 Hj) H1) as (j2 & c2 & Hj2 & H2).
           exists j2, c2; split; [lia|exact H2].
  - exists i, c; split; [lia|exact H].
  - destruct (IHa _ _ _ _ Hi H) as (j & c1 & Hj & H1).
    exists j, ((m, (i, j)) :: c1); split; [exact Hj|exact H1].
  - destruct (i =? 0); [|discriminate]; exists i, c; split; [lia|exact H].
  - destruct (_ || _); [|discriminate]; exists i, c; split; [lia|exact H].
  - destruct i as [|i']; [exists 0, c; split; [lia|exact H]|].
    destruct (nth_error s i'); [|discriminate].
    destruct (Ascii.eqb _ _); [|discriminate]; exists (S i'), c; split; [lia|exact H].
  - destruct (nth_error s i).
    + destruct (Ascii.eqb _ _); [|discriminate]; exists i, c; split; [lia|exact H].
    + exists i, c; split; [lia|exact H].
Qed.


Lemma match_at_found (s : list ascii) (r : re) (i : nat) (x : m) :
  i <= length s -> match_at s r i = Some x ->
  m_start x = i /\ i <= m_end x <= length s /\ found s r x.
Proof.
  unfold match_at; intros Hi H.
  destruct (mt s r i [] _) as [[j c]|] eqn:E; [|discriminate]; injection H as <-.
  destruct (mt_bounds _ _ _ _ _ _ Hi E) as (j' & c' & Hj & Hk); injection Hk as -> ->.
  split; [reflexivity|split; [exact Hj|]].
  split; [exact Hi|]; exists (fun j c => Some (j, c)); split; [intros ? ? ? Hr; injection Hr as <-; reflexivity|exact E].
Qed.

Lemma match_at_nonempty_found (s : list ascii) (r : re) (i : nat) (x : m) :
  i <= length s -> match_at_nonempty s r i = Some x ->
  m_start x = i /\ i <= m_end x <= length s /\ found s r x.
Proof.
  unfold match_at_nonempty; intros Hi H.
  destruct (mt s r i [] _) as [[j c]|] eqn:E; [|discriminate]; injection H as <-.
  destruct (mt_bounds _ _ _ _ _ _ Hi E) as (j' & c' & Hj & Hk).
  destruct (i <? j'); [|discriminate]; injection Hk as -> ->.
  split; [reflexivity|split; [exact Hj|]].
  split; [exact Hi|]; exists (fun j c => if i <? j then Some (j, c) else None); split; [|exact E].
  intros ? ? ? Hr; destruct (i <? _); [injection Hr as <-; reflexivity|discriminate].
Qed.

Lemma search_go_found (s : list ascii) (r : re) (fuel i : nat) (x : m) :
  i <= length s -> search_go s r i fuel = Some x ->
  i <= m_start x /\ m_start x <= m_end x <= length s /\ found s r x.
Proof.
  revert i; induction fuel as [|f IH]; intros i Hi H; [discriminate|].
  cbn [search_go] in H; destruct (match_at s r i) as [y|] eqn:E.
  - injection H as <-. destruct (match_at_found _ _ _ _ Hi E) as (-> & Hb & Hf).
    split; [lia|split; [exact Hb|exact Hf]].
  - destruct (i <? length s) eqn:El; [|discriminate].
    apply Nat.ltb_lt in El.
    destruct (IH (S i) ltac:(lia) H) as (H1 & H2 & H3); split; [lia|auto].
Qed.

Lemma search_from_found (s : list ascii) (r : re) (i : nat) (x : m) :
  i <= length s -> search_from s r i = Some x ->
  i <= m_start x /\ m_start x <= m_end x <= length s /\ found s r x.
Proof. apply search_go_found. Qed.

Lemma search_advancing_found (s : list ascii) (r : re) (i : nat) (x : m) :
  i <= length s -> search_advancing s r i = Some x ->
  i <= m_start x /\ m_start x <= m_end x <= length s /\ found s r x.
Proof.
  unfold search_advancing; intros Hi H.
  destruct (match_at_nonempty s r i) as [y|] eqn:E.
  - injection H as <-. destruct (match_at_nonempty_found _ _ _ _ Hi E) as (-> & Hb & Hf).
    split; [lia|split; [exact Hb|exact Hf]].
  - destruct (i <? length s) eqn:El; [|discriminate].
    apply Nat.ltb_lt in El.
    destruct (search_from_found s r (S i) x ltac:(lia) H) as (H1 & H2 & H3); split; [lia|auto].
Qed.


Lemma chained_in (len pos : nat) (ms : list m) (x : m) :
  chained len pos ms -> In x ms -> m_end x <= len.
Proof.
  revert pos; induction ms as [|y t IH]; intros pos Hc Hx; [destruct Hx|].
  destruct Hc as (_ & Hy & Hc). destruct Hx as [<-|Hx]; [lia|exact (IH _ Hc Hx)].
Qed.

Lemma finditer_go_chained (s : list ascii) (r : re) (fuel : nat) :
  forall pos adv, pos <= length s ->
  chained (length s) pos (finditer_go s r pos adv fuel) /\
  Forall (found s r) (finditer_go s r pos adv fuel).
Proof.
  induction fuel as [|f IH]; intros pos adv Hp; [split; [exact I|constructor]|].
  cbn [finditer_go].
  destruct (if adv then search_advancing s r pos else search_from s r pos) as [x|] eqn:E;
    [|split; [exact I|constructor]].
  assert (Hx : pos <= m_start x /\ m_start x <= m_end x <= length s /\ found s r x).
  { destruct adv; [apply search_advancing_found|apply search_from_found]; assumption. }
  destruct Hx as (H1 & H2 & H3).
  destruct (IH (m_end x) (m_end x =? m_start x) ltac:(lia)) as [Hc Hf].
  split; [cbn [chained]; auto|constructor; assumption].
Qed.

Lemma of_chars_app (a b : list ascii) : Py.of_chars (a ++ b) = (Py.of_chars a ++ Py.of_chars b)%string.
Proof.
  apply CaseFacts.chars_inj. rewrite PyFacts.chars_app, !PyFacts.chars_of_chars. reflexivity.
Qed.

Lemma slice_app (s : list ascii) (a b c : nat) :
  a <= b <= c -> (slice s a b ++ slice s b c)%string = slice s a c.
Proof.
  intros H; unfold slice. rewrite <- of_chars_app. f_equal.
  replace (c - a) with ((b - a) + (c - b)) by lia.
  rewrite ScanTokens.firstn_add, skipn_skipn. replace (b - a + a) with b by lia. reflexivity.
Qed.

Lemma sub_fn_go_id (str : string) (repl : m -> string) (ms : list m) :
  forall pos, pos <= String.length str ->
  chained (String.length str) pos ms ->
  (forall x, In x ms -> repl x = slice (Py.chars str) (m_start x) (m_end x)) ->
  LaravelAnchors.sub_fn_go str repl pos ms = slice (Py.chars str) pos (String.length str).
Proof.
  induction ms as [|x t IH]; intros pos Hp Hc Hr; [reflexivity|].
  cbn [chained] in Hc; destruct Hc as (H1 & H2 & Hc).
  cbn [LaravelAnchors.sub_fn_go].
  rewrite (Hr x (or_introl eq_refl)), IH by (try lia; try exact Hc; intros y Hy; apply Hr; now right).
  rewrite slice_app by lia. apply slice_app. lia.
Qed.

Lemma slice_all (str : string) : slice (Py.chars str) 0 (String.length str) = str.
Proof.
  unfold slice. rewrite Nat.sub_0_r, skipn_O, <- IncludeFacts.chars_length, firstn_all.
  apply PyFacts.of_chars_chars.
Qed.

(** [re.sub] with a function that gives every match back unchanged is
    the identity. *)
Lemma sub_fn_id (r : re) (repl : m -> string) (str : string) :
  (forall x, found (Py.chars str) r x -> m_end x <= String.length str ->
             repl x = slice (Py.chars str) (m_start x) (m_end x)) ->
  LaravelAnchors.sub_fn r repl str = str.
Proof.
  intros Hr; unfold LaravelAnchors.sub_fn, finditer.
  destruct (finditer_go_chained (Py.chars str) r (S (2 * S (String.length str))) 0 false
              ltac:(lia)) as [Hc Hf].
  rewrite IncludeFacts.chars_length in Hc.
  rewrite sub_fn_go_id; [apply slice_all|lia|exact Hc|].
  intros x Hx. apply Hr; [exact (proj1 (Forall_forall _ _) Hf x Hx)|].
  exact (chained_in _ _ _ _ Hc Hx).
Qed.

End AnchorFacts.

Module AnchorFacts2.
Import Re ReInv AnchorFacts LaravelAnchors.
Local Open Scope nat_scope.

Lemma mt_chr (s : list ascii) (p : ascii -> bool) (i : nat) (c : caps) k res :
  mt s (Chr p) i c k = Some res ->
  exists a, nth_error s i = Some a /\ p a = true /\ k (S i) c = Some res.
Proof.
  cbn [mt]; destruct (nth_error s i) as [a|]; [|discriminate].
  destruct (p a) eqn:E; [|discriminate]. intros H; exists a; auto.
Qed.

Lemma skipn_nth_error {A : Type} (l : list A) (j : nat) (a : A) :
  nth_error l j = Some a -> skipn j l = a :: skipn (S j) l.
Proof.
  revert l; induction j as [|j IH]; intros [|b l] H; try discriminate.
  - injection H as ->; reflexivity.
  - exact (IH l H).
Qed.

Lemma html_tail (s : list ascii) (j : nat) (c : caps) k res :
  mt s (ci_lit ".html") j c k = Some res ->
  exists v, firstn 5 (skipn j s) = v /\ length v = 5 /\ map Py.lower_c v = Py.chars ".html" /\
            k (j + 5) c = Some res.
Proof.
  change (ci_lit ".html") with (Seq (ci ".") (Seq (ci "h") (Seq (ci "t") (Seq (ci "m") (ci "l"))))).
  intros H; cbn [mt] in H.
  destruct (mt_chr _ _ _ _ _ _ H) as (a0 & E0 & P0 & H0); clear H.
  destruct (mt_chr _ _ _ _ _ _ H0) as (a1 & E1 & P1 & H1); clear H0.
  destruct (mt_chr _ _ _ _ _ _ H1) as (a2 & E2 & P2 & H2); clear H1.
  destruct (mt_chr _ _ _ _ _ _ H2) as (a3 & E3 & P3 & H3); clear H2.
  destruct (mt_chr _ _ _ _ _ _ H3) as (a4 & E4 & P4 & H4); clear H3.
  exists [a0; a1; a2; a3; a4]; split; [|split; [reflexivity|split]].
  - rewrite (skipn_nth_error _ _ _ E0), (skipn_nth_error _ _ _ E1), (skipn_nth_error _ _ _ E2),
      (skipn_nth_error _ _ _ E3), (skipn_nth_error _ _ _ E4). reflexivity.
  - apply Ascii.eqb_eq in P0, P1, P2, P3, P4. cbn [map]. rewrite P0, P1, P2, P3, P4. reflexivity.
  - replace (j + 5) with (S (S (S (S (S j))))) by lia. exact H4.
Qed.

Lemma href_group (s : list ascii) (i : nat) (c : caps) k res :
  i <= length s ->
  mt s (Seq (Plus (none_of quotes)) (ci_lit ".html")) i c k = Some res ->
  exists j0 c' v, i <= j0 /\ firstn 5 (skipn j0 s) = v /\ length v = 5 /\
    map Py.lower_c v = Py.chars ".html" /\ k (j0 + 5) c' = Some res.
Proof.
  intros Hi H; cbn [mt] in H.
  destruct (mt_bounds _ _ _ _ _ _ Hi H) as (j0 & c' & Hj & H1).
  destruct (html_tail _ _ _ _ _ H1) as (v & Hv & Hl & Hm & Hk).
  exists j0, c', v; repeat split; try assumption; lia.
Qed.

Lemma anchor_found (str : string) (x : m) :
  found (Py.chars str) anchor_re x ->
  exists u v, Py.chars (group_or str x 1 "") = u ++ v /\ length v = 5 /\
              map Py.lower_c v = Py.chars ".html".
Proof.
  intros (Hi & k0 & Hk0 & H). set (s := Py.chars str) in *.
  change (mt s (ci_lit "href=") (m_start x) []
            (fun j c => mt s (any_of quotes) j c
               (fun j c => mt s (Seq (Plus (none_of quotes)) (ci_lit ".html")) j c
                  (fun j' c' => mt s (any_of quotes) j' ((1, (j, j')) :: c') k0)))
          = Some (m_end x, m_caps x)) in H.
  destruct (mt_bounds _ _ _ _ _ _ Hi H) as (j1 & c1 & Hj1 & H1).
  destruct (mt_bounds _ _ _ _ _ _ (proj2 Hj1) H1) as (j2 & c2 & Hj2 & H2).
  destruct (href_group _ _ _ _ _ (proj2 Hj2) H2) as (j0 & c3 & v & Hj0 & Hv & Hl & Hm & H3).
  destruct (MatchFacts.mt_frame s 1 (any_of quotes) eq_refl _ _ _ _ H3) as (j4 & e & He & H4).
  apply Hk0 in H4. injection H4 as _ Hc.
  unfold group_or, group. rewrite Hc, MatchFacts.find_app_skip by exact He.
  cbn [find fst snd Nat.eqb]. unfold slice. rewrite PyFacts.chars_of_chars. fold s.
  assert (Hlen : j0 + 5 <= length s).
  { assert (L5 : length (firstn 5 (skipn j0 s)) = 5) by (rewrite Hv; exact Hl).
    rewrite length_firstn, length_skipn in L5. lia. }
  exists (firstn (j0 - j2) (skipn j2 s)), v; split; [|split; assumption].
  replace (j0 + 5 - j2) with ((j0 - j2) + 5) by lia.
  rewrite ScanTokens.firstn_add, skipn_skipn, Nat.sub_add by lia.
  rewrite Hv; reflexivity.
Qed.

Lemma split_go_tail (sep : ascii) (v : list ascii) (u : list ascii) :
  ~ In sep v -> forall cur, exists pre w,
  Py.split_go sep (u ++ v) cur = pre ++ [Py.of_chars (w ++ v)].
Proof.
  intros Hv; induction u as [|c u IH]; intros cur.
  - exists [], (rev cur). exact (IncludeFacts.split_go_nosep sep v cur Hv).
  - cbn [app Py.split_go]. destruct (Ascii.eqb c sep).
    + destruct (IH []) as (pre & w & E). rewrite E. exists (Py.of_chars (rev cur) :: pre), w. reflexivity.
    + exact (IH (c :: cur)).
Qed.

Lemma path_name_tail (h : string) (u v : list ascii) :
  Py.chars h = u ++ v -> ~ In "/"%char v -> 2 <= length v ->
  exists w, Includes.path_name h = Py.of_chars (w ++ v).
Proof.
  intros Hh Hv Hl. unfold Includes.path_name, PyPath.of_string, PyPath.mk, Py.split. rewrite Hh.
  destruct (split_go_tail "/" v u Hv []) as (pre & w & E). rewrite E, filter_app.
  exists w. cbn [filter].
  assert (Hz : String.eqb (Py.of_chars (w ++ v)) "" || String.eqb (Py.of_chars (w ++ v)) "." = false).
  { apply orb_false_iff; split; apply String.eqb_neq; intros Ez;
      apply (f_equal Py.chars) in Ez; rewrite PyFacts.chars_of_chars in Ez;
      apply (f_equal (@length ascii)) in Ez; rewrite length_app in Ez; cbn in Ez; lia. }
  rewrite Hz; cbn [negb]. apply last_last.
Qed.

Lemma anchor_repl_id (str : string) (route_map : list (string * string)) (x : m) :
  (forall k v, In (k, v) route_map -> Py.endswith (Py.lower k) ".html" = false) ->
  found (Py.chars str) anchor_re x ->
  anchor_repl str route_map x = slice (Py.chars str) (m_start x) (m_end x).
Proof.
  intros Hr Hf. unfold anchor_repl.
  destruct (anchor_found str x Hf) as (u & v & Hg & Hl & Hm).
  destruct (path_name_tail (group_or str x 1 "") u v Hg) as [w Hw].
  { intros Hin. apply (in_map Py.lower_c) in Hin. rewrite Hm in Hin.
    cbn in Hin. repeat destruct Hin as [Hin|Hin]; try discriminate Hin. exact Hin. }
  { lia. }
  rewrite Hw. unfold route_get.
  destruct (find _ route_map) as [[k rp]|] eqn:Ef; [|reflexivity].
  exfalso. apply find_some in Ef as [Hin Hk]. cbn [fst] in Hk. apply String.eqb_eq in Hk; subst k.
  specialize (Hr _ _ Hin). revert Hr.
  replace (Py.lower (Py.of_chars (w ++ v)))
    with (Py.of_chars (map Py.lower_c w) ++ ".html")%string.
  - rewrite RouteGenFacts.endswith_app. discriminate.
  - apply CaseFacts.chars_inj. unfold Py.lower.
    rewrite PyFacts.chars_app, !PyFacts.chars_of_chars, map_app, Hm. reflexivity.
Qed.

End AnchorFacts2.

Module StripFacts.
Import Re StripInv.
Local Open Scope nat_scope.

Definition is_unit (u : re) : Prop :=
  forall s i c k, mt s u i c k = match unit_len (skipn i s) with
                                 | Some n => k (i + n) c
                                 | None => None
                                 end.

Lemma skipn_cons_nth (s : list ascii) (i : nat) (a : ascii) (t : list ascii) :
  skipn i s = a :: t -> nth_error s i = Some a /\ skipn (S i) s = t.
Proof.
  revert s; induction i as [|i IH]; intros [|b s] H; try discriminate.
  - injection H as -> ->; split; reflexivity.
  - exact (IH s H).
Qed.

Lemma skipn_nil_nth (s : list ascii) (i : nat) :
  skipn i s = [] -> nth_error s i = None.
Proof.
  revert s; induction i as [|i IH]; intros [|b s] H; try discriminate; try reflexivity.
  exact (IH s H).
Qed.

Lemma unit_shape (p1 q1 p2 p3 q2 : ascii -> bool) :
  (forall c, p1 c = Ascii.eqb c ".") -> (forall c, q1 c = Ascii.eqb c "/") ->
  (forall c, p2 c = Ascii.eqb c ".") -> (forall c, p3 c = Ascii.eqb c ".") ->
  (forall c, q2 c = Ascii.eqb c "/") ->
  is_unit (Alt (Seq (Chr p1) (Chr q1)) (Seq (Chr p2) (Seq (Chr p3) (Chr q2)))).
Proof.
  intros H1 H2 H3 H4 H5 s i c k. cbn [mt].
  destruct (skipn i s) as [|a l] eqn:E0.
  { rewrite (skipn_nil_nth _ _ E0). reflexivity. }
  destruct (skipn_cons_nth _ _ _ _ E0) as [N0 E1]. rewrite N0, H1, H3.
  destruct (Ascii.eqb a ".") eqn:Ea.
  2:{ destruct l as [|b [|d l]]; cbn [unit_len andb]; rewrite ?Ea; reflexivity. }
  apply Ascii.eqb_eq in Ea; subst a.
  destruct l as [|b l].
  { rewrite (skipn_nil_nth _ _ E1). reflexivity. }
  destruct (skipn_cons_nth _ _ _ _ E1) as [N1 E2]. rewrite N1, H2, H4.
  cbn [unit_len andb].
  destruct (Ascii.eqb b "/") eqn:Eb.
  - apply Ascii.eqb_eq in Eb; subst b.
    simpl. rewrite (Nat.add_comm i 2). simpl. destruct (k (S (S i)) c); reflexivity.
  - destruct (Ascii.eqb b ".") eqn:Eb'; [|reflexivity].
    destruct l as [|d l].
    { rewrite (skipn_nil_nth _ _ E2). reflexivity. }
    destruct (skipn_cons_nth _ _ _ _ E2) as [N2 _]. rewrite N2, H5.
    destruct (Ascii.eqb d "/") eqn:Ed; [|reflexivity].
    apply Ascii.eqb_eq in Ed, Eb'; subst b d.
    simpl. rewrite (Nat.add_comm i 3). reflexivity.
Qed.

Lemma strip_shape :
  exists u1 u2, Rx.pat_re Includes.strip_rel_re = Seq Bol (Seq (Grp 1 u1) (Star true (Grp 1 u2))) /\
                is_unit u1 /\ is_unit u2.
Proof.
  do 2 eexists; split; [vm_compute; reflexivity|].
  split; apply unit_shape; intros [[] [] [] [] [] [] [] []]; reflexivity.
Qed.

Lemma unit_len_pos (l : list ascii) (n : nat) : unit_len l = Some n -> 2 <= n <= length l.
Proof.
  destruct l as [|a [|b t]]; try discriminate. cbn [unit_len].
  destruct (Ascii.eqb a "." && Ascii.eqb b "/").
  - intros H; injection H as <-; cbn; lia.
  - destruct (Ascii.eqb a "." && Ascii.eqb b "."); [|discriminate].
    destruct t as [|d t]; [discriminate|].
    destruct (Ascii.eqb d "/"); [|discriminate]. intros H; injection H as <-; cbn; lia.
Qed.

Lemma munch_stable (f f' : nat) (l : list ascii) :
  length l < f -> length l < f' -> munch f l = munch f' l.
Proof.
  revert f' l; induction f as [|f IH]; intros f' l H H'; [lia|].
  destruct f' as [|f']; [lia|]. cbn [munch].
  destruct (unit_len l) as [n|] eqn:E; [|reflexivity].
  apply unit_len_pos in E. f_equal. apply IH; rewrite length_skipn; lia.
Qed.

Lemma star_munch (s : list ascii) (u : re) (i : nat) (c : caps) :
  is_unit u ->
  exists c', mt s (Star true (Grp 1 u)) i c (fun j c => Some (j, c))
             = Some (i + munch (S (length s - i)) (skipn i s), c').
Proof.
  intros Hu. cbn [mt].
  set (L := length s - i).
  match goal with |- context [?F L] => set (F0 := F) end.
  change (exists c', F0 (S L) i c = Some (i + munch (S L) (skipn i s), c')).
  clearbody L. generalize (S L) as n. intros n. revert i c.
  induction n as [|n IH]; intros i c.
  - exists c. unfold F0; cbn beta iota. rewrite Nat.add_0_r. reflexivity.
  - unfold F0; cbn beta iota; fold F0. cbn [mt]. rewrite Hu.
    cbn [munch]. destruct (unit_len (skipn i s)) as [l|] eqn:E.
    + apply unit_len_pos in E.
      replace (i <? i + l) with true by (symmetry; apply Nat.ltb_lt; lia).
      destruct (IH (i + l) ((1, (i, i + l)) :: c)) as [c' Hc]. rewrite Hc.
      exists c'. rewrite skipn_skipn, (Nat.add_comm l i), Nat.add_assoc. reflexivity.
    + exists c. rewrite Nat.add_0_r. reflexivity.
Qed.

Lemma strip_match_at_pos (s : list ascii) (i : nat) :
  1 <= i -> match_at s (Rx.pat_re Includes.strip_rel_re) i = None.
Proof.
  intros Hi. destruct strip_shape as (u1 & u2 & E & _). rewrite E.
  unfold match_at. cbn [mt]. destruct i; [lia|reflexivity].
Qed.

Lemma strip_search_pos (s : list ascii) (f i : nat) :
  1 <= i -> search_go s (Rx.pat_re Includes.strip_rel_re) i f = None.
Proof.
  revert i; induction f as [|f IH]; intros i Hi; [reflexivity|].
  cbn [search_go]. rewrite strip_match_at_pos by exact Hi.
  destruct (i <? length s); [apply IH; lia|reflexivity].
Qed.

Lemma of_chars_skipn_slice (s : list ascii) (e : nat) :
  slice s e (length s) = Py.of_chars (skipn e s).
Proof. unfold slice. rewrite firstn_all2; [reflexivity|rewrite length_skipn; lia]. Qed.

Lemma strip_match_at0 (s : list ascii) :
  (unit_len s = None -> match_at s (Rx.pat_re Includes.strip_rel_re) 0 = None) /\
  (forall l, unit_len s = Some l -> exists c',
     match_at s (Rx.pat_re Includes.strip_rel_re) 0
     = Some (mkM 0 (l + munch (S (length s - l)) (skipn l s)) c')).
Proof.
  destruct strip_shape as (u1 & u2 & E & H1 & H2). unfold match_at. rewrite E.
  assert (Hs : forall k, mt s (Seq Bol (Seq (Grp 1 u1) (Star true (Grp 1 u2)))) 0 [] k
                = mt s u1 0 [] (fun j c => mt s (Star true (Grp 1 u2)) j ((1, (0, j)) :: c) k))
    by reflexivity.
  rewrite Hs, H1, skipn_O. split.
  - intros ->. reflexivity.
  - intros l ->. destruct (star_munch s u2 (0 + l) [(1, (0, 0 + l))] H2) as [c' Hc].
    exists c'. rewrite Hc. reflexivity.
Qed.

Lemma strip_sub (str : string) :
  Rx.sub Includes.strip_rel_re "" str
  = Py.of_chars (skipn (munch (S (length (Py.chars str))) (Py.chars str)) (Py.chars str)).
Proof.
  unfold Rx.sub. change (Rx.repl "") with (@nil piece).
  unfold Re.sub, finditer. set (s := Py.chars str).
  replace (String.length str) with (length s) by apply IncludeFacts.chars_length.
  cbn [finditer_go]. unfold search_from. cbn [search_go].
  destruct (strip_match_at0 s) as [Hn Hy]. cbn [munch].
  destruct (unit_len s) as [l|] eqn:Eu.
  - destruct (Hy l eq_refl) as [c' Hc]. rewrite Hc.
    apply unit_len_pos in Eu.
    cbn [finditer_go m_end m_start].
    replace (l + munch (S (length s - l)) (skipn l s) =? 0) with false
      by (symmetry; apply Nat.eqb_neq; lia).
    replace (2 * S (length s)) with (S (S (2 * length s))) by lia. cbn [finditer_go].
    unfold search_from; rewrite strip_search_pos by lia.
    cbn [sub_go m_start m_end]. unfold expand; cbn [map String.concat].
    rewrite <- IncludeFacts.chars_length; fold s; rewrite of_chars_skipn_slice.
    rewrite (munch_stable (S (length s - l)) (length s) (skipn l s)) by (rewrite length_skipn; lia).
    reflexivity.
  - rewrite (Hn eq_refl).
    destruct (0 <? length s); [rewrite strip_search_pos by lia|]; cbn [sub_go];
      rewrite <- IncludeFacts.chars_length; fold s; rewrite of_chars_skipn_slice; reflexivity.
Qed.

Lemma munch_prefix (n : nat) (u l : list ascii) :
  List.length u = n -> unit_len (u ++ l) = Some n ->
  skipn (munch (S (List.length (u ++ l))) (u ++ l)) (u ++ l) = skipn (munch (S (List.length l)) l) l.
Proof.
  intros Hn Hu.
  change (munch (S (List.length (u ++ l))) (u ++ l))
    with (match unit_len (u ++ l) with
          | Some k => k + munch (List.length (u ++ l)) (skipn k (u ++ l))
          | None => 0 end).
  rewrite Hu. subst n.
  assert (Hs : skipn (List.length u) (u ++ l) = l).
  { rewrite skipn_app, skipn_all, Nat.sub_diag. reflexivity. }
  rewrite Hs, Nat.add_comm, <- skipn_skipn, Hs, length_app.
  rewrite (munch_stable (List.length u + List.length l) (S (List.length l)) l) by
    (apply unit_len_pos in Hu; rewrite length_app in Hu; lia).
  reflexivity.
Qed.

End StripFacts.

Module IndexRouteFacts.
Import LaravelRoutes PyFacts RouteFacts RouteGenFacts.
Local Open Scope nat_scope.
Local Open Scope list_scope.

Lemma plain_plain_seg (s : string) : plain s = true -> plain_seg s = true.
Proof.
  intros H; unfold plain_seg; apply forallb_forall; intros c Hc.
  destruct (seg_char_facts c (plain_chars s H c Hc)) as (_ & _ & -> & -> & _).
  reflexivity.
Qed.

(** [_generate_routes] serves the view [p1/.../pn/index.blade.php] at
    [/p1/.../pn]. *)
Lemma route_path_of_index (ps : list string) :
  ps <> [] -> forallb plain_seg ps = true ->
  route_path_of (ps ++ ["index.blade.php"]) = ("/" ++ Py.join "/" ps)%string.
Proof.
  intros Hne Hp. unfold route_path_of.
  replace (ps ++ ["index.blade.php"]) with (ps ++ [("index" ++ ".blade.php")%string]) by reflexivity.
  rewrite strip_blade by (rewrite forallb_app, Hp; reflexivity).
  rewrite join_snoc by exact Hne.
  set (X := ("/" ++ Py.join "/" ps)%string).
  replace ("/" ++ (Py.join "/" ps ++ "/" ++ "index"))%string with (X ++ "/index")%string
    by (unfold X; now rewrite str_app_assoc).
  rewrite endswith_app.
  replace (String.length (X ++ "/index") - 6) with (String.length X)
    by (rewrite <- !IncludeFacts.chars_length, chars_app, length_app; cbn; lia).
  rewrite substring_app.
  destruct (String.eqb_spec X "") as [E|]; [|reflexivity].
  unfold X in E; discriminate.
Qed.

Lemma with_suffix_index_blade (l : list string) :
  PyPath.with_suffix (l ++ ["index.html"]) ".blade.php" = Some (l ++ ["index.blade.php"]).
Proof.
  unfold PyPath.with_suffix; rewrite rev_unit; cbn -[rev].
  now rewrite rev_involutive.
Qed.

Lemma with_suffix_blade_index (l : list string) :
  PyPath.with_suffix (l ++ ["index.blade.php"]) "" = Some (l ++ ["index.blade"]).
Proof.
  unfold PyPath.with_suffix; rewrite rev_unit; cbn -[rev].
  now rewrite rev_involutive.
Qed.

(** With the Laravel extension, [index.html] is copied to [index.blade.php]. *)
Lemma dest_of_index_blade (dest parent : list string) :
  forallb plain dest = true -> forallb plain parent = true ->
  Route.dest_of Kebab (Some ".blade.php") dest parent "index.html"
  = Some (dest ++ parent ++ ["index.blade.php"]).
Proof.
  intros Hd Hp. pose proof (dest_of_index dest parent Hd Hp) as H.
  unfold Route.dest_of in *. injection H as ->.
  rewrite app_assoc. cbn -[PyPath.with_suffix].
  now rewrite with_suffix_index_blade, <- app_assoc.
Qed.

Lemma removesuffix_blade (parent : list string) :
  Py.removesuffix (Py.join "/" (parent ++ ["index.blade"])) ".blade"
  = Py.join "/" (parent ++ ["index"]).
Proof.
  destruct parent as [|p ps]; [reflexivity|].
  rewrite !join_snoc by discriminate.
  set (X := Py.join "/" (p :: ps)).
  replace (X ++ "/" ++ "index.blade")%string with ((X ++ "/index") ++ ".blade")%string
    by (now rewrite !str_app_assoc).
  unfold Py.removesuffix; rewrite endswith_app; cbn [String.length Nat.eqb].
  replace (String.length ((X ++ "/index") ++ ".blade") - 6) with (String.length (X ++ "/index"))
    by (rewrite <- !IncludeFacts.chars_length, !chars_app, !length_app; cbn; lia).
  rewrite substring_app. reflexivity.
Qed.

Lemma route_of_index_blade (dest parent : list string) :
  forallb plain parent = true ->
  Route.route_of_dest (dest ++ parent ++ ["index.blade.php"]) dest
  = Some ("/" ++ Py.join "/" (parent ++ ["index"]))%string.
Proof.
  intros Hp; unfold Route.route_of_dest.
  rewrite relative_to_app, with_suffix_blade_index, to_string_snoc, removesuffix_blade.
  rewrite kebab_id by (apply route_string_chars, Hp).
  now rewrite route_string_lstrip.
Qed.

Lemma index_route_longer (parent : list string) :
  parent <> [] ->
  ("/" ++ Py.join "/" (parent ++ ["index"]))%string <> ("/" ++ Py.join "/" parent)%string.
Proof.
  intros Hne E. rewrite join_snoc in E by exact Hne.
  apply (f_equal String.length) in E.
  rewrite <- !IncludeFacts.chars_length, !chars_app, !length_app in E. cbn in E. lia.
Qed.

(** [_replace_anchor_links_with_routes] on a link to [index.html] whose
    route is not exactly [/index]: the route is put into [url()] as it is. *)
Lemma anchor_index_link (R : string) : String.eqb R "/index" = false ->
  LaravelAnchors.replace_anchor_links_with_routes "<a href='index.html'>" [("index.html", R)]
  = ("<a " ++ (Py.qq "href=`{{ url('" ++ R ++ Py.qq "') }}`") ++ ">")%string.
Proof.
  intros H. unfold LaravelAnchors.replace_anchor_links_with_routes, LaravelAnchors.sub_fn.
  replace (Re.finditer LaravelAnchors.anchor_re "<a href='index.html'>")
    with [Re.mkM 3 20 [(1, (9, 19))]] by (vm_compute; reflexivity).
  cbn [LaravelAnchors.sub_fn_go Re.m_start Re.m_end]. unfold LaravelAnchors.anchor_repl.
  replace (Includes.path_name (Re.group_or "<a href='index.html'>" (Re.mkM 3 20 [(1, (9, 19))]) 1 ""))
    with "index.html" by (vm_compute; reflexivity).
  unfold LaravelAnchors.route_get; cbn [find fst]. rewrite String.eqb_refl. cbn iota. rewrite H.
  replace (Re.slice (Py.chars "<a href='index.html'>") 0 3) with "<a " by (vm_compute; reflexivity).
  replace (Re.slice (Py.chars "<a href='index.html'>") 20 _) with ">" by (vm_compute; reflexivity).
  reflexivity.
Qed.

End IndexRouteFacts.

(** File names made of two folder keywords. *)
Module KeywordStems.
Import Restructure.

Definition two_keyword_ok (k1 k2 : string) : bool :=
  let '(folders, file, stop) := restructure_name (k1 ++ "-" ++ k2 ++ ".html") in
  list_str_eqb folders [k1] && String.eqb file (k2 ++ ".html") &&
  Bool.eqb stop (mem k1 NO_NESTING_FOLDERS).

Lemma two_keyword_all :
  forallb (fun k1 => forallb (two_keyword_ok k1) FOLDERS) FOLDERS = true.
Proof. vm_compute. reflexivity. Qed.

Lemma two_keyword_ok_spec (k1 k2 : string) :
  two_keyword_ok k1 k2 = true ->
  restructure_name (k1 ++ "-" ++ k2 ++ ".html")
  = ([k1], (k2 ++ ".html")%string, mem k1 NO_NESTING_FOLDERS).
Proof.
  unfold two_keyword_ok. destruct (restructure_name _) as [[folders file] stop].
  intros H. apply andb_prop in H as [H Hs]. apply andb_prop in H as [Hf Hfile].
  apply ScanTokens.list_str_eqb_eq in Hf as ->. apply String.eqb_eq in Hfile as ->.
  apply Bool.eqb_prop in Hs as ->. reflexivity.
Qed.

Lemma two_keywords (k1 k2 : string) :
  In k1 FOLDERS -> In k2 FOLDERS ->
  restructure_name (k1 ++ "-" ++ k2 ++ ".html")
  = ([k1], (k2 ++ ".html")%string, mem k1 NO_NESTING_FOLDERS).
Proof.
  intros H1 H2. apply two_keyword_ok_spec.
  pose proof two_keyword_all as H. rewrite forallb_forall in H.
  specialize (H k1 H1). rewrite forallb_forall in H. exact (H k2 H2).
Qed.

End KeywordStems.

Module Claims.
Import PyFacts RouteFacts.

(** ** C1 *)

(** C1 (code defect): a nested index page keeps its [index] segment in the
    route map, while the Laravel route of its view drops it.  With the
    Laravel extension [.blade.php], [parent/index.html] (plain lower-case
    segments, [parent] not empty) is copied to [parent/index.blade.php];
    the route map stores [/parent/index]; [_generate_routes] registers that
    view at [/parent]; the two differ, and since the anchor rewriter only
    special-cases a route equal to [/index], a link to [index.html] is
    rewritten to [url('/parent/index')], a route that is never registered. *)
Theorem C1_nested_index_route_mismatch (dest parent : list string) :
  forallb plain dest = true -> forallb plain parent = true -> parent <> [] ->
  let R := ("/" ++ Py.join "/" (parent ++ ["index"]))%string in
  Route.dest_of Kebab (Some ".blade.php") dest parent "index.html"
    = Some (dest ++ parent ++ ["index.blade.php"]) /\
  Route.restructure_and_copy_files [(parent, "index.html")] dest (Some ".blade.php") Kebab
    = Some [("index.html", R)] /\
  LaravelRoutes.route_path_of (parent ++ ["index.blade.php"]) = ("/" ++ Py.join "/" parent)%string /\
  R <> ("/" ++ Py.join "/" parent)%string /\
  LaravelAnchors.replace_anchor_links_with_routes "<a href='index.html'>" [("index.html", R)]
    = ("<a " ++ (Py.qq "href=`{{ url('" ++ R ++ Py.qq "') }}`") ++ ">")%string.
Proof.
  intros Hd Hp Hne R.
  assert (Hdest := IndexRouteFacts.dest_of_index_blade dest parent Hd Hp).
  split; [exact Hdest|]. split; [|split; [|split]].
  - unfold Route.restructure_and_copy_files; cbn [Route.copy_loop]. rewrite Hdest.
    rewrite IndexRouteFacts.route_of_index_blade by exact Hp. reflexivity.
  - apply IndexRouteFacts.route_path_of_index; [exact Hne|].
    apply forallb_forall; intros x Hx. apply IndexRouteFacts.plain_plain_seg.
    rewrite forallb_forall in Hp; auto.
  - apply IndexRouteFacts.index_route_longer, Hne.
  - apply IndexRouteFacts.anchor_index_link. apply String.eqb_neq. intros E.
    unfold R in E. rewrite join_snoc in E by exact Hne.
    apply (f_equal String.length) in E.
    rewrite <- !IncludeFacts.chars_length, !chars_app, !length_app in E. cbn in E. lia.
Qed.

Lemma C1_nested_index_route_mismatch_witness :
  (forallb plain ["views"] = true /\ forallb plain ["dashboard"] = true /\ ["dashboard"] <> []) /\
  Route.restructure_and_copy_files [(["dashboard"], "index.html")] ["views"] (Some ".blade.php") Kebab
    = Some [("index.html", "/dashboard/index")] /\
  LaravelRoutes.route_path_of ["dashboard"; "index.blade.php"] = "/dashboard" /\
  LaravelAnchors.replace_anchor_links_with_routes "<a href='index.html'>"
    [("index.html", "/dashboard/index")]
    = ("<a " ++ Py.qq "href=`{{ url('/dashboard/index') }}`" ++ ">")%string.
Proof.
  assert (H1 : forallb plain ["views"] = true) by reflexivity.
  assert (H2 : forallb plain ["dashboard"] = true) by reflexivity.
  assert (H3 : ["dashboard"] <> []) by discriminate.
  destruct (C1_nested_index_route_mismatch ["views"] ["dashboard"] H1 H2 H3)
    as (_ & Hr & Hv & _ & Ha).
  split; [split; [exact H1|split; [exact H2|exact H3]]|].
  split; [exact Hr|split; [exact Hv|exact Ha]].
Defined.

(** ** C2 *)

(** C2 (code defect): once a no-nest keyword stops the nesting, the
    destination keeps only the first folder segment, dropping the others
    and the existing parent directories.  [apps-auth-signin.html] has the
    folders [apps] and [auth] but lands in [out/apps/signin.html], the
    destination of [apps-signin.html] too; [sub/auth-signin.html] lands in
    [out/auth/signin.html]. *)
Theorem C2_no_nest_keeps_first_folder :
  (forall existing_parent filename dest_root folders file,
     Restructure.restructure_name filename = (folders, file, true) ->
     Restructure.get_restructured_path existing_parent filename dest_root
     = PyPath.mk (dest_root ++ [hd "" folders; file])) /\
  Restructure.restructure_name "apps-auth-signin.html" = (["apps"; "auth"], "signin.html", true) /\
  Restructure.get_restructured_path [] "apps-auth-signin.html" ["out"] = ["out"; "apps"; "signin.html"] /\
  Restructure.get_restructured_path [] "apps-signin.html" ["out"] = ["out"; "apps"; "signin.html"] /\
  Restructure.get_restructured_path ["sub"] "auth-signin.html" ["out"] = ["out"; "auth"; "signin.html"].
Proof.
  split.
  - intros existing_parent filename dest_root folders file H.
    unfold Restructure.get_restructured_path. rewrite H. reflexivity.
  - repeat match goal with |- _ /\ _ => split end; vm_compute; reflexivity.
Qed.

(** ** C4 *)

(** C4 (code defect): the same source tree gives different route maps for
    [case_style = "kebab"] and [case_style = "pascal"]: the route is derived
    from the already re-cased destination file, and kebab-casing
    [ProductGrid] cannot restore the word boundary. *)
Theorem C4_route_depends_on_case_style :
  Route.restructure_and_copy_files
    [([], "apps-ecommerce-product-grid.html")] ["out"] None Kebab
  = Some [("apps-ecommerce-product-grid.html", "/apps/ecommerce/product-grid")] /\
  Route.restructure_and_copy_files
    [([], "apps-ecommerce-product-grid.html")] ["out"] None Pascal
  = Some [("apps-ecommerce-product-grid.html", "/apps/ecommerce/productgrid")].
Proof. split; reflexivity. Qed.

(** ** C5 *)

(** C5 (counterexample): [apps-dashboard.html] consists of folder keywords
    only, yet [apps] becomes a folder segment. *)
Lemma C5_all_keyword_stem_nests :
  Restructure.restructure_name "apps-dashboard.html"
  = (["apps"], "dashboard.html", false).
Proof. reflexivity. Qed.

(** C5 (amended): a file whose stem is a single entry of [FOLDERS] gets no
    folder segment and keeps its whole stem as file name ([dashboard.html]
    stays [dashboard.html]); a stem [k1-k2] of two entries of [FOLDERS]
    gets the one folder segment [k1] and the file name [k2.html], the
    nesting being stopped exactly when [k1] is in [NO_NESTING_FOLDERS]
    ([apps-dashboard.html] gives [apps] and [dashboard.html]). *)
Theorem C5_keyword_stems :
  (forall k, In k Restructure.FOLDERS ->
     Restructure.restructure_name (k ++ ".html") = ([], (k ++ ".html")%string, false)) /\
  (forall k1 k2, In k1 Restructure.FOLDERS -> In k2 Restructure.FOLDERS ->
     Restructure.restructure_name (k1 ++ "-" ++ k2 ++ ".html")
     = ([k1], (k2 ++ ".html")%string, Restructure.mem k1 Restructure.NO_NESTING_FOLDERS)).
Proof.
  split; [|exact KeywordStems.two_keywords].
  intros k Hk. unfold Restructure.FOLDERS in Hk.
  repeat (destruct Hk as [<-|Hk]; [reflexivity|]); destruct Hk.
Qed.

Lemma C5_keyword_stems_witness :
  Restructure.restructure_name ("auth-cover" ++ ".html")
  = ([], ("auth-cover" ++ ".html")%string, false) /\
  Restructure.restructure_name ("apps" ++ "-" ++ "dashboard" ++ ".html")
  = (["apps"], ("dashboard" ++ ".html")%string,
     Restructure.mem "apps" Restructure.NO_NESTING_FOLDERS) /\
  Restructure.restructure_name ("auth" ++ "-" ++ "apps" ++ ".html")
  = (["auth"], ("apps" ++ ".html")%string,
     Restructure.mem "auth" Restructure.NO_NESTING_FOLDERS).
Proof.
  assert (Ha : In "apps" Restructure.FOLDERS) by (vm_compute; tauto).
  assert (Hd : In "dashboard" Restructure.FOLDERS) by (vm_compute; tauto).
  assert (Hu : In "auth" Restructure.FOLDERS) by (vm_compute; tauto).
  assert (Hc : In "auth-cover" Restructure.FOLDERS) by (vm_compute; tauto).
  split; [exact (proj1 C5_keyword_stems "auth-cover" Hc)|].
  split; [exact (proj2 C5_keyword_stems "apps" "dashboard" Ha Hd)|].
  exact (proj2 C5_keyword_stems "auth" "apps" Hu Ha).
Defined.

(** ** C3 *)

(** C3: neither include rewriter ever removes an include fragment.
    Laravel converts the slashes of the normalized path to dots before it
    takes [Path(clean_path).name], so the name is never [title-meta] or
    [app-meta-title] and the empty replacement is never produced; Flask has
    no such test at all and always renders an include.  On
    [{{> partials/title-meta}}] Laravel emits
    [@include('shared.partials.title-meta')] and Flask
    [{% include 'partials/title-meta.html' %}]. *)
Theorem C3_title_meta_never_stripped :
  (forall html_unescape frag, Includes.blade_replacement html_unescape frag <> Some "") /\
  (forall frag r, Includes.flask_replacement frag = Some (Some r) -> r <> "") /\
  (forall html_unescape,
     Includes.replace_all_includes_with_blade html_unescape Includes.import_patterns
       "<head>{{> partials/title-meta}}</head>"
     = Some "<head>@include('shared.partials.title-meta')</head>") /\
  Includes.replace_all_includes_with_flask Includes.import_patterns
    "<head>{{> partials/title-meta}}</head>"
  = Some "<head>{% include 'partials/title-meta.html' %}</head>".
Proof.
  split; [|split; [|split]].
  - intros u frag. unfold Includes.blade_replacement.
    destruct (Includes.path frag) as [p|]; [|discriminate].
    destruct (Includes.normalize_path p) as [clean|]; [|discriminate].
    pose proof (IncludeFacts.blade_name_not_title _ (IncludeFacts.blade_path_has_slash clean)) as Hn.
    cbv zeta in Hn. cbv zeta. rewrite Hn.
    destruct (Params.laravel_parse_include_params u _) as [| | | | | | |kv|];
      try discriminate.
    destruct kv as [|kv0 kv]; [apply IncludeFacts.include_prefix_not_empty|].
    destruct (Includes.format_blade_params _); [apply IncludeFacts.include_prefix_not_empty|discriminate].
  - intros frag r. unfold Includes.flask_replacement.
    destruct (String.eqb _ "") ; [discriminate|].
    destruct (Includes.normalize_path _) as [clean|]; [|discriminate].
    destruct (Params.flask_parse_include_params _); try discriminate.
    intros H. injection H as <-.
    destruct (Py.join _ _) as [|c t]; simpl; discriminate.
  - intros u. vm_compute. reflexivity.
  - vm_compute. reflexivity.
Qed.

(** ** C6 *)

(** C6: the Flask parser does not always return a mapping: on [{1, 2}]
    [ast.literal_eval] yields the set [{1, 2}], which the parser returns
    as is, and the Flask rewriter then fails on [params.items()] for the
    include [@@include('partials/x.html', {1, 2})]. *)
Theorem C6_flask_params_set_not_mapping :
  Params.flask_parse_include_params "{1, 2}" = PyVal.PSet [PyVal.PInt 1; PyVal.PInt 2] /\
  Includes.replace_all_includes_with_flask Includes.import_patterns
    "@@include('partials/x.html', {1, 2})" = None.
Proof. split; vm_compute; reflexivity. Qed.

(** ** C7 *)

(** C7: on [{title: "Home", active: true}] both parsers return the dict
    [{"title": "Home", "active": True}]: Flask quotes the keys, turns
    [true] into [True] and calls [ast.literal_eval]; Laravel (whose
    [html.unescape] leaves this text, which has no [&], unchanged) quotes
    the keys with double quotes and calls [json.loads]. *)
Theorem C7_json_like_params (html_unescape : string -> string)
  (Hu : html_unescape (Py.qq "{title: `Home`, active: true}")
        = Py.qq "{title: `Home`, active: true}") :
  Params.flask_parse_include_params (Py.qq "{title: `Home`, active: true}")
    = PyVal.PDict [(PyVal.PStr "title", PyVal.PStr "Home");
                   (PyVal.PStr "active", PyVal.PBool true)] /\
  Params.laravel_parse_include_params html_unescape (Py.qq "{title: `Home`, active: true}")
    = PyVal.PDict [(PyVal.PStr "title", PyVal.PStr "Home");
                   (PyVal.PStr "active", PyVal.PBool true)].
Proof.
  split; [vm_compute; reflexivity|].
  unfold Params.laravel_parse_include_params.
  replace (Py.strip (Py.qq "{title: `Home`, active: true}"))
    with (Py.qq "{title: `Home`, active: true}") by (vm_compute; reflexivity).
  rewrite Hu. vm_compute. reflexivity.
Qed.

Lemma C7_json_like_params_witness :
  Params.flask_parse_include_params (Py.qq "{title: `Home`, active: true}")
    = PyVal.PDict [(PyVal.PStr "title", PyVal.PStr "Home");
                   (PyVal.PStr "active", PyVal.PBool true)] /\
  Params.laravel_parse_include_params (fun s => s) (Py.qq "{title: `Home`, active: true}")
    = PyVal.PDict [(PyVal.PStr "title", PyVal.PStr "Home");
                   (PyVal.PStr "active", PyVal.PBool true)].
Proof. apply (C7_json_like_params (fun s => s)). reflexivity. Defined.

(** ** C8 *)

(** C8: with the include registry, scanning [{{> partials/footer}}] and
    [{{&gt; partials/footer}}] with the alternate patterns gives one
    fragment each, with path [partials/footer] (and empty parameters),
    both as the Laravel rewriter compiles them (no flags) and as the Flask
    rewriter does (MULTILINE and VERBOSE). *)
Theorem C8_plain_and_escaped_include_one_fragment :
  Includes.fragments Rx.no_flags Includes.import_patterns "{{> partials/footer}}"
    = Some [Includes.mkFrag "{{> partials/footer}}" (Some "partials/footer") (Some "")] /\
  Includes.fragments Rx.no_flags Includes.import_patterns "{{&gt; partials/footer}}"
    = Some [Includes.mkFrag "{{&gt; partials/footer}}" (Some "partials/footer") (Some "")] /\
  Includes.fragments Includes.flags_mv Includes.import_patterns "{{> partials/footer}}"
    = Some [Includes.mkFrag "{{> partials/footer}}" (Some "partials/footer") (Some "")] /\
  Includes.fragments Includes.flags_mv Includes.import_patterns "{{&gt; partials/footer}}"
    = Some [Includes.mkFrag "{{&gt; partials/footer}}" (Some "partials/footer") (Some "")].
Proof. repeat split; vm_compute; reflexivity. Qed.

(** ** C9 *)




(** ** C10 *)

(** C10: whatever regex engine [re.sub] and [re.search] stand for, as
    long as [re.sub] leaves a text without a match as it is (or raises
    [re.error]), [replace_variables] leaves an entry alone when it cannot
    be read or decoded, or when no regex matches its text: the entry is
    unchanged and not counted; and every file it counts is one whose text
    the substitutions changed, written with the new text. *)
Theorem C10_unmatched_files_untouched
  (re_sub : string -> string -> string -> option string) (re_search : string -> string -> bool)
  (Hengine : forall regex r s, re_search regex s = false ->
             re_sub regex r s = None \/ re_sub regex r s = Some s)
  (entries : list (string * Vars.entry))
  (pats : list string) (replacement fe : string) (i : nat) (name : string) (e : Vars.entry)
  (Hnd : NoDup (map fst entries)) (Hi : nth_error entries i = Some (name, e))
  (Hu : Vars.untouched re_search pats e = true) :
  nth_error (fst (Vars.replace_variables re_sub entries pats replacement fe)) i = Some (name, e) /\
  ~ In name (snd (Vars.replace_variables re_sub entries pats replacement fe)) /\
  (forall j n e', nth_error entries j = Some (n, e') ->
     In n (snd (Vars.replace_variables re_sub entries pats replacement fe)) ->
     exists s, e' = Vars.File (Vars.Content s) /\
       Vars.rewrite re_sub pats replacement s <> s /\
       nth_error (fst (Vars.replace_variables re_sub entries pats replacement fe)) j
         = Some (n, Vars.File (Vars.Content (Vars.rewrite re_sub pats replacement s)))).
Proof.
  rewrite VarsFacts.replace_variables_spec. cbn [fst snd].
  set (ext := Vars.ext_of fe).
  assert (Hc : Vars.changed re_sub pats replacement ext (name, e) = false).
  { unfold Vars.changed. cbn [fst snd].
    destruct e as [|[| |s]]; try (apply andb_false_r).
    simpl in Hu. rewrite (VarsFacts.rewrite_no_match re_sub re_search Hengine pats replacement s Hu).
    rewrite String.eqb_refl. apply andb_false_r. }
  (* a counted name belongs to a changed entry *)
  assert (Hin : forall j n e', nth_error entries j = Some (n, e') ->
            In n (map fst (filter (Vars.changed re_sub pats replacement ext) entries)) ->
            Vars.changed re_sub pats replacement ext (n, e') = true).
  { intros j n e' Hj Hn. apply in_map_iff in Hn as [[n2 e2] [Hf Hx]].
    cbn [fst] in Hf. subst n2. apply filter_In in Hx as [Hx Hch].
    apply nth_error_In in Hj.
    rewrite (VarsFacts.nodup_fst entries n e' e2 Hnd Hj Hx). exact Hch. }
  split; [|split].
  - rewrite nth_error_map, Hi. simpl. unfold Vars.updated. rewrite Hc. reflexivity.
  - intros Hn. rewrite (Hin i name e Hi Hn) in Hc. discriminate.
  - intros j n e' Hj Hn. pose proof (Hin j n e' Hj Hn) as Hch.
    unfold Vars.changed in Hch. cbn [fst snd] in Hch.
    destruct e' as [|[| |s]]; try (rewrite andb_false_r in Hch; discriminate).
    exists s. split; [reflexivity|split].
    + apply andb_true_iff in Hch as [_ Hch]. apply negb_true_iff, String.eqb_neq in Hch.
      exact Hch.
    + rewrite nth_error_map, Hj. simpl. unfold Vars.updated.
      unfold Vars.changed in *. cbn [fst snd] in *. rewrite Hch. reflexivity.
Qed.

Lemma C10_unmatched_files_untouched_witness :
  let entries := [("a.html", Vars.File (Vars.Content "<p>hello</p>"));
                  ("b.html", Vars.File (Vars.Content "<h1>@@title</h1>"));
                  ("c.html", Vars.File Vars.Undecodable)] in
  Vars.untouched Vars.rx_search ["@@title"] (Vars.File (Vars.Content "<p>hello</p>")) = true /\
  Vars.replace_variables Vars.rx_sub entries ["@@title"] "X" "html"
    = ([("a.html", Vars.File (Vars.Content "<p>hello</p>"));
        ("b.html", Vars.File (Vars.Content "<h1>X</h1>"));
        ("c.html", Vars.File Vars.Undecodable)], ["b.html"]) /\
  nth_error (fst (Vars.replace_variables Vars.rx_sub entries ["@@title"] "X" "html")) 0
    = Some ("a.html", Vars.File (Vars.Content "<p>hello</p>")) /\
  ~ In "a.html" (snd (Vars.replace_variables Vars.rx_sub entries ["@@title"] "X" "html")).
Proof.
  intros entries.
  split; [vm_compute; reflexivity|]. split; [vm_compute; reflexivity|].
  destruct (C10_unmatched_files_untouched Vars.rx_sub Vars.rx_search VarsFacts.rx_no_match
              entries ["@@title"] "X" "html" 0 "a.html" (Vars.File (Vars.Content "<p>hello</p>")))
    as [H1 [H2 _]].
  - repeat constructor; simpl; intuition discriminate.
  - reflexivity.
  - vm_compute. reflexivity.
  - split; [exact H1|exact H2].
Defined.

End Claims.


(* ================================================================== *)
(** * Further properties of the code *)

Module ExtrasRestructure.
Import Restructure PyFacts ScanTokens.


(** [_get_restructured_path] on a file name loses no token: the folder
    segments and the stem kept in the final name, joined with dashes and
    followed by the extension, give back the file name. *)
Theorem restructure_round_trip (filename : string) :
  let '(folders, file, _) := restructure_name filename in
  exists stem, file = (stem ++ snd (PyPath.splitext filename))%string /\
    (Py.join "-" (folders ++ [stem]) ++ snd (PyPath.splitext filename))%string = filename.
Proof.
  pose proof (restructure_name_parts filename) as H.
  destruct (restructure_name filename) as [[folders file] stop].
  destruct H as (fp & Hfp & Hfile & Ht).
  exists (Py.join "-" fp); split; [exact Hfile|].
  rewrite <- join_concat_split, Ht, join_split by exact Hfp.
  apply splitext_app.
Qed.

(** Every folder segment [_get_restructured_path] produces is a
    [FolderKeywords] entry, only the last one may be a [NoNestKeywords]
    entry, and nesting is reported as stopped exactly when it is one. *)
Theorem restructure_folders_keywords (filename : string) :
  let '(folders, _, stop) := restructure_name filename in
  Forall (fun f => mem f FOLDERS = true) folders /\
  Forall (fun f => mem f NO_NESTING_FOLDERS = false) (removelast folders) /\
  stop = match rev folders with
         | f :: _ => mem f NO_NESTING_FOLDERS
         | [] => false
         end.
Proof.
  unfold restructure_name; destruct (PyPath.splitext filename) as [n e].
  apply scan_loop_folders; [reflexivity|constructor|constructor].
Qed.

End ExtrasRestructure.

Module ExtrasCasing.
Import PyFacts.
Import CaseFacts.

(** Kebab and snake casing are idempotent: casing their output again in
    the same style changes nothing. *)
Theorem kebab_snake_idempotent (s : string) :
  apply_casing (apply_casing s Kebab) Kebab = apply_casing s Kebab /\
  apply_casing (apply_casing s Snake) Snake = apply_casing s Snake.
Proof.
  split; [apply (casing_idem s "-"); left|apply (casing_idem s "_"); right]; split; reflexivity.
Qed.

(** The output of kebab (snake) casing has no upper-case letter, and its
    only separator character is the dash (underscore). *)
Theorem kebab_snake_output (s : string) :
  (forall c, In c (Py.chars (apply_casing s Kebab)) ->
     Py.is_upper c = false /\ (c = "-"%char \/ Py.is_case_sep c = false)) /\
  (forall c, In c (Py.chars (apply_casing s Snake)) ->
     Py.is_upper c = false /\ (c = "_"%char \/ Py.is_case_sep c = false)).
Proof.
  split; intros c; [apply (casing_out_chars s "-"); left|apply (casing_out_chars s "_"); right];
    split; reflexivity.
Qed.

(** A text without separator is one word for [apply_casing]. *)
Lemma one_word_recasing (t : string) :
  (forall x, In x (Py.chars t) -> Py.is_case_sep x = false) ->
  apply_casing t Pascal = Py.capitalize t /\ apply_casing t Camel = Py.lower t /\
  apply_casing t Kebab = Py.lower t /\ apply_casing t Snake = Py.lower t.
Proof.
  intros H; unfold apply_casing. rewrite !nosep_one_word by exact H.
  split; [reflexivity|split; [simpl; apply str_app_nil|split; reflexivity]].
Qed.

(** Pascal and camel casing output contains no separator, so casing it
    again in any of the four styles treats it as one word: Pascal gives
    [capitalize], camel, kebab and snake give [lower], losing the inner
    capitals. *)
Theorem pascal_camel_recasing (s : string) :
  let p := apply_casing s Pascal in
  let c := apply_casing s Camel in
  (forall x, In x (Py.chars p) -> Py.is_case_sep x = false) /\
  (forall x, In x (Py.chars c) -> Py.is_case_sep x = false) /\
  (apply_casing p Pascal = Py.capitalize p /\ apply_casing p Camel = Py.lower p /\
   apply_casing p Kebab = Py.lower p /\ apply_casing p Snake = Py.lower p) /\
  (apply_casing c Pascal = Py.capitalize c /\ apply_casing c Camel = Py.lower c /\
   apply_casing c Kebab = Py.lower c /\ apply_casing c Snake = Py.lower c).
Proof.
  cbv zeta.
  assert (Hp := pascal_camel_nosep s Pascal (or_introl eq_refl)).
  assert (Hc := pascal_camel_nosep s Camel (or_intror eq_refl)).
  split; [exact Hp|split; [exact Hc|split; apply one_word_recasing; assumption]].
Qed.

End ExtrasCasing.

Module ExtrasRoutes.
Import PyFacts CaseFacts RouteShape.

(** Every entry of the route map of [restructure_and_copy_files] is keyed by the name of a source file, and its route is a slash followed by a kebab-cased path: no upper-case letter, no separator other than a dash, and no second leading slash. *)
Theorem route_map_shape (files : list Route.src_file) (dest_path : list string)
    (extension : option string) (cs : case_style) (m : list (string * string)) :
  Route.restructure_and_copy_files files dest_path extension cs = Some m ->
  forall k v, In (k, v) m ->
  In k (map snd files) /\
  exists t, v = ("/" ++ t)%string /\
    match Py.chars t with c :: _ => c <> "/"%char | [] => True end /\
    (forall c, In c (Py.chars t) ->
       Py.is_upper c = false /\ (c = "-"%char \/ Py.is_case_sep c = false)).
Proof.
  intros H k v Hkv; destruct (copy_loop_routes _ _ _ _ _ _ H k v Hkv) as [[]|Hr]; exact Hr.
Qed.

Lemma route_map_shape_witness :
  Route.restructure_and_copy_files
    [([], "apps-ecommerce-product-grid.html"); ([], "index.html")] ["out"] None Pascal
  = Some [("apps-ecommerce-product-grid.html", "/apps/ecommerce/productgrid");
          ("index.html", "/index")] /\
  forall k v, In (k, v) [("apps-ecommerce-product-grid.html", "/apps/ecommerce/productgrid");
                         ("index.html", "/index")] ->
  In k (map snd [([] : list string, "apps-ecommerce-product-grid.html"); ([], "index.html")]) /\
  exists t, v = ("/" ++ t)%string /\
    match Py.chars t with c :: _ => c <> "/"%char | [] => True end /\
    (forall c, In c (Py.chars t) ->
       Py.is_upper c = false /\ (c = "-"%char \/ Py.is_case_sep c = false)).
Proof.
  split; [vm_compute; reflexivity|].
  apply (route_map_shape _ ["out"] None Pascal). vm_compute; reflexivity.
Defined.

End ExtrasRoutes.



Module ExtrasLaravelRoutes.
Import LaravelRoutes PyFacts RouteGenFacts.


(** When the views directory itself lies below a directory named
    [shared] or [partials], [_generate_routes] generates no route and
    leaves [web.php] as it is. *)
Theorem generate_routes_skip_dir (views_dir : list string) (tree : list (list string))
    (web : option string) :
  existsb (fun part => String.eqb part "shared" || String.eqb part "partials") views_dir = true ->
  generate_routes views_dir tree web = (None, web).
Proof.
  intros H. unfold generate_routes.
  assert (E : routes_of views_dir tree = []).
  { unfold routes_of. induction tree as [|rel t IH]; [reflexivity|].
    cbn [filter]. unfold skipped at 1. rewrite existsb_app, H. cbn [orb negb].
    rewrite andb_false_r. exact IH. }
  rewrite E. reflexivity.
Qed.

(** A view at [p1/.../pn/stem.blade.php] whose parts contain no dot or
    slash is served at [/p1/.../pn/stem] by the view [p1. ... .pn.stem]; an
    [index] view is served at its directory, the root [index] at [/]. *)
Theorem laravel_view_route (ps : list string) (stem : string) :
  forallb plain_seg (ps ++ [stem]) = true ->
  route_path_of (ps ++ [(stem ++ ".blade.php")%string])
  = (if String.eqb stem "index"
     then match ps with [] => "/" | _ :: _ => "/" ++ Py.join "/" ps end
     else "/" ++ Py.join "/" (ps ++ [stem]))%string /\
  view_name_of (ps ++ [(stem ++ ".blade.php")%string]) = Py.join "." (ps ++ [stem]).
Proof.
  intros Hp. split.
  - unfold route_path_of. rewrite strip_blade by exact Hp.
    destruct (String.eqb_spec stem "index") as [->|Hne].
    + destruct ps as [|a ps]; [reflexivity|].
      rewrite join_snoc by discriminate.
      set (X := ("/" ++ Py.join "/" (a :: ps))%string).
      replace ("/" ++ (Py.join "/" (a :: ps) ++ "/" ++ "index"))%string with (X ++ "/index")%string
        by (unfold X; now rewrite str_app_assoc).
      rewrite endswith_app.
      replace (String.length (X ++ "/index") - 6)%nat with (String.length X)
        by (rewrite <- !IncludeFacts.chars_length, chars_app, length_app; cbn; lia).
      rewrite substring_app. reflexivity.
    + destruct (slash_join_split ps stem) as [x Ex]. rewrite Ex.
      destruct (Py.endswith (x ++ "/" ++ stem) "/index") eqn:Ee; [|reflexivity].
      exfalso; apply Hne; apply (endswith_index x stem); [|exact Ee].
      intros c Hc. rewrite forallb_app in Hp; apply andb_prop in Hp as [_ Hp].
      cbn in Hp; rewrite andb_true_r in Hp. exact (proj2 (plain_seg_chars stem c Hp Hc)).
  - unfold view_name_of. rewrite strip_blade by exact Hp. apply slash_to_dot, Hp.
Qed.

Lemma generate_routes_skip_dir_witness :
  existsb (fun part => String.eqb part "shared" || String.eqb part "partials")
          ["/"; "app"; "shared"; "views"] = true /\
  generate_routes ["/"; "app"; "shared"; "views"] [["index.blade.php"]] (Some "<?php")
  = (None, Some "<?php").
Proof. split; [reflexivity|]. apply generate_routes_skip_dir. reflexivity. Defined.

Lemma laravel_view_route_witness :
  forallb plain_seg (["charts"; "apex"] ++ ["area"]) = true /\
  route_path_of (["charts"; "apex"] ++ [("area" ++ ".blade.php")%string])
  = (if String.eqb "area" "index"
     then match ["charts"; "apex"] with [] => "/" | _ :: _ => "/" ++ Py.join "/" ["charts"; "apex"] end
     else "/" ++ Py.join "/" (["charts"; "apex"] ++ ["area"]))%string /\
  view_name_of (["charts"; "apex"] ++ [("area" ++ ".blade.php")%string])
  = Py.join "." (["charts"; "apex"] ++ ["area"]).
Proof. split; [reflexivity|]. apply laravel_view_route. reflexivity. Defined.

End ExtrasLaravelRoutes.

Module ExtrasAnchors.
Import LaravelAnchors.

(** [_replace_anchor_links_with_routes] only rewrites links to [.html]
    files: with a route map none of whose keys ends in [.html] (ignoring
    case), an empty one in particular, the content comes back unchanged. *)
Theorem anchor_links_untouched (content : string) (route_map : list (string * string)) :
  (forall k v, In (k, v) route_map -> Py.endswith (Py.lower k) ".html" = false) ->
  replace_anchor_links_with_routes content route_map = content.
Proof.
  intros Hr. apply AnchorFacts.sub_fn_id. intros x Hf _.
  apply AnchorFacts2.anchor_repl_id; assumption.
Qed.

Lemma anchor_links_untouched_witness :
  (forall k v, In (k, v) [("index.php", "/")] -> Py.endswith (Py.lower k) ".html" = false) /\
  replace_anchor_links_with_routes (Py.qq "<a HREF=`index.html`>Home</a>") [("index.php", "/")]
  = Py.qq "<a HREF=`index.html`>Home</a>".
Proof.
  assert (H : forall k v, In (k, v) [("index.php", "/")] ->
              Py.endswith (Py.lower k) ".html" = false)
    by (intros k v [E|[]]; injection E as <- <-; reflexivity).
  split; [exact H|]. apply anchor_links_untouched. exact H.
Defined.

End ExtrasAnchors.

Module ExtrasNormalize.
Import StripInv StripFacts.

(** Both include rewriters normalise an include path with
    [re.sub] on [^(\.\/|\.\.\/)+]: one more [../] or [./] in front of a
    path does not change the normalised path. *)
Theorem normalize_path_dot_prefix (p : string) :
  Includes.normalize_path ("../" ++ p) = Includes.normalize_path p /\
  Includes.normalize_path ("./" ++ p) = Includes.normalize_path p.
Proof.
  unfold Includes.normalize_path. rewrite !strip_sub.
  change (Py.chars ("../" ++ p)) with ("." :: "." :: "/" :: Py.chars p)%char.
  change (Py.chars ("./" ++ p)) with ("." :: "/" :: Py.chars p)%char.
  set (l := Py.chars p).
  pose proof (munch_prefix 3 ("." :: "." :: "/" :: [])%char l eq_refl eq_refl) as H3.
  pose proof (munch_prefix 2 ("." :: "/" :: [])%char l eq_refl eq_refl) as H2.
  cbn [app] in H3, H2. rewrite H3, H2. split; reflexivity.
Qed.

End ExtrasNormalize.
